(** * go-tradier: the request execution and resilience engine

    A shallow embedding of the retry loop [do], the quota-text parser
    [parseQuotaViolationExpiration], the interval splitter [GetTimeSales] with
    [bisect], and the two one-or-many normalisers ([oneToInfinity] and
    [timeSaleList.UnmarshalJSON]) of the Go client, with the properties the
    specification states about them; and of the endpoints built on the loop
    ([getJSON] and the getters that go through [oneToInfinity], [PlaceOrder],
    [PreviewOrder], [ChangeOrder] and [CancelOrder] with [orderToParams] and
    [updateOrderParams], [StreamMarketEvents]), with properties read off
    their code.

    Go values are modelled as follows.
    - [int64] and [time.Duration] are [Z] with the wrap-around written out
      ([wrap64]); [uint64] likewise ([wrapU64]).
    - a Go [string] is its sequence of bytes, a Rocq [string].
    - [time.Time] is the instant it denotes, counted in nanoseconds from
      Go's zero instant (January 1 of year 1, 00:00:00 UTC).
    - interfaces of collaborators the client is handed at construction
      (the HTTP transport, the clock, the backoff policy, the JSON decoder of
      a given Go type) are Section variables and type classes.
    - [float64] is [spec_float], the values of IEEE 754 with their
      comparison.
    - an interface value that a type assertion inspects carries its dynamic
      type ([boxed]). *)

From Stdlib Require Import ZArith List String Ascii Bool Lia SpecFloat.
Import ListNotations.

Local Open Scope string_scope.
Local Open Scope Z_scope.

Set Implicit Arguments.

(** ** Machine integers *)

Module Int64.

Definition min : Z := - 2 ^ 63.
Definition max : Z := 2 ^ 63 - 1.

(** Two's complement wrap-around of an [int64] result. *)
Definition wrap64 (z : Z) : Z := (z + 2 ^ 63) mod 2 ^ 64 - 2 ^ 63.

Definition maxU : Z := 2 ^ 64 - 1.

(** Wrap-around of a [uint64] result. *)
Definition wrapU64 (z : Z) : Z := z mod 2 ^ 64.

Definition in_range (z : Z) : Prop := min <= z <= max.

End Int64.

(** ** Bytes and strings *)

Module GoString.

Definition byte (c : ascii) : Z := Z.of_N (N_of_ascii c).

Definition char (b : Z) : ascii := ascii_of_N (Z.to_N b).

(** [s[n:]] for [n <= len(s)]. *)
Fixpoint drop (n : nat) (s : string) : string :=
  match n, s with
  | O, _ => s
  | S n', String _ t => drop n' t
  | S _, EmptyString => EmptyString
  end.

(** [s[:n]] for [n <= len(s)]. *)
Fixpoint take (n : nat) (s : string) : string :=
  match n, s with
  | O, _ => EmptyString
  | S n', String c t => String c (take n' t)
  | S _, EmptyString => EmptyString
  end.

(** [strings.HasPrefix]. *)
Definition HasPrefix (s pre : string) : bool := String.prefix pre s.

Fixpoint last_or (d : string) (l : list string) : string :=
  match l with
  | [] => d
  | [x] => x
  | _ :: t => last_or d t
  end.

End GoString.

(** ** unicode/utf8 and unicode.IsSpace, as [strings.Fields] uses them *)

Module Utf8.
Import GoString.

Definition RuneError : Z := 65533.

(** The leading byte of a multi-byte sequence: the sequence's length and
    the range its second byte must lie in (the tables [first] and
    [acceptRanges] of the package). *)
Definition lead (b0 : Z) : option (nat * Z * Z) :=
  if (194 <=? b0) && (b0 <=? 223) then Some (2%nat, 128, 191)
  else if b0 =? 224 then Some (3%nat, 160, 191)
  else if b0 =? 237 then Some (3%nat, 128, 159)
  else if (225 <=? b0) && (b0 <=? 239) then Some (3%nat, 128, 191)
  else if b0 =? 240 then Some (4%nat, 144, 191)
  else if b0 =? 244 then Some (4%nat, 128, 143)
  else if (241 <=? b0) && (b0 <=? 243) then Some (4%nat, 128, 191)
  else None.

Definition within (lo hi b : Z) : bool := (lo <=? b) && (b <=? hi).

Definition maskx (b : Z) : Z := Z.land b 63.

(** [utf8.DecodeRuneInString]: the first rune of [s] and its width in
    bytes; [(RuneError, 1)] on an invalid or truncated sequence and
    [(RuneError, 0)] on the empty string. *)
Definition DecodeRuneInString (s : string) : Z * nat :=
  match s with
  | EmptyString => (RuneError, 0%nat)
  | String c0 t =>
    let s0 := byte c0 in
    if s0 <? 128 then (s0, 1%nat)
    else
      match lead s0 with
      | None => (RuneError, 1%nat)
      | Some (sz, lo, hi) =>
        match t with
        | EmptyString => (RuneError, 1%nat)
        | String c1 t1 =>
          let s1 := byte c1 in
          if negb (within lo hi s1) then (RuneError, 1%nat)
          else if (sz <=? 2)%nat
          then (Z.lor (Z.shiftl (Z.land s0 31) 6) (maskx s1), 2%nat)
          else
            match t1 with
            | EmptyString => (RuneError, 1%nat)
            | String c2 t2 =>
              let s2 := byte c2 in
              if negb (within 128 191 s2) then (RuneError, 1%nat)
              else if (sz <=? 3)%nat
              then (Z.lor (Z.lor (Z.shiftl (Z.land s0 15) 12)
                                 (Z.shiftl (maskx s1) 6)) (maskx s2), 3%nat)
              else
                match t2 with
                | EmptyString => (RuneError, 1%nat)
                | String c3 _ =>
                  let s3 := byte c3 in
                  if negb (within 128 191 s3) then (RuneError, 1%nat)
                  else (Z.lor (Z.lor (Z.lor (Z.shiftl (Z.land s0 7) 18)
                                            (Z.shiftl (maskx s1) 12))
                                     (Z.shiftl (maskx s2) 6)) (maskx s3), 4%nat)
                end
            end
        end
      end
  end.

(** [unicode.IsSpace]: the Latin-1 cases of its switch, then the rest of
    the White_Space table. *)
Definition IsSpace (r : Z) : bool :=
  if r <=? 255 then
    (r =? 9) || (r =? 10) || (r =? 11) || (r =? 12) || (r =? 13)
    || (r =? 32) || (r =? 133) || (r =? 160)
  else
    (r =? 5760) || within 8192 8202 r || (r =? 8232) || (r =? 8233)
    || (r =? 8239) || (r =? 8287) || (r =? 12288).

End Utf8.

(** ** strings.Fields *)

Module Strings.
Import GoString Utf8.

Definition close (cur : option string) : list string :=
  match cur with
  | Some fld => [fld]
  | None => []
  end.

(** The loop [for end, rune := range s] of [strings.FieldsFunc]: [cur] is
    the field being scanned, if any.  One unit of [fuel] is spent per rune,
    so [length s] units are enough. *)
Fixpoint FieldsFunc_loop (fuel : nat) (f : Z -> bool) (s : string)
         (cur : option string) : list string :=
  match fuel with
  | O => close cur
  | S fuel' =>
    match s with
    | EmptyString => close cur
    | String _ _ =>
      let '(r, w) := DecodeRuneInString s in
      if f r
      then close cur ++ FieldsFunc_loop fuel' f (drop w s) None
      else FieldsFunc_loop fuel' f (drop w s)
             (Some (match cur with
                    | Some fld => fld ++ take w s
                    | None => take w s
                    end))
    end
  end.

Definition FieldsFunc (s : string) (f : Z -> bool) : list string :=
  FieldsFunc_loop (String.length s) f s None.

(** [strings.Fields]: the maximal runs of non-space runes of [s], in
    order.  (The package's fast path for all-ASCII strings computes the
    same list.) *)
Definition Fields (s : string) : list string := FieldsFunc s IsSpace.


End Strings.

(** ** strconv.ParseInt, base 10, 64 bits *)

Module Strconv.
Import GoString Int64.

Inductive NumError : Type := ErrSyntax | ErrRange.

(** 2^64 / 10 + 1: from this value on, multiplying by ten overflows. *)
Definition cutoff : Z := maxU / 10 + 1.

(** The digit loop of [ParseUint(s, 10, 64)], [n] being the value read
    so far. *)
Fixpoint ParseUint_loop (s : string) (n : Z) : NumError + Z :=
  match s with
  | EmptyString => inr n
  | String c t =>
    let b := byte c in
    if (48 <=? b) && (b <=? 57) then
      let d := b - 48 in
      if cutoff <=? n then inl ErrRange
      else
        let n10 := wrapU64 (n * 10) in
        let n1 := wrapU64 (n10 + d) in
        if (n1 <? n10) || (maxU <? n1) then inl ErrRange
        else ParseUint_loop t n1
    else inl ErrSyntax
  end.

Definition ParseUint (s : string) : NumError + Z :=
  match s with
  | EmptyString => inl ErrSyntax
  | _ => ParseUint_loop s 0
  end.

(** [strconv.ParseInt(s, 10, 64)]. *)
Definition ParseInt (s : string) : NumError + Z :=
  match s with
  | EmptyString => inl ErrSyntax
  | String c t =>
    let neg := (byte c =? 45) in
    let digits := if (byte c =? 43) || neg then t else s in
    match ParseUint digits with
    | inl e => inl e
    | inr un =>
      let cut := 2 ^ 63 in
      if negb neg && (cut <=? un) then inl ErrRange
      else if neg && (cut <? un) then inl ErrRange
      else inr (if neg then wrap64 (- wrap64 un) else wrap64 un)
    end
  end.

(** Decimal rendering of an integer, as [fmt] prints an [int64] with the
    verb [%v] ([strconv.FormatInt(n, 10)]). *)
Fixpoint digits_fuel (fuel : nat) (n : Z) (acc : string) : string :=
  match fuel with
  | O => acc
  | S fuel' =>
    let acc' := String (char (48 + n mod 10)) acc in
    if n <? 10 then acc' else digits_fuel fuel' (n / 10) acc'
  end.

Definition FormatUint (n : Z) : string :=
  digits_fuel (S (Z.to_nat (Z.log2 n))) n EmptyString.

Definition FormatInt (n : Z) : string :=
  if n <? 0 then String "-" (FormatUint (- n)) else FormatUint n.

End Strconv.

(** ** time *)

Module Time.
Import Int64.

(** [time.Duration]: a count of nanoseconds in an [int64]. *)
Definition Duration : Type := Z.

Definition Nanosecond : Duration := 1.
Definition Millisecond : Duration := 1000000.
Definition Second : Duration := 1000000000.
Definition Minute : Duration := 60 * Second.

Definition minDuration : Duration := Int64.min.
Definition maxDuration : Duration := Int64.max.

(** An instant, in nanoseconds since Go's zero instant [time.Time{}].
    The seconds of a [time.Time] are an [int64] of their own, so that
    instants reach far beyond what a [Duration] can span; that field is
    taken wide enough for every instant met here. *)
Definition Time : Type := Z.

Definition zero : Time := 0.

(** Seconds from the zero instant to the Unix epoch
    ([unixToInternal] of the package). *)
Definition unixToInternal : Z := 62135596800.

(** [time.Unix(sec, nsec)]. *)
Definition Unix (sec nsec : Z) : Time := (sec + unixToInternal) * Second + nsec.


(** [t.Nanosecond()]. *)
Definition Nanosecond_of (t : Time) : Z := t mod Second.

Definition IsZero (t : Time) : bool := t =? 0.

Definition After (t u : Time) : bool := u <? t.

Definition Before (t u : Time) : bool := t <? u.

(** [t.Add(d)]. *)
Definition Add (t : Time) (d : Duration) : Time := t + d.

(** [t.Sub(u)]: the difference, or the largest (smallest) [Duration] when
    the difference does not fit one. *)
Definition Sub (t u : Time) : Duration :=
  let d := t - u in
  if d <? minDuration then minDuration
  else if maxDuration <? d then maxDuration
  else d.

End Time.

(** ** Errors and results *)

(** Modelled from the spec: the declaration of the type [TradierError] is
    not among the sources; its fields are the ones [do] and [GetTimeSales]
    read and write, which are those of the specification's FaultInfo (HTTP
    status code, fault code, fault string). *)
Record FaultDetail : Type := mkFaultDetail { ErrorCode : string }.

Record FaultInfo : Type := mkFault { FaultString : string; Detail : FaultDetail }.

Record TradierError : Type := mkTradierError { Fault : FaultInfo; HttpStatusCode : Z }.

(** A Go [error] value.  The client tells a [TradierError] from every other
    dynamic type (by a type assertion) and nothing else. *)
Inductive error : Type :=
| TransportError (msg : string)
| RequestError (msg : string)
| DecodeError (msg : string)
| RuntimeError (msg : string)
| ETradier (e : TradierError).

(** The result of a call: it returns, or it panics with a value. *)
Inductive run (A : Type) : Type :=
| Done (a : A)
| Panicked (why : error).

Arguments Done {A} a.
Arguments Panicked {A} why.

(** ** rate_limit.go *)

Module RateLimit.
Import GoString Strings Strconv Time.

(** Extract quota violation expiration from body message. *)
Definition parseQuotaViolationExpiration (body : string) : run Time :=
  if negb (HasPrefix body "Quota Violation") then Done zero
  else
    let parts := Fields body in
    match nth_error parts (List.length parts - 1) with
    | None => Panicked (RuntimeError "index out of range")
    | Some tok =>
      match ParseInt tok with
      | inl _ => Done zero
      | inr ms => Done (Unix (Z.quot ms 1000) 0)
      end
    end.

(** A decimal digit. *)
Definition is_digit (c : ascii) : bool := (48 <=? byte c) && (byte c <=? 57).

Fixpoint all_digits (s : string) : bool :=
  match s with
  | EmptyString => true
  | String c t => is_digit c && all_digits t
  end.



End RateLimit.

(** ** The collaborators of the client *)

Module Http.

Definition StatusOK : Z := 200.

Definition MethodDelete : string := "DELETE".

Record Request : Type := mkRequest
  { Method : string; URL : string; Header : list (string * string); Payload : option string }.

(** A response, with the bytes its body yields when read to the end. *)
Record Response : Type := mkResponse { StatusCode : Z; Body : string }.

(** What [http.Client.Do] returns: a response and no error; an error and
    no response; or, when a redirect is refused, the last response together
    with an error. *)
Inductive RoundTrip : Type :=
| Answered (r : Response)
| Failed (e : error)
| Stopped (r : Response) (e : error).

(** [url.Values], a form. *)
Definition Values : Type := list (string * list string).

(** [Header.Set]: the entry of [k] is replaced, or added. *)
Fixpoint Header_Set (h : list (string * string)) (k v : string) : list (string * string) :=
  match h with
  | [] => [(k, v)]
  | (k', v') :: t => if String.eqb k' k then (k, v) :: t else (k', v') :: Header_Set t k v
  end.

Definition with_header (req : Request) (k v : string) : Request :=
  mkRequest (Method req) (URL req) (Header_Set (Header req) k v) (Payload req).

End Http.

Module Backoff.
Import Time.

(** [backoff.Stop]: the policy's word for giving up. *)
Definition Stop : Duration := -1.

(** The interface [backoff.BackOff], over the policy's state. *)
Class BackOff (B : Type) : Type := { NextBackOff : B -> Duration * B; Reset : B -> B }.

End Backoff.

Module Json.

(** [json.Unmarshal(data, &v)] at the Go type modelled by [A]: the value
    [v] holds afterwards, and the error, if any. *)
Class Unmarshaler (A : Type) : Type := Unmarshal : string -> A -> A * option error.

End Json.

(** ** The world a call runs in *)

Module World.
Import Time Http.

Inductive LogLine : Type :=
| LogError (e : error)
| LogRetry (d : Duration).

(** What the environment answers: request construction and form encoding
    of net/http and net/url, the transport (its answer to the [n]-th
    request sent), the clock (the [n]-th reading of [time.Now()]), the time
    zone database and the formatting of instants. *)
Record Env : Type := mkEnv
  { NewRequest : string -> string -> option string -> error + Request;
    Encode : Values -> string;
    Do : nat -> Request -> RoundTrip;
    Now : nat -> Time;
    LoadLocation : string -> error + string;
    Format : string -> string -> Time -> string }.

(** The mutable state a call touches: requests sent and clock readings
    taken so far, the backoff policy shared by all calls of a client, the
    sleeps of the calling thread, and the log. *)
Record World (B : Type) : Type := mkWorld
  { calls : nat; ticks : nat; backoff : B; slept : list Duration; logged : list LogLine }.

Arguments mkWorld {B}.
Arguments calls {B}.
Arguments ticks {B}.
Arguments backoff {B}.
Arguments slept {B}.
Arguments logged {B}.

(** A computation over the world that returns or panics. *)
Definition M (B A : Type) : Type := World B -> run A * World B.

Definition ret {B A : Type} (a : A) : M B A := fun w => (Done a, w).

Definition bind {B A C : Type} (c : M B A) (k : A -> M B C) : M B C :=
  fun w =>
    match c w with
    | (Done a, w') => k a w'
    | (Panicked e, w') => (Panicked e, w')
    end.

Definition lift {B A : Type} (r : run A) : M B A := fun w => (r, w).

End World.

Declare Scope go_scope.
Delimit Scope go_scope with go.
Notation "x <- c ;; k" := (World.bind c (fun x => k))
  (at level 61, c at next level, right associativity) : go_scope.
Notation "c ;;; k" := (World.bind c (fun _ => k))
  (at level 61, right associativity) : go_scope.

(** ** client.go *)

Module Tradier.
Import GoString Int64 Time Http Backoff Json World RateLimit.
Local Open Scope go_scope.

Definition defaultRetries : Z := 3.

(** ErrBodyBufferOverflow is returned by Tradier if we make too big of a
    request. *)
Definition ErrBodyBufferOverflow : string := "protocol.http.TooBigBody".

(** The fields of [Client] besides the HTTP client and the backoff policy,
    which live in the environment and in the world. *)
Record Client : Type := mkClient
  { endpoint : string; authHeader : string; retryLimit : Z; account : string }.

(** The three intervals served by the history endpoint; their declarations
    are not among the sources and are taken as given. *)
Record Intervals : Type := mkIntervals
  { IntervalDaily : string; IntervalWeekly : string; IntervalMonthly : string }.

Section Engine.

Context {B : Type} {BO : BackOff B}.
Context {UF : Unmarshaler TradierError}.
Variable env : Env.

(** The world after one more reading of the clock. *)
Definition ticked (w : World B) : World B :=
  mkWorld (calls w) (S (ticks w)) (backoff w) (slept w) (logged w).

Definition tick : M B Time :=
  fun w => (Done (Now env (ticks w)), ticked w).

(** The world after one more request has been sent. *)
Definition sent (w : World B) : World B :=
  mkWorld (S (calls w)) (ticks w) (backoff w) (slept w) (logged w).

Definition send (req : Request) : M B RoundTrip :=
  fun w => (Done (Do env (calls w) req), sent w).

Definition nextBackOff : M B Duration :=
  fun w => let '(d, b) := NextBackOff (backoff w) in
           (Done d, mkWorld (calls w) (ticks w) b (slept w) (logged w)).

Definition Sleep (d : Duration) : M B unit :=
  fun w => (Done tt, mkWorld (calls w) (ticks w) (backoff w) (slept w ++ [d])%list (logged w)).

Definition log (l : LogLine) : M B unit :=
  fun w => (Done tt, mkWorld (calls w) (ticks w) (backoff w) (slept w) (logged w ++ [l])%list).

Definition makeSignedRequest (tc : Client) (method url : string) (body : option Values)
  : error + Request :=
  let bodyReader :=
    match body with
    | Some form => Some (Encode env form)
    | None => None
    end in
  match NewRequest env method url bodyReader with
  | inl err => inl err
  | inr req =>
    let req := with_header req "Accept" "application/json" in
    let req := with_header req "Authorization" (authHeader tc) in
    inr (if negb (String.eqb method MethodDelete)
         then with_header req "Content-Type" "application/x-www-form-urlencoded"
         else req)
  end.

(** The variables [resp], [err] and [sleep] of [do]. *)
Record vars : Type := mkVars
  { resp : option Response; err : option error; sleep : Duration }.

(** How an iteration of the loop of [do] ends: it falls through to the
    next one, it leaves the loop, or it returns from [do]. *)
Inductive ctl : Type :=
| Continue (v : vars)
| Break (v : vars)
| Return (r : option Response * option error).

(** The guard of the sleep between attempts. *)
Definition retrying (maxRetries i : Z) (d : Duration) : bool :=
  (i + 1 <=? maxRetries) && negb (d =? Stop).

(** The end of an iteration: the sleep before the next attempt. *)
Definition pause (maxRetries i : Z) (v : vars) : M B ctl :=
  if retrying maxRetries i (sleep v)
  then log (LogRetry (sleep v)) ;;; Sleep (sleep v) ;;; ret (Continue v)
  else ret (Continue v).

Definition withFaultString (e : TradierError) (s : string) : TradierError :=
  mkTradierError (mkFault s (Detail (Fault e))) (HttpStatusCode e).

(** [TradierError{HttpStatusCode: resp.StatusCode}]: the value [do] hands
    to the decoder. *)
Definition blankFault (r : Response) : TradierError :=
  mkTradierError (mkFault EmptyString (mkFaultDetail EmptyString)) (StatusCode r).


(** One iteration of the loop of [do], [i] being the loop counter. *)
Definition attempt (tc : Client) (method url : string) (body : option Values)
           (maxRetries i : Z) (v : vars) : M B ctl :=
  match makeSignedRequest tc method url body with
  | inl e => ret (Return (None, Some e))
  | inr req =>
    out <- send req ;;
    match out with
    | Answered r =>
      if StatusCode r =? StatusOK
      then ret (Break (mkVars (Some r) None (sleep v)))
      else
        (* The error of [ioutil.ReadAll] is overwritten before it is read. *)
        let respBody := Body r in
        let tradierErr := blankFault r in
        match Unmarshal respBody tradierErr with
        | (tradierErr, None) => ret (Return (Some r, Some (ETradier tradierErr)))
        | (tradierErr, Some _) =>
          let tradierErr := withFaultString tradierErr respBody in
          rateLimitExpiry <- lift (parseQuotaViolationExpiration (FaultString (Fault tradierErr))) ;;
          now <- tick ;;
          sleep' <- (if After rateLimitExpiry (Add now (sleep v))
                     then now' <- tick ;; ret (wrap64 (Sub rateLimitExpiry now' + 1 * Second))
                     else nextBackOff) ;;
          pause maxRetries i (mkVars (Some r) (Some (ETradier tradierErr)) sleep')
        end
    | Failed e =>
      log (LogError e) ;;;
      sleep' <- nextBackOff ;;
      pause maxRetries i (mkVars None (Some e) sleep')
    | Stopped r e =>
      log (LogError e) ;;;
      sleep' <- nextBackOff ;;
      pause maxRetries i (mkVars (Some r) (Some e) sleep')
    end
  end.

(** The loop [for i := 0; i <= maxRetries; i++] from counter [i] on, with
    [n] iterations left. *)
Fixpoint do_loop (n : nat) (tc : Client) (method url : string) (body : option Values)
         (maxRetries i : Z) (v : vars) : M B (option Response * option error) :=
  match n with
  | O => ret (resp v, err v)
  | S n' =>
    c <- attempt tc method url body maxRetries i v ;;
    match c with
    | Continue v' => do_loop n' tc method url body maxRetries (i + 1) v'
    | Break v' => ret (resp v', err v')
    | Return r => ret r
    end
  end.

Definition do (tc : Client) (method url : string) (body : option Values) (maxRetries : Z)
  : M B (option Response * option error) :=
  do_loop (Z.to_nat (maxRetries + 1)) tc method url body maxRetries 0 (mkVars None None 0).

Definition bisect (start end_ : Time) : M B Time :=
  end' <- (if IsZero end_ then tick else ret end_) ;;
  let delta := Sub end' start in
  let middle := Add start (Z.quot delta 2) in
  ret middle.

(** *** Time and sales *)

Variable ivs : Intervals.

Definition isHistory (interval : string) : bool :=
  String.eqb interval (IntervalDaily ivs) || String.eqb interval (IntervalWeekly ivs)
  || String.eqb interval (IntervalMonthly ivs).

(** [Format env tz layout t] stands for [t.In(tz).Format(layout)]. *)
Definition getTimeSalesUrl (tc : Client) (symbol interval : string) (start end_ : Time)
  : run string :=
  let url := endpoint tc in
  let timeFormat := "2006-01-02T15:04:05" in
  let tz := "UTC" in
  match (if isHistory interval
         then Done (url ++ "/v1/markets/history", "2006-01-02", tz)
         else match LoadLocation env "America/New_York" with
              | inl err => Panicked err
              | inr tz => Done (url ++ "/v1/markets/timesales", timeFormat, tz)
              end)%string with
  | Panicked err => Panicked err
  | Done (url, timeFormat, tz) =>
    let url := (url ++ "?symbol=" ++ symbol)%string in
    let url := if negb (String.eqb interval EmptyString)
               then (url ++ "&interval=" ++ interval)%string else url in
    let url := if negb (IsZero start)
               then (url ++ "&start=" ++ Format env tz timeFormat start)%string else url in
    let url := if negb (IsZero end_)
               then (url ++ "&end=" ++ Format env tz timeFormat end_)%string else url in
    Done url
  end.

Section TimeSales.

(** The type [TimeSale] (declared outside the sources), its zero value
    [TimeSale{}] and its JSON decoding, alone and as a slice. *)
Variable TimeSale : Type.
Variable zeroTimeSale : TimeSale.
Context {UT : Unmarshaler TimeSale} {UTs : Unmarshaler (list TimeSale)}.

(** [Member path data] stands for the walk of [json.Decoder.Decode] to the
    member [path] of the document [data], down to the point where it hands
    the member's text to [UnmarshalJSON]: an error when the document cannot
    be decoded that far, [None] when the member is absent. *)
Variable Member : list string -> string -> error + option string.

(** NOTE: If there is only one data point, then Tradier returns a single
    object (not a list). So first try list, and if parsing fails then fall
    back to try parsing a single object.  [tsl] is the receiver's value
    before the call; the result is its value afterwards and the error. *)
Definition timeSaleList_UnmarshalJSON (tsl : list TimeSale) (data : string)
  : list TimeSale * option error :=
  match Unmarshal data (@nil TimeSale) with
  | (tss, None) => (tss, None)
  | (_, Some _) =>
    match Unmarshal data zeroTimeSale with
    | (ts, None) => ([ts], None)
    | (_, Some err) => (tsl, Some err)
    end
  end.

(** The member of the response that holds the bars. *)
Definition timeSalesPath (interval : string) : list string :=
  if isHistory interval then ["History"; "Day"] else ["Series"; "Data"].

Definition decodeTimeSales (body : string) (interval : string)
  : list TimeSale * option error :=
  match Member (timeSalesPath interval) body with
  | inl err => ([], Some err)
  | inr None => ([], None)
  | inr (Some data) =>
    match timeSaleList_UnmarshalJSON [] data with
    | (tsl, None) => (tsl, None)
    | (_, Some err) => ([], Some err)
    end
  end.

(** What a call of [GetTimeSales] yields: the Go pair, or a panic, and the
    world it leaves. *)
Definition fetched : Type := run (list TimeSale * option error) * World B.

(** The two recursive calls of [GetTimeSales], [fetch] being the function
    itself, and the merge of their results. *)
Definition halves (fetch : Time -> Time -> World B -> option fetched)
           (start middle end_ : Time) (w : World B) : option fetched :=
  match fetch start middle w with
  | None => None
  | Some (Panicked e, w3) => Some (Panicked e, w3)
  | Some (Done (_, Some err), w3) => Some (Done ([], Some err), w3)
  | Some (Done (firstHalf, None), w3) =>
    match fetch middle end_ w3 with
    | None => None
    | Some (Panicked e, w4) => Some (Panicked e, w4)
    | Some (Done (_, Some err), w4) => Some (Done ([], Some err), w4)
    | Some (Done (secondHalf, None), w4) =>
      Some (Done ((firstHalf ++ secondHalf)%list, None), w4)
    end
  end.

(** GetTimeSales returns daily, minute, or tick price bars for the given
    symbol.  [fuel] bounds the depth of the recursion; [None] is the answer
    of a run that needs more. *)
Fixpoint GetTimeSales (fuel : nat) (tc : Client) (symbol interval : string)
         (start end_ : Time) (w : World B) : option fetched :=
  match fuel with
  | O => None
  | S fuel' =>
    match getTimeSalesUrl tc symbol interval start end_ with
    | Panicked e => Some (Panicked e, w)
    | Done url =>
      match do tc "GET" url None (retryLimit tc) w with
      | (Panicked e, w1) => Some (Panicked e, w1)
      | (Done (_, Some err), w1) =>
        match err with
        | ETradier te =>
          if String.eqb (ErrorCode (Detail (Fault te))) ErrBodyBufferOverflow then
            (* Too much data for a single request!
               Split the requested time interval in half and recurse. *)
            match bisect start end_ w1 with
            | (Panicked e, w2) => Some (Panicked e, w2)
            | (Done middle, w2) =>
              if Sub end_ middle <? 1 * Minute
              then (* Give up if the interval is < 1min to prevent infinite recursion. *)
                Some (Done ([], Some err), w2)
              else halves (GetTimeSales fuel' tc symbol interval) start middle end_ w2
            end
          else (* Some other error that we don't know how to handle. *)
            Some (Done ([], Some err), w1)
        | _ => Some (Done ([], Some err), w1)
        end
      | (Done (Some r, None), w1) => Some (Done (decodeTimeSales (Body r) interval), w1)
      | (Done (None, None), w1) =>
        Some (Panicked (RuntimeError "nil pointer dereference"), w1)
      end
    end
  end.

(** A call of [GetTimeSales] ends with [r]: what it returns, and the world
    it leaves. *)
Definition GetTimeSales_returns (tc : Client) (symbol interval : string)
           (start end_ : Time) (w : World B) (r : fetched) : Prop :=
  exists fuel : nat, GetTimeSales fuel tc symbol interval start end_ w = Some r.

End TimeSales.

End Engine.

(** *** The general one-or-many normaliser *)

Section OneToInfinity.

(** [T] is the Go type of the argument [i]; the function decodes into a
    [*T], here [option T] with [None] for the nil pointer, and into a
    [[]*T]. *)
Variable T : Type.
Context {UP : Unmarshaler (option T)} {UPs : Unmarshaler (list (option T))}.

(** oneToInfinity takes an arbitrary interface type to unmarshal into and
    byte slice containing JSON data.  It returns an unmarshalled slice of
    the provided type regardless of whether the JSON data contains a single
    key-value pair or an array of key-value pairs. If the data cannot be
    unmarshalled, it will panic. *)
Definition oneToInfinity (b : string) : run (list (option T)) :=
  match Unmarshal b (@None T) with
  | (_, Some _) =>
    match Unmarshal b (@nil (option T)) with
    | (_, Some err) => Panicked err
    | (results, None) => Done results
    end
  | (result, None) => Done ([] ++ [result])%list
  end.

End OneToInfinity.

End Tradier.

(** ** More of the libraries: strings, net/http, net/url, encoding/json *)

Module Lib.
Import GoString Http.

(** [strings.Join] *)
Fixpoint Join (elems : list string) (sep : string) : string :=
  match elems with
  | [] => EmptyString
  | a :: rest =>
    match rest with
    | [] => a
    | _ :: _ => a ++ sep ++ Join rest sep
    end
  end.


(** [Values.Add]: the value is appended to the values of the key. *)
Fixpoint Values_Add (v : Values) (key value : string) : Values :=
  match v with
  | [] => [(key, [value])]
  | (k, vs) :: t =>
    if String.eqb k key then (k, (vs ++ [value])%list) :: t else (k, vs) :: Values_Add t key value
  end.

(** [Values.Get]: the first value of the key, or the empty string. *)
Fixpoint Values_Get (v : Values) (key : string) : string :=
  match v with
  | [] => EmptyString
  | (k, vs) :: t =>
    if String.eqb k key
    then match vs with
         | [] => EmptyString
         | x :: _ => x
         end
    else Values_Get t key
  end.

(** [json.NewDecoder(r).Decode(&v)] at the Go type modelled by [A], for a
    reader that yields [data]: the value [v] holds afterwards, and the
    error, if any. *)
Class Decoder (A : Type) : Type := Decode : string -> A -> A * option error.

Definition nilDereference : error := RuntimeError "nil pointer dereference".

(** [MarshalJSON] of a pointer to a [json.RawMessage]: the message itself
    ([null] for an empty one) and no error; the call through a nil
    pointer panics. *)
Definition RawMessage_MarshalJSON (m : option string) : run (string * option error) :=
  match m with
  | None => Panicked nilDereference
  | Some raw => Done (if String.eqb raw EmptyString then "null" else raw, None)
  end.

(** An interface value holding, for a Go type [T], a [*T], a [[]T] or a
    [[]*T]: the dynamic types the type assertions of the client tell
    apart. *)
Inductive boxed (T : Type) : Type :=
| Pointer (p : option T)
| Slice (s : list T)
| SliceOfPointers (s : list (option T)).

Arguments Pointer {T} p.
Arguments Slice {T} s.
Arguments SliceOfPointers {T} s.

Definition interfaceConversion : error := RuntimeError "interface conversion".

(** The type assertions of [x] to [*T], to [[]T] and to [[]*T]. *)
Definition assertPointer {T : Type} (x : boxed T) : run (option T) :=
  match x with
  | Pointer p => Done p
  | _ => Panicked interfaceConversion
  end.

Definition assertSlice {T : Type} (x : boxed T) : run (list T) :=
  match x with
  | Slice s => Done s
  | _ => Panicked interfaceConversion
  end.

Definition assertSliceOfPointers {T : Type} (x : boxed T) : run (list (option T)) :=
  match x with
  | SliceOfPointers s => Done s
  | _ => Panicked interfaceConversion
  end.

End Lib.

(** ** client.go: the endpoints *)

Module Api.
Import GoString Int64 Strconv Time Http Backoff Json World RateLimit Tradier Lib.
Local Open Scope go_scope.

(** An error value of the endpoints: an error of the executor or of a
    decoder, passed on, or one made by [errors.New] or [fmt.Errorf] with
    the given message. *)
Inductive failure : Type :=
| Passed (e : error)
| Made (msg : string).

(** ErrNoAccountSelected is returned if account-specific methods are
    attempted to be used without selecting an account first. *)
Definition ErrNoAccountSelected : failure := Made "no account selected".

(** The words of an order (class, type, duration) and of an
    acknowledgement (status); their declarations are not among the sources
    and are taken as given. *)
Record Words : Type := mkWords
  { Equity : string; Option : string; Multileg : string; Combo : string;
    OneTriggersOther : string; OneCancelsOther : string; OneTriggersOneCancelsOther : string;
    MarketOrder : string; LimitOrder : string; StopOrder : string; StopLimitOrder : string;
    GTC : string; Day : string; StatusOK : string }.

#[local] Unset Elimination Schemes.

(** The type [Order] (declared outside the sources), with the fields that
    [orderToParams] and [updateOrderParams] read of an order and of its
    legs; [Type_] is the field [Type]. *)
Inductive Order : Type := mkOrder
  { Class : string; Duration : string; Symbol : string; OptionSymbol : string;
    Side : string; Quantity : spec_float; Type_ : string;
    Price : spec_float; StopPrice : spec_float; Legs : list Order }.

#[local] Set Elimination Schemes.

(** The acknowledgement of an order: [struct { Order struct { Id int;
    Status string } }]. *)
Record Ack : Type := mkAck { Id : Z; Status : string }.

(** The session of a stream of market events: [struct { Stream struct {
    SessionId string; Url string } }]. *)
Record Session : Type := mkSession { SessionId : string; Url : string }.

(** The result of [oneToInfinity] as the interface value it is: the
    dynamic type is [[]*T], whichever branch made it. *)
Definition oneToInfinity_interface {T : Type} {UP : Unmarshaler (option T)}
           {UPs : Unmarshaler (list (option T))} (b : string) : run (boxed T) :=
  match oneToInfinity b with
  | Done results => Done (SliceOfPointers results)
  | Panicked err => Panicked err
  end.

Section Endpoints.

Context {B : Type} {BO : BackOff B}.
Context {UF : Unmarshaler TradierError}.
Variable env : Env.

(** The field [Status] of a response: its status line. *)
Variable Response_Status : Response -> string.

(** [DecodeRaw path data v] stands for [Decode] into a struct whose only
    leaf, the member at [path], is a [*json.RawMessage] that holds [v]: the
    leaf afterwards (nil when nothing was stored) and the error. *)
Variable DecodeRaw : list string -> string -> option string -> option string * option error.

(** [strconv.FormatFloat(f, fmt, prec, 64)] *)
Variable FormatFloat : spec_float -> ascii -> Z -> string.

Variable kw : Words.

Definition getJSON {A : Type} (tc : Client) (url : string)
           (decode : string -> A -> A * option error) (result : A)
  : M B (A * option failure) :=
  r <- do env tc "GET" url None (retryLimit tc) ;;
  match r with
  | (_, Some err) => ret (result, Some (Passed err))
  | (None, None) => lift (Panicked nilDereference)
  | (Some resp, None) =>
    if negb (StatusCode resp =? Http.StatusOK)
    then ret (result, Some (Made (Response_Status resp ++ ": " ++ Body resp)))
    else
      let (result, err) := decode (Body resp) result in
      ret (result, option_map Passed err)
  end.

(** *** Accounts *)

Variables AccountBalances Position Event ClosedPosition : Type.
Context {UAB : Unmarshaler (option AccountBalances)}
        {UABs : Unmarshaler (list (option AccountBalances))}.
Context {UPo : Unmarshaler (option Position)} {UPos : Unmarshaler (list (option Position))}.
Context {UEv : Unmarshaler (option Event)} {UEvs : Unmarshaler (list (option Event))}.
Context {UCP : Unmarshaler (option ClosedPosition)}
        {UCPs : Unmarshaler (list (option ClosedPosition))}.
Context {UOr : Unmarshaler (option Order)} {UOrs : Unmarshaler (list (option Order))}.

(** GetAccountBalances returns the account balances for the given account.
    The error of [getJSON] is overwritten by that of [MarshalJSON] before
    it is read, here and in the getters below. *)
Definition GetAccountBalances (tc : Client) : M B (option AccountBalances * option failure) :=
  if String.eqb (account tc) EmptyString then ret (None, Some ErrNoAccountSelected)
  else
    let url := endpoint tc ++ "/v1/accounts/" ++ account tc ++ "/balances" in
    r <- getJSON tc url (DecodeRaw ["Balances"]) None ;;
    let (result, _) := r in
    m <- lift (RawMessage_MarshalJSON result) ;;
    match m with
    | (_, Some err) => ret (None, Some (Passed err))
    | (out, None) =>
      i <- lift (oneToInfinity_interface (T:=AccountBalances) out) ;;
      x <- lift (assertPointer i) ;;
      ret (x, None)
    end.

(** GetAccountPositions returns a list of positions for the given account. *)
Definition GetAccountPositions (tc : Client) : M B (list (option Position) * option failure) :=
  if String.eqb (account tc) EmptyString then ret ([], Some ErrNoAccountSelected)
  else
    let url := endpoint tc ++ "/v1/accounts/" ++ account tc ++ "/positions" in
    r <- getJSON tc url (DecodeRaw ["Positions"; "Position"]) None ;;
    let (result, _) := r in
    m <- lift (RawMessage_MarshalJSON result) ;;
    match m with
    | (_, Some err) => ret ([], Some (Passed err))
    | (out, None) =>
      i <- lift (oneToInfinity_interface (T:=Position) out) ;;
      x <- lift (assertSliceOfPointers i) ;;
      ret (x, None)
    end.

(** GetAccountHistory returns the account history for the given account. *)
Definition GetAccountHistory (tc : Client) (limit : Z)
  : M B (list (option Event) * option failure) :=
  if String.eqb (account tc) EmptyString then ret ([], Some ErrNoAccountSelected)
  else
    let url := endpoint tc ++ "/v1/accounts/" ++ account tc ++ "/history" in
    let url := if 0 <? limit then url ++ "?limit=" ++ FormatInt limit else url in
    r <- getJSON tc url (DecodeRaw ["History"; "Event"]) None ;;
    let (result, _) := r in
    m <- lift (RawMessage_MarshalJSON result) ;;
    match m with
    | (_, Some err) => ret ([], Some (Passed err))
    | (out, None) =>
      i <- lift (oneToInfinity_interface (T:=Event) out) ;;
      x <- lift (assertSliceOfPointers i) ;;
      ret (x, None)
    end.

(** GetAccountCostBasis returns the cost basis for the closed positions. *)
Definition GetAccountCostBasis (tc : Client)
  : M B (list (option ClosedPosition) * option failure) :=
  if String.eqb (account tc) EmptyString then ret ([], Some ErrNoAccountSelected)
  else
    let url := endpoint tc ++ "/v1/accounts/" ++ account tc ++ "/gainloss" in
    r <- getJSON tc url (DecodeRaw ["gainloss"; "closed_position"]) None ;;
    let (result, _) := r in
    m <- lift (RawMessage_MarshalJSON result) ;;
    match m with
    | (_, Some err) => ret ([], Some (Passed err))
    | (out, None) =>
      i <- lift (oneToInfinity_interface (T:=ClosedPosition) out) ;;
      x <- lift (assertSliceOfPointers i) ;;
      ret (x, None)
    end.

(** GetOrderStatus returns the status of an order. *)
Definition GetOrderStatus (tc : Client) (orderId : Z) : M B (option Order * option failure) :=
  if String.eqb (account tc) EmptyString then ret (None, Some ErrNoAccountSelected)
  else
    let url := endpoint tc ++ "/v1/accounts/" ++ account tc ++ "/orders/" ++ FormatInt orderId in
    r <- getJSON tc url (DecodeRaw ["Order"]) None ;;
    let (result, _) := r in
    m <- lift (RawMessage_MarshalJSON result) ;;
    match m with
    | (_, Some err) => ret (None, Some (Passed err))
    | (out, None) =>
      i <- lift (oneToInfinity_interface (T:=Order) out) ;;
      x <- lift (assertPointer i) ;;
      ret (x, None)
    end.

(** *** Orders *)

Context {DA : Decoder Ack}.

(** The loop over the legs of a multileg or combo order, from index [i]. *)
Fixpoint orderToParams_legs (form : Values) (i : Z) (legs : list Order) : Values :=
  match legs with
  | [] => form
  | leg :: rest =>
    let form := Values_Add form ("option_symbol[" ++ FormatInt i ++ "]") (OptionSymbol leg) in
    let form := Values_Add form ("side[" ++ FormatInt i ++ "]") (Side leg) in
    let form := Values_Add form ("quantity[" ++ FormatInt i ++ "d]")
                           (FormatFloat (Quantity leg) "f" 0) in
    orderToParams_legs form (i + 1) rest
  end.

(** The loop over the legs of a one-triggers-other, one-cancels-other or
    one-triggers-one-cancels-other order, from index [i]. *)
Fixpoint orderToParams_orders (form : Values) (i : Z) (legs : list Order) : Values :=
  match legs with
  | [] => form
  | leg :: rest =>
    let form := Values_Add form ("symbol[" ++ FormatInt i ++ "]") (Symbol leg) in
    let form := Values_Add form ("quantity[" ++ FormatInt i ++ "]")
                           (FormatFloat (Quantity leg) "f" 0) in
    let form := Values_Add form ("type[" ++ FormatInt i ++ "]") (Type_ leg) in
    let form := Values_Add form ("side[" ++ FormatInt i ++ "]") (Side leg) in
    let form := if negb (String.eqb (OptionSymbol leg) EmptyString)
                then Values_Add form ("option_symbol[" ++ FormatInt i ++ "]") (OptionSymbol leg)
                else form in
    let form := if String.eqb (Type_ leg) (LimitOrder kw)
                   || String.eqb (Type_ leg) (StopLimitOrder kw)
                then Values_Add form ("price[" ++ FormatInt i ++ "]")
                                (FormatFloat (Price leg) "f" 2)
                else form in
    let form := if String.eqb (Type_ leg) (StopOrder kw)
                   || String.eqb (Type_ leg) (StopLimitOrder kw)
                then Values_Add form ("stop[" ++ FormatInt i ++ "]")
                                (FormatFloat (StopPrice leg) "f" 2)
                else form in
    orderToParams_orders form (i + 1) rest
  end.

(** Convert the given order to URL parameters for a create order request.
    We also do some sanity checking to prevent placing orders with unset
    fields. *)
Definition orderToParams (order : Order) : Values * option failure :=
  let form : Values := [] in
  let form := Values_Add form "class" (Class order) in
  let form := Values_Add form "duration" (Duration order) in
  if String.eqb (Class order) (Equity kw) || String.eqb (Class order) (Option kw) then
    let form := Values_Add form "symbol" (Symbol order) in
    let form := Values_Add form "side" (Side order) in
    let form := Values_Add form "quantity" (FormatFloat (Quantity order) "f" 0) in
    let form := Values_Add form "type" (Type_ order) in
    let form := if String.eqb (Type_ order) (LimitOrder kw)
                   || String.eqb (Type_ order) (StopLimitOrder kw)
                then Values_Add form "price" (FormatFloat (Price order) "f" 2) else form in
    let form := if String.eqb (Type_ order) (StopOrder kw)
                   || String.eqb (Type_ order) (StopLimitOrder kw)
                then Values_Add form "stop" (FormatFloat (StopPrice order) "f" 2) else form in
    (form, None)
  else if String.eqb (Class order) (Multileg kw) || String.eqb (Class order) (Combo kw) then
    let form := Values_Add form "symbol" (Symbol order) in
    let form := Values_Add form "type" (Type_ order) in
    let form := if String.eqb (Type_ order) (LimitOrder kw)
                   || String.eqb (Type_ order) (StopLimitOrder kw)
                then Values_Add form "price" (FormatFloat (Price order) "f" 2) else form in
    let form := if String.eqb (Type_ order) (StopOrder kw)
                   || String.eqb (Type_ order) (StopLimitOrder kw)
                then Values_Add form "stop" (FormatFloat (StopPrice order) "f" 2) else form in
    (orderToParams_legs form 0 (Legs order), None)
  else if String.eqb (Class order) (OneTriggersOther kw)
          || String.eqb (Class order) (OneCancelsOther kw)
          || String.eqb (Class order) (OneTriggersOneCancelsOther kw) then
    (orderToParams_orders form 0 (Legs order), None)
  else (form, Some (Made ("unknown order class: " ++ Class order))).

Definition updateOrderParams (order : Order) : Values * option failure :=
  let form : Values := [] in
  if negb (String.eqb (Type_ order) (MarketOrder kw))
     && negb (String.eqb (Type_ order) (LimitOrder kw))
     && negb (String.eqb (Type_ order) (StopOrder kw))
     && negb (String.eqb (Type_ order) (StopLimitOrder kw))
  then (form, Some (Made ("unknown order type: " ++ Type_ order)))
  else
    let form := Values_Add form "type" (Type_ order) in
    if negb (String.eqb (Duration order) (GTC kw)) && negb (String.eqb (Duration order) (Day kw))
    then (form, Some (Made ("unknown order duration: " ++ Duration order)))
    else
      let form := Values_Add form "duration" (Duration order) in
      match (if String.eqb (Type_ order) (LimitOrder kw)
                || String.eqb (Type_ order) (StopLimitOrder kw)
             then if SFleb (Price order) (S754_zero false)
                  then inl (Made "cannot place limit order without limit price")
                  else inr (Values_Add form "price" (FormatFloat (Price order) "f" 2))
             else inr form) with
      | inl err => (form, Some err)
      | inr form =>
        if String.eqb (Type_ order) (StopOrder kw)
           || String.eqb (Type_ order) (StopLimitOrder kw)
        then if SFleb (StopPrice order) (S754_zero false)
             then (form, Some (Made "cannot place stop order without stop price"))
             else (Values_Add form "stop" (FormatFloat (StopPrice order) "f" 2), None)
        else (form, None)
      end.

(** PlaceOrder places an order with the Tradier API. *)
Definition PlaceOrder (tc : Client) (order : Order) : M B (Z * option failure) :=
  if String.eqb (account tc) EmptyString then ret (0, Some ErrNoAccountSelected)
  else
    let url := endpoint tc ++ "/v1/accounts/" ++ account tc ++ "/orders" in
    match orderToParams order with
    | (_, Some err) => ret (0, Some err)
    | (form, None) =>
      r <- do env tc "POST" url (Some form) 0 ;;
      match r with
      | (_, Some err) => ret (0, Some (Passed err))
      | (None, None) => lift (Panicked nilDereference)
      | (Some resp, None) =>
        if negb (StatusCode resp =? Http.StatusOK)
        then ret (0, Some (Made (Response_Status resp ++ ": " ++ Body resp)))
        else
          match Decode (Body resp) (mkAck 0 EmptyString) with
          | (result, Some err) => ret (Id result, Some (Passed err))
          | (result, None) =>
            if negb (String.eqb (Status result) (StatusOK kw))
            then ret (Id result, Some (Made ("received order status: " ++ Status result)))
            else ret (Id result, None)
          end
      end
    end.

(** The type [OrderPreview] (declared outside the sources) and its field
    [Status]; the result of [PreviewOrder] is decoded into a pointer to
    one. *)
Variable OrderPreview : Type.
Variable OrderPreview_Status : OrderPreview -> string.
Context {DP : Decoder (option OrderPreview)}.

(** PreviewOrder returns the cost of the order without actually placing
    it. *)
Definition PreviewOrder (tc : Client) (order : Order)
  : M B (option OrderPreview * option failure) :=
  if String.eqb (account tc) EmptyString then ret (None, Some ErrNoAccountSelected)
  else
    let url := endpoint tc ++ "/v1/accounts/" ++ account tc ++ "/orders" in
    match orderToParams order with
    | (_, Some err) => ret (None, Some err)
    | (form, None) =>
      let form := Values_Add form "preview" "true" in
      r <- do env tc "POST" url (Some form) (retryLimit tc) ;;
      match r with
      | (_, Some err) => ret (None, Some (Passed err))
      | (None, None) => lift (Panicked nilDereference)
      | (Some resp, None) =>
        if negb (StatusCode resp =? Http.StatusOK)
        then ret (None, Some (Made (Response_Status resp ++ ": " ++ Body resp)))
        else
          match Decode (Body resp) None with
          | (result, Some err) => ret (result, Some (Passed err))
          | (None, None) => ret (None, Some (Made "didn't receive order preview"))
          | (Some preview, None) =>
            if negb (String.eqb (OrderPreview_Status preview) (StatusOK kw))
            then ret (Some preview,
                      Some (Made ("received order status: " ++ OrderPreview_Status preview)))
            else ret (Some preview, None)
          end
      end
    end.

(** What [ChangeOrder] and [CancelOrder] make of a response of status 200:
    the checks of the acknowledgement, [mismatch] being the message for an
    acknowledgement of another order. *)
Definition acknowledged (orderId : Z) (mismatch : Z -> Z -> string) (resp : Response)
  : option failure :=
  match Decode (Body resp) (mkAck 0 EmptyString) with
  | (_, Some err) => Some (Passed err)
  | (result, None) =>
    if negb (String.eqb (Status result) (StatusOK kw))
    then Some (Made ("received order status: " ++ Status result))
    else if negb (Id result =? orderId)
         then Some (Made (mismatch orderId (Id result)))
         else None
  end.

(** ChangeOrder changes an existing order. *)
Definition ChangeOrder (tc : Client) (orderId : Z) (order : Order) : M B (option failure) :=
  if String.eqb (account tc) EmptyString then ret (Some ErrNoAccountSelected)
  else
    let url := endpoint tc ++ "/v1/accounts/" ++ account tc ++ "/orders/" ++ FormatInt orderId in
    match updateOrderParams order with
    | (_, Some err) => ret (Some err)
    | (form, None) =>
      r <- do env tc "PUT" url (Some form) (retryLimit tc) ;;
      match r with
      | (_, Some err) => ret (Some (Passed err))
      | (None, None) => lift (Panicked nilDereference)
      | (Some resp, None) =>
        if negb (StatusCode resp =? Http.StatusOK)
        then ret (Some (Made (Response_Status resp ++ ": " ++ Body resp)))
        else ret (acknowledged orderId
                    (fun asked got => "changed order " ++ FormatInt asked ++ " but received "
                                      ++ FormatInt got ++ " in response") resp)
      end
    end.

(** CancelOrder cancels an order. *)
Definition CancelOrder (tc : Client) (orderId : Z) : M B (option failure) :=
  if String.eqb (account tc) EmptyString then ret (Some ErrNoAccountSelected)
  else
    let url := endpoint tc ++ "/v1/accounts/" ++ account tc ++ "/orders/" ++ FormatInt orderId in
    r <- do env tc "DELETE" url None (retryLimit tc) ;;
    match r with
    | (_, Some err) => ret (Some (Passed err))
    | (None, None) => lift (Panicked nilDereference)
    | (Some resp, None) =>
      if negb (StatusCode resp =? Http.StatusOK)
      then ret (Some (Made (Response_Status resp ++ ": " ++ Body resp)))
      else ret (acknowledged orderId
                  (fun asked got => "asked to cancel order " ++ FormatInt asked
                                    ++ " but received " ++ FormatInt got ++ " in response") resp)
    end.

(** *** Markets *)

Variables Security Quote MarketCalendar : Type.
Context {USe : Unmarshaler (option Security)} {USes : Unmarshaler (list (option Security))}.
Context {UQu : Unmarshaler (option Quote)} {UQus : Unmarshaler (list (option Quote))}.
Context {UMC : Unmarshaler (option MarketCalendar)}
        {UMCs : Unmarshaler (list (option MarketCalendar))}.

(** LookupSecurities returns a list of securities matching the given
    query. *)
Definition LookupSecurities (tc : Client) (types exchanges : list string) (query : string)
  : M B (list Security * option failure) :=
  let url := endpoint tc ++ "/v1/markets/lookup" in
  let url := if (0 <? List.length types)%nat then url ++ "?types=" ++ Join types "," else url in
  let url := if (0 <? List.length exchanges)%nat
             then url ++ "&exchanges=" ++ Join exchanges "," else url in
  let url := if negb (String.eqb query EmptyString) then url ++ "&q=" ++ query else url in
  r <- getJSON tc url (DecodeRaw ["Securities"; "Security"]) None ;;
  let (result, _) := r in
  m <- lift (RawMessage_MarshalJSON result) ;;
  match m with
  | (_, Some err) => ret ([], Some (Passed err))
  | (out, None) =>
    i <- lift (oneToInfinity_interface (T:=Security) out) ;;
    x <- lift (assertSlice i) ;;
    ret (x, None)
  end.

(** GetEasyToBorrow returns a list of securities that are easy to borrow. *)
Definition GetEasyToBorrow (tc : Client) : M B (list Security * option failure) :=
  let url := endpoint tc ++ "/v1/markets/etb" in
  r <- getJSON tc url (DecodeRaw ["Securities"; "Security"]) None ;;
  let (result, _) := r in
  m <- lift (RawMessage_MarshalJSON result) ;;
  match m with
  | (_, Some err) => ret ([], Some (Passed err))
  | (out, None) =>
    i <- lift (oneToInfinity_interface (T:=Security) out) ;;
    x <- lift (assertSlice i) ;;
    ret (x, None)
  end.

(** GetQuotes returns a list of quotes for the given symbols. *)
Definition GetQuotes (tc : Client) (symbols : list string)
  : M B (list (option Quote) * option failure) :=
  let url := endpoint tc ++ "/v1/markets/quotes?symbols=" ++ Join symbols "," in
  r <- getJSON tc url (DecodeRaw ["Quotes"; "Quote"]) None ;;
  let (result, _) := r in
  m <- lift (RawMessage_MarshalJSON result) ;;
  match m with
  | (_, Some err) => ret ([], Some (Passed err))
  | (out, None) =>
    i <- lift (oneToInfinity_interface (T:=Quote) out) ;;
    x <- lift (assertSliceOfPointers i) ;;
    ret (x, None)
  end.

Context {DS : Decoder Session}.

(** StreamMarketEvents subscribes to a stream of market events for the
    given symbols.  Filter restricts the type of events streamed and can
    include: summary, trade, quote, timesale. If nil then all events are
    streamed.  The stream returned is the body of the response, here the
    bytes it yields. *)
Definition StreamMarketEvents (tc : Client) (symbols filter : list string)
  : M B (option string * option failure) :=
  if (List.length symbols =? 0)%nat
  then ret (None, Some (Made "list of symbols is required"))
  else
    (* First create a streaming session. *)
    let createSessionUrl := endpoint tc ++ "/v1/markets/events/session" in
    r <- do env tc "POST" createSessionUrl None (retryLimit tc) ;;
    match r with
    | (_, Some err) => ret (None, Some (Passed err))
    | (None, None) => lift (Panicked nilDereference)
    | (Some createSessionResp, None) =>
      if negb (StatusCode createSessionResp =? Http.StatusOK)
      then ret (None, Some (Made (Response_Status createSessionResp ++ ": "
                                  ++ Body createSessionResp)))
      else
        match Decode (Body createSessionResp) (mkSession EmptyString EmptyString) with
        | (_, Some err) => ret (None, Some (Passed err))
        | (sessionResp, None) =>
          (* Now open the stream. *)
          let form : Values := [] in
          let form := Values_Add form "linebreak" "true" in
          let form := Values_Add form "sessionid" (SessionId sessionResp) in
          let form := Values_Add form "symbols" (Join symbols ",") in
          let form := if (0 <? List.length filter)%nat
                      then Values_Add form "filter" (Join filter ",") else form in
          let form := Values_Add form "advancedDetails" "true" in
          (* If we fail here then just make a new session rather than
             retrying. *)
          r <- do env tc "POST" (Url sessionResp) (Some form) 0 ;;
          match r with
          | (_, Some err) => ret (None, Some (Passed err))
          | (None, None) => ret (None, Some (Made "nil response with no error"))
          | (Some resp, None) =>
            if negb (StatusCode resp =? Http.StatusOK)
            then ret (None, Some (Made (Response_Status resp ++ ": " ++ Body resp)))
            else ret (Some (Body resp), None)
          end
        end
    end.

(** GetMarketCalendar returns the market calendar for a given month. *)
Definition GetMarketCalendar (tc : Client) (year month : Z)
  : M B (list MarketCalendar * option failure) :=
  let params := "?year=" ++ FormatInt year ++ "&month=" ++ FormatInt month in
  let url := endpoint tc ++ "/v1/markets/calendar" ++ params in
  r <- getJSON tc url (DecodeRaw ["Calendar"; "Days"; "Day"]) None ;;
  let (result, _) := r in
  m <- lift (RawMessage_MarshalJSON result) ;;
  match m with
  | (_, Some err) => ret ([], Some (Passed err))
  | (out, None) =>
    i <- lift (oneToInfinity_interface (T:=MarketCalendar) out) ;;
    x <- lift (assertSlice i) ;;
    ret (x, None)
  end.

End Endpoints.

End Api.

(** ** The timestamp parser *)

Module DateTime.
Import GoString Strconv Time.

(** *** The proleptic Gregorian calendar of package time *)






(** *** Fixed-width fields *)















End DateTime.

(** ** Stand-ins for the collaborators, for concrete runs *)

Module Mock.
Import GoString Strings Strconv Time Http Backoff Json World Tradier.

(** A doubling schedule from half a second, capped at a minute, that gives
    up at the tenth call. *)
#[export] Instance doubling : BackOff nat :=
  {| NextBackOff n :=
       (if (10 <=? n)%nat then Stop
        else Z.min (500 * Millisecond * 2 ^ Z.of_nat n) Minute, S n);
     Reset _ := O |}.

Definition syntaxError : error := DecodeError "invalid character".

(** A decoder of structured faults that takes the two-token text
    [fault <code>] for one and refuses every other text. *)
#[export] Instance faultDecoder : Unmarshaler TradierError :=
  fun data v =>
    match Fields data with
    | [tag; code] =>
      if String.eqb tag "fault"
      then (mkTradierError (mkFault "fault" (mkFaultDetail code)) (HttpStatusCode v), None)
      else (v, Some syntaxError)
    | _ => (v, Some syntaxError)
    end.

(** Decoders of a time sale (here a number), of a slice of them (the token
    [list], then the elements), of a pointer and of a slice of pointers.
    As in JSON, [null] decodes at every type and changes nothing. *)
Fixpoint parseAll (toks : list string) : option (list Z) :=
  match toks with
  | [] => Some []
  | tok :: rest =>
    match ParseInt tok, parseAll rest with
    | inr n, Some l => Some (n :: l)
    | _, _ => None
    end
  end.

Fixpoint parseAllPtr (toks : list string) : option (list (option Z)) :=
  match toks with
  | [] => Some []
  | tok :: rest =>
    match (if String.eqb tok "null" then Some None
           else match ParseInt tok with inr n => Some (Some n) | inl _ => None end),
          parseAllPtr rest with
    | Some x, Some l => Some (x :: l)
    | _, _ => None
    end
  end.

#[export] Instance numberDecoder : Unmarshaler Z :=
  fun data v =>
    if String.eqb data "null" then (v, None)
    else match ParseInt data with
         | inr n => (n, None)
         | inl _ => (v, Some syntaxError)
         end.

#[export] Instance numbersDecoder : Unmarshaler (list Z) :=
  fun data v =>
    if String.eqb data "null" then (v, None)
    else match Fields data with
         | tag :: toks =>
           match (if String.eqb tag "list" then parseAll toks else None) with
           | Some l => (l, None)
           | None => (v, Some syntaxError)
           end
         | [] => (v, Some syntaxError)
         end.

#[export] Instance pointerDecoder : Unmarshaler (option Z) :=
  fun data v =>
    if String.eqb data "null" then (None, None)
    else match ParseInt data with
         | inr n => (Some n, None)
         | inl _ => (v, Some syntaxError)
         end.

#[export] Instance pointersDecoder : Unmarshaler (list (option Z)) :=
  fun data v =>
    if String.eqb data "null" then (v, None)
    else match Fields data with
         | tag :: toks =>
           match (if String.eqb tag "list" then parseAllPtr toks else None) with
           | Some l => (l, None)
           | None => (v, Some syntaxError)
           end
         | [] => (v, Some syntaxError)
         end.

(** An environment with the given transport and clock; requests are always
    well formed, and instants print as their count of nanoseconds. *)
Definition env (transport : nat -> Request -> RoundTrip) (clock : nat -> Time) : Env :=
  mkEnv (fun method url body => inr (mkRequest method url [] body))
        (fun _ => EmptyString)
        transport clock
        (fun name => inr name)
        (fun _ _ t => FormatInt t).

(** An environment in which no request can be built. *)
Definition unbuildable : Env :=
  mkEnv (fun _ _ _ => inl (RequestError "invalid method"))
        (fun _ => EmptyString)
        (fun _ _ => Failed (TransportError "connection refused"))
        (fun _ => 0)
        (fun name => inr name)
        (fun _ _ t => FormatInt t).

Definition member (path : list string) (body : string) : error + option string :=
  inr (Some body).

Definition intervals : Intervals := mkIntervals "daily" "weekly" "monthly".

Definition client : Client := mkClient "https://api.tradier.com" "Bearer token" defaultRetries EmptyString.

Definition world0 : World nat := mkWorld O O O [] [].

(** 2006-01-02T15:04:05Z, and a clock that stands still at it. *)
Definition t2006 : Time := Unix 1136214245 0.

Definition frozen : nat -> Time := fun _ => t2006.

(** A clock that stands still two hours later. *)
Definition later : nat -> Time := fun _ => t2006 + 120 * Minute.

(** A transport that refuses the first request as too big and serves the
    next two. *)
Definition tooBigThenData : nat -> Request -> RoundTrip :=
  fun n _ =>
    match n with
    | O => Answered (mkResponse 400 "fault protocol.http.TooBigBody")
    | S O => Answered (mkResponse 200 "list 1 2")
    | _ => Answered (mkResponse 200 "list 3")
    end.

(** A transport that never connects. *)
Definition refused : nat -> Request -> RoundTrip :=
  fun _ _ => Failed (TransportError "connection refused").

(** A transport that always answers with the given status and body. *)
Definition answering (status : Z) (body : string) : nat -> Request -> RoundTrip :=
  fun _ _ => Answered (mkResponse status body).

End Mock.

(** ** Stand-ins for the collaborators of the endpoints *)

Module MockApi.
Import GoString Strings Strconv Time Http Backoff Json World Tradier Lib Api Mock.

(** A status line that is the status code alone. *)
Definition statusLine (r : Response) : string := FormatInt (StatusCode r).

(** An envelope decoder that stores the whole document in the leaf. *)
Definition wholeBody (path : list string) (data : string) (v : option string)
  : option string * option error := (Some data, None).

(** A formatter of floats that tells zero, the infinities and the rest
    apart. *)
Definition formatFloat (f : spec_float) (fmt : ascii) (prec : Z) : string :=
  match f with
  | S754_zero _ => "0"
  | S754_infinity false => "+Inf"
  | S754_infinity true => "-Inf"
  | S754_nan => "NaN"
  | S754_finite _ _ _ => "finite"
  end.

Definition words : Words :=
  mkWords "equity" "option" "multileg" "combo" "oto" "oco" "otoco"
          "market" "limit" "stop" "stop_limit" "gtc" "day" "ok".

(** A decoder of acknowledgements that takes the two-token text
    [<id> <status>] for one and refuses every other text. *)
#[export] Instance ackDecoder : Decoder Ack :=
  fun data v =>
    match Fields data with
    | [id; status] =>
      match ParseInt id with
      | inr n => (mkAck n status, None)
      | inl _ => (v, Some syntaxError)
      end
    | _ => (v, Some syntaxError)
    end.

(** A decoder of sessions that takes the two-token text [<id> <url>] for
    one and refuses every other text. *)
#[export] Instance sessionDecoder : Decoder Session :=
  fun data v =>
    match Fields data with
    | [id; url] => (mkSession id url, None)
    | _ => (v, Some syntaxError)
    end.

(** A decoder of previews, a preview being its status: [null] is the nil
    pointer and every other text a preview. *)
#[export] Instance previewDecoder : Decoder (option string) :=
  fun data v => if String.eqb data "null" then (None, None) else (Some data, None).

(** A transport that answers the first request with a session and the
    next ones with events. *)
Definition sessionThenEvents : nat -> Request -> RoundTrip :=
  fun n _ =>
    match n with
    | O => Answered (mkResponse 200 "c8638963 https://stream.tradier.com/v1/markets/events")
    | _ => Answered (mkResponse 200 "quote SPY 281.18")
    end.

(** A client with an account selected. *)
Definition trader : Client :=
  mkClient "https://api.tradier.com" "Bearer token" defaultRetries "6YA05991".

(** One and a half, as a float. *)
Definition oneAndAHalf : spec_float := S754_finite false 3 (-1).

(** A day limit order for a spread of two legs. *)
Definition spread : Order :=
  mkOrder "multileg" "day" "SPY" EmptyString EmptyString (S754_zero false) "limit"
          oneAndAHalf (S754_zero false)
          [mkOrder EmptyString EmptyString EmptyString "SPY190621C00080000" "buy_to_open"
                   oneAndAHalf EmptyString (S754_zero false) (S754_zero false) [];
           mkOrder EmptyString EmptyString EmptyString "SPY190621C00085000" "sell_to_open"
                   oneAndAHalf EmptyString (S754_zero false) (S754_zero false) []].

End MockApi.

(** * Properties *)

Unset Implicit Arguments.

(** ** The quota-text parser *)

Module RateLimitSpec.
Import GoString Int64 Utf8 Strings Strconv Time RateLimit.

Lemma byte_range (c : ascii) : 0 <= byte c < 256.
Proof.
  unfold byte. pose proof (N_ascii_bounded c) as H. lia.
Qed.

Lemma byte_char (b : Z) : 0 <= b < 256 -> byte (char b) = b.
Proof.
  intros H. unfold byte, char.
  rewrite N_ascii_embedding by lia. lia.
Qed.

(** *** The digit loop of ParseUint *)








(** *** strings.Fields on ASCII text *)

Lemma FieldsFunc_loop_ascii (n : nat) (f : Z -> bool) (c : ascii) (t : string)
      (cur : option string) :
  byte c < 128 ->
  FieldsFunc_loop (S n) f (String c t) cur =
  if f (byte c)
  then (close cur ++ FieldsFunc_loop n f t None)%list
  else FieldsFunc_loop n f t
         (Some (match cur with
                | Some fld => (fld ++ String c EmptyString)%string
                | None => String c EmptyString
                end)).
Proof.
  intros Hc. cbn [FieldsFunc_loop]. unfold DecodeRuneInString.
  replace (byte c <? 128) with true by (symmetry; apply Z.ltb_lt; exact Hc).
  cbn [drop take]. reflexivity.
Qed.

Lemma FieldsFunc_loop_in_field (f : Z -> bool) (fuel : nat) : forall (s fld : string),
  FieldsFunc_loop fuel f s (Some fld) <> [].
Proof.
  induction fuel as [|fuel IH]; intros s fld; cbn [FieldsFunc_loop close]; [discriminate|].
  destruct s as [|c t]; [discriminate|].
  destruct (DecodeRuneInString (String c t)) as [r w].
  destruct (f r); [discriminate | apply IH].
Qed.





Lemma is_digit_char (d : Z) : 0 <= d <= 9 -> is_digit (char (48 + d)) = true.
Proof.
  intros Hd. unfold is_digit. rewrite byte_char by lia.
  apply andb_true_iff; split; apply Z.leb_le; lia.
Qed.

Lemma all_digits_digits_fuel (fuel : nat) : forall (n : Z) (acc : string),
  0 <= n -> all_digits acc = true -> all_digits (digits_fuel fuel n acc) = true.
Proof.
  induction fuel as [|fuel IH]; intros n acc Hn Hacc; cbn [digits_fuel]; [exact Hacc|].
  pose proof (Z.mod_pos_bound n 10 ltac:(lia)) as Hm.
  assert (Hstep : all_digits (String (char (48 + n mod 10)) acc) = true)
    by (cbn [all_digits]; rewrite is_digit_char by lia; exact Hacc).
  destruct (n <? 10); [exact Hstep|].
  apply IH; [apply Z.div_pos; lia | exact Hstep].
Qed.

Lemma nth_error_last (A : Type) (l : list A) (d : A) :
  l <> [] -> nth_error l (List.length l - 1) = Some (List.last l d).
Proof.
  induction l as [|x l IH]; intros Hne; [congruence|].
  destruct l as [|y l]; [reflexivity|].
  specialize (IH ltac:(discriminate)).
  replace (List.length (y :: l) - 1)%nat with (List.length l) in IH
    by (cbn [List.length]; lia).
  replace (List.length (x :: y :: l) - 1)%nat with (S (List.length l))
    by (cbn [List.length]; lia).
  exact IH.
Qed.

(** *** What ParseInt accepts is written as an integer *)




Lemma HasPrefix_split (s pre : string) :
  HasPrefix s pre = true -> exists rest, s = (pre ++ rest)%string.
Proof.
  unfold HasPrefix. revert s.
  induction pre as [|c pre IH]; intros s H.
  - exists s. reflexivity.
  - destruct s as [|c' s]; cbn [String.prefix] in H; [discriminate|].
    destruct (ascii_dec c c') as [->|]; [|discriminate].
    destruct (IH s H) as [rest ->]. exists rest. reflexivity.
Qed.

Lemma Fields_nonempty (body : string) :
  HasPrefix body "Quota Violation" = true -> Fields body <> [].
Proof.
  intros H. apply HasPrefix_split in H as [rest ->].
  unfold Fields, FieldsFunc. cbn [append String.length].
  rewrite FieldsFunc_loop_ascii by (vm_compute; reflexivity).
  change (IsSpace (byte "Q")) with false. cbv iota.
  apply FieldsFunc_loop_in_field.
Qed.

Lemma parseQuotaViolationExpiration_total (body : string) :
  exists t, parseQuotaViolationExpiration body = Done t.
Proof.
  unfold parseQuotaViolationExpiration.
  destruct (HasPrefix body "Quota Violation") eqn:Hp; cbn [negb]; [|eexists; reflexivity].
  rewrite (nth_error_last _ _ EmptyString (Fields_nonempty body Hp)).
  destruct (ParseInt _); eexists; reflexivity.
Qed.





End RateLimitSpec.

(** ** The request executor *)

Module ExecutorSpec.
Import GoString Int64 Time Http Backoff Json World RateLimit Tradier RateLimitSpec.

Section Executor.

Context {B : Type} {BO : BackOff B} {UF : Unmarshaler TradierError}.
Variable env : Env.
Variable tc : Client.
Variables (method url : string) (body : option Values).

Lemma pause_spec (maxRetries i : Z) (v : vars) (w : World B) :
  pause maxRetries i v w
  = (Done (Continue v),
     if retrying maxRetries i (sleep v)
     then mkWorld (calls w) (ticks w) (backoff w)
                  (slept w ++ [sleep v]) (logged w ++ [LogRetry (sleep v)])
     else w).
Proof.
  unfold pause. destruct (retrying maxRetries i (sleep v)); reflexivity.
Qed.

Lemma retrying_true (maxRetries i : Z) (d : Duration) :
  retrying maxRetries i d = true <-> i + 1 <= maxRetries /\ d <> Stop.
Proof.
  unfold retrying. rewrite andb_true_iff, negb_true_iff, Z.leb_le, Z.eqb_neq. reflexivity.
Qed.

Lemma retrying_false (maxRetries i : Z) (d : Duration) :
  retrying maxRetries i d = false <-> maxRetries < i + 1 \/ d = Stop.
Proof.
  unfold retrying. rewrite andb_false_iff, negb_false_iff, Z.leb_gt, Z.eqb_eq. reflexivity.
Qed.

(** C1. For every retry budget [maxRetries], when an iteration of the loop
    of [do] receives a response whose status is not 200 and whose body
    decodes as a structured fault, [do] returns that response and the
    decoded fault as its error at once: one more request has been sent and
    nothing else has happened (no sleep, no reading of the clock, no tick
    of the backoff policy, no log line), whatever the loop counter and the
    budget left.  In particular a call of [do] with [maxRetries >= 0] whose
    first response is such a fault sends exactly one request. *)
Theorem do_structured_fault_is_terminal
        (n : nat) (maxRetries i : Z) (v : vars) (w : World B)
        (req : Request) (r : Response) (te : TradierError) :
  makeSignedRequest env tc method url body = inr req ->
  Do env (calls w) req = Answered r ->
  StatusCode r <> StatusOK ->
  Unmarshal (Body r) (blankFault r) = (te, None) ->
  do_loop env (S n) tc method url body maxRetries i v w = (Done (Some r, Some (ETradier te)), sent w)
  /\ (0 <= maxRetries -> do env tc method url body maxRetries w = (Done (Some r, Some (ETradier te)), sent w)).
Proof.
  intros Hreq Hdo Hstatus Hdecode.
  assert (Hloop : forall m j u,
             do_loop env (S m) tc method url body maxRetries j u w = (Done (Some r, Some (ETradier te)), sent w)).
  { intros m j u. cbn [do_loop]. unfold bind at 1, attempt.
    rewrite Hreq. unfold bind at 1, send. rewrite Hdo.
    apply Z.eqb_neq in Hstatus. rewrite Hstatus.
    rewrite Hdecode. reflexivity. }
  split; [apply Hloop|].
  intros Hbudget. unfold do.
  replace (Z.to_nat (maxRetries + 1)) with (S (Z.to_nat maxRetries)) by lia.
  apply Hloop.
Qed.


(** What one iteration does when the transport fails. *)
Lemma attempt_transport_error (maxRetries i : Z) (v : vars) (w : World B)
      (req : Request) (e : error) :
  makeSignedRequest env tc method url body = inr req ->
  Do env (calls w) req = Failed e ->
  exists w',
    attempt env tc method url body maxRetries i v w
    = (Done (Continue (mkVars None (Some e) (fst (NextBackOff (backoff w))))), w')
    /\ calls w' = S (calls w) /\ ticks w' = ticks w
    /\ backoff w' = snd (NextBackOff (backoff w))
    /\ slept w' = (if retrying maxRetries i (fst (NextBackOff (backoff w)))
                   then slept w ++ [fst (NextBackOff (backoff w))] else slept w)%list.
Proof.
  intros Hreq Hdo. unfold attempt. rewrite Hreq.
  unfold bind at 1, send. rewrite Hdo.
  unfold bind at 1, log. unfold bind at 1, nextBackOff, sent.
  cbn [calls ticks backoff slept logged].
  destruct (NextBackOff (backoff w)) as [d b] eqn:Hnext. cbn [fst snd].
  rewrite pause_spec. cbn [sleep]. eexists. split; [reflexivity|].
  destruct (retrying maxRetries i d); repeat split; reflexivity.
Qed.




(** What one iteration does when the response is a fault that does not
    decode. *)
Lemma attempt_unstructured_fault
        (maxRetries i : Z) (v : vars) (w : World B)
        (req : Request) (r : Response) (te : TradierError) (e : error) :
  makeSignedRequest env tc method url body = inr req ->
  Do env (calls w) req = Answered r ->
  StatusCode r <> StatusOK ->
  Unmarshal (Body r) (blankFault r) = (te, Some e) ->
  exists (expiry : Time) (v' : vars) (w' : World B),
    parseQuotaViolationExpiration (Body r) = Done expiry
    /\ attempt env tc method url body maxRetries i v w = (Done (Continue v'), w')
    /\ resp v' = Some r
    /\ err v' = Some (ETradier (withFaultString te (Body r)))
    /\ (Now env (ticks w) + sleep v < expiry ->
        sleep v' = wrap64 (Sub expiry (Now env (S (ticks w))) + Second)
        /\ (minDuration <= expiry - Now env (S (ticks w))
            /\ expiry - Now env (S (ticks w)) + Second <= maxDuration ->
            sleep v' = expiry - Now env (S (ticks w)) + Second)
        /\ backoff w' = backoff w)
    /\ (expiry <= Now env (ticks w) + sleep v ->
        sleep v' = fst (NextBackOff (backoff w))
        /\ backoff w' = snd (NextBackOff (backoff w)))
    /\ (i + 1 <= maxRetries -> sleep v' <> Stop -> slept w' = (slept w ++ [sleep v'])%list)
    /\ (maxRetries < i + 1 \/ sleep v' = Stop -> slept w' = slept w)
    /\ calls w' = S (calls w).
Proof.
  intros Hreq Hdo Hstatus Hdecode.
  destruct (parseQuotaViolationExpiration_total (Body r)) as [expiry Hparse].
  unfold attempt. rewrite Hreq.
  unfold bind at 1, send. rewrite Hdo.
  apply Z.eqb_neq in Hstatus. rewrite Hstatus. rewrite Hdecode.
  cbn [withFaultString FaultString Fault].
  unfold bind at 1, lift. rewrite Hparse.
  unfold bind at 1, tick, ticked, sent. cbn [calls ticks backoff slept logged].
  unfold After, Add.
  destruct (Now env (ticks w) + sleep v <? expiry) eqn:Hcmp.
  - apply Z.ltb_lt in Hcmp.
    unfold bind at 1. unfold bind at 1. unfold ret, tick, ticked.
    cbn [calls ticks backoff slept logged].
    rewrite pause_spec. cbn [sleep]. change (1 * Second) with Second.
    set (d := wrap64 (Sub expiry (Now env (S (ticks w))) + Second)).
    do 3 eexists. split; [reflexivity|]. split; [reflexivity|].
    cbn [resp err sleep].
    repeat split; try reflexivity; try lia.
    + intros [Hlo Hhi]. subst d. unfold Sub, minDuration, maxDuration in *.
      replace (expiry - Now env (S (ticks w)) <? Int64.min) with false
        by (symmetry; apply Z.ltb_ge; lia).
      replace (Int64.max <? expiry - Now env (S (ticks w))) with false
        by (symmetry; apply Z.ltb_ge; unfold Second in Hhi; lia).
      unfold wrap64, Int64.min, Int64.max, Second in *.
      rewrite Z.mod_small by lia. lia.
    + destruct (retrying maxRetries i d); reflexivity.
    + intros Hi Hstop.
      rewrite (proj2 (retrying_true maxRetries i d) (conj Hi Hstop)). reflexivity.
    + intros Hor. rewrite (proj2 (retrying_false maxRetries i d) Hor). reflexivity.
    + destruct (retrying maxRetries i d); reflexivity.
  - apply Z.ltb_ge in Hcmp.
    unfold bind at 1, nextBackOff. cbn [calls ticks backoff slept logged].
    destruct (NextBackOff (backoff w)) as [d b] eqn:Hnext. cbn [fst snd].
    rewrite pause_spec. cbn [sleep].
    do 3 eexists. split; [reflexivity|]. split; [reflexivity|].
    cbn [resp err sleep].
    repeat split; try reflexivity; try lia.
    + destruct (retrying maxRetries i d); reflexivity.
    + intros Hi Hstop.
      rewrite (proj2 (retrying_true maxRetries i d) (conj Hi Hstop)). reflexivity.
    + intros Hor. rewrite (proj2 (retrying_false maxRetries i d) Hor). reflexivity.
    + destruct (retrying maxRetries i d); reflexivity.
Qed.

(** C7. When an iteration of the loop of [do] receives a response whose
    status is not 200 and whose body does not decode as a structured fault,
    the iteration goes on with the raw body as the fault string of its
    error, and its sleep is computed as follows from the expiry parsed from
    the raw body.  If the expiry is later than the clock's reading plus the
    sleep planned so far, the sleep is the saturated difference between the
    expiry and a second reading of the clock, plus one second, in 64-bit
    arithmetic; this is [(expiry - now) + 1s] whenever that fits a
    Duration, and the backoff policy is not consulted.  Otherwise the sleep
    is the backoff policy's next delay.  The thread sleeps that long when
    another attempt follows and the sleep is not [Stop]. *)
Theorem attempt_unstructured_fault_sleep
        (maxRetries i : Z) (v : vars) (w : World B)
        (req : Request) (r : Response) (te : TradierError) (e : error) :
  makeSignedRequest env tc method url body = inr req ->
  Do env (calls w) req = Answered r ->
  StatusCode r <> StatusOK ->
  Unmarshal (Body r) (blankFault r) = (te, Some e) ->
  exists (expiry : Time) (v' : vars) (w' : World B),
    parseQuotaViolationExpiration (Body r) = Done expiry
    /\ attempt env tc method url body maxRetries i v w = (Done (Continue v'), w')
    /\ resp v' = Some r
    /\ err v' = Some (ETradier (withFaultString te (Body r)))
    /\ (Now env (ticks w) + sleep v < expiry ->
        sleep v' = wrap64 (Sub expiry (Now env (S (ticks w))) + Second)
        /\ (minDuration <= expiry - Now env (S (ticks w))
            /\ expiry - Now env (S (ticks w)) + Second <= maxDuration ->
            sleep v' = expiry - Now env (S (ticks w)) + Second)
        /\ backoff w' = backoff w)
    /\ (expiry <= Now env (ticks w) + sleep v ->
        sleep v' = fst (NextBackOff (backoff w))
        /\ backoff w' = snd (NextBackOff (backoff w)))
    /\ (i + 1 <= maxRetries -> sleep v' <> Stop -> slept w' = (slept w ++ [sleep v'])%list)
    /\ (maxRetries < i + 1 \/ sleep v' = Stop -> slept w' = slept w).
Proof.
  intros Hreq Hdo Hstatus Hdecode.
  destruct (attempt_unstructured_fault maxRetries i v w req r te e Hreq Hdo Hstatus Hdecode)
    as (expiry & v' & w' & Hparse & Hrun & Hresp & Herr & Hquota & Hbackoff & Hsleeps & Hnone & _).
  exists expiry, v', w'. repeat (split; [assumption|]). assumption.
Qed.

End Executor.

Import Mock.

(** A run with a budget of three retries against a transport whose every
    answer is a structured fault: one request, no sleep. *)
Lemma do_structured_fault_is_terminal_witness :
  do (Mock.env (Mock.answering 400 "fault protocol.http.TooBigBody") Mock.frozen)
     Mock.client "GET" "https://api.tradier.com/v1/markets/clock" None 3 Mock.world0
  = (Done (Some (mkResponse 400 "fault protocol.http.TooBigBody"),
           Some (ETradier (mkTradierError
                             (mkFault "fault" (mkFaultDetail "protocol.http.TooBigBody")) 400))),
     mkWorld 1 0 0%nat [] []).
Proof.
  refine (proj2 (do_structured_fault_is_terminal
                   (Mock.env (Mock.answering 400 "fault protocol.http.TooBigBody") Mock.frozen)
                   Mock.client "GET" "https://api.tradier.com/v1/markets/clock" None
                   0 3 0 (mkVars None None 0) Mock.world0 _ _ _ _ _ _ _) _).
  - reflexivity.
  - reflexivity.
  - unfold StatusOK. cbn. lia.
  - reflexivity.
  - lia.
Defined.


(** An unstructured fault whose text announces an expiry one minute ahead
    of the clock, met with a planned sleep of half a second: the thread
    sleeps sixty-one seconds. *)
Lemma attempt_unstructured_fault_sleep_witness :
  exists (expiry : Time) (v' : vars) (w' : World nat),
    parseQuotaViolationExpiration "Quota Violation 1136214305000" = Done expiry
    /\ attempt (Mock.env (Mock.answering 429 "Quota Violation 1136214305000") Mock.frozen)
               Mock.client "GET" "https://api.tradier.com/v1/markets/clock" None
               3 0 (mkVars None None (500 * Millisecond)) Mock.world0
       = (Done (Continue v'), w')
    /\ sleep v' = 61 * Second
    /\ slept w' = [61 * Second].
Proof.
  destruct (attempt_unstructured_fault_sleep
              (Mock.env (Mock.answering 429 "Quota Violation 1136214305000") Mock.frozen)
              Mock.client "GET" "https://api.tradier.com/v1/markets/clock" None
              3 0 (mkVars None None (500 * Millisecond)) Mock.world0
              (mkRequest "GET" "https://api.tradier.com/v1/markets/clock"
                         [("Accept", "application/json"); ("Authorization", "Bearer token");
                          ("Content-Type", "application/x-www-form-urlencoded")] None)
              (mkResponse 429 "Quota Violation 1136214305000")
              (blankFault (mkResponse 429 "Quota Violation 1136214305000"))
              Mock.syntaxError)
    as (expiry & v' & w' & Hparse & Hrun & _ & _ & Hquota & _ & Hslept & _).
  - reflexivity.
  - reflexivity.
  - unfold StatusOK. cbn. lia.
  - reflexivity.
  - exists expiry, v', w'.
    assert (Hexp : expiry = Unix 1136214305 0).
    { vm_compute in Hparse. injection Hparse as <-. reflexivity. }
    subst expiry.
    destruct Hquota as (_ & Hexact & _); [vm_compute; reflexivity|].
    assert (Hsleep : sleep v' = 61 * Second).
    { rewrite Hexact; [vm_compute; reflexivity|].
      split; vm_compute; discriminate. }
    repeat split; try assumption.
    rewrite Hslept; [rewrite Hsleep; reflexivity | lia | rewrite Hsleep; vm_compute; discriminate].
Defined.

(** The sleep is not [(expiry - now) + 1s] when the announced expiry lies
    further ahead than a Duration spans: the difference saturates and the
    added second wraps around, leaving a negative sleep. *)
Lemma attempt_sleep_wraps_around :
  exists (expiry : Time) (v' : vars) (w' : World nat),
    parseQuotaViolationExpiration "Quota Violation 9000000000000000000" = Done expiry
    /\ Mock.frozen 0%nat + 0 < expiry
    /\ attempt (Mock.env (Mock.answering 429 "Quota Violation 9000000000000000000") Mock.frozen)
               Mock.client "GET" "https://api.tradier.com/v1/markets/clock" None
               3 0 (mkVars None None 0) Mock.world0
       = (Done (Continue v'), w')
    /\ sleep v' <> expiry - Mock.frozen 1%nat + Second
    /\ sleep v' < 0.
Proof.
  do 3 eexists. split; [vm_compute; reflexivity|].
  split; [vm_compute; reflexivity|].
  split; [vm_compute; reflexivity|].
  split; vm_compute; [discriminate | reflexivity].
Qed.

End ExecutorSpec.

(** ** Interval bisection and the interval splitter *)

Module SplitterSpec.
Import GoString Int64 Time Http Backoff Json World RateLimit Tradier.

Lemma Sub_exact (t u : Time) :
  minDuration <= t - u <= maxDuration -> Sub t u = t - u.
Proof.
  intros [Hlo Hhi]. unfold Sub.
  replace (t - u <? minDuration) with false by (symmetry; apply Z.ltb_ge; lia).
  replace (maxDuration <? t - u) with false by (symmetry; apply Z.ltb_ge; lia).
  reflexivity.
Qed.

(** Saturation does not change how a difference compares with a bound
    that is itself a Duration. *)
Lemma Sub_lt (t u : Time) (d : Duration) :
  minDuration < d <= maxDuration -> (Sub t u < d <-> t - u < d).
Proof.
  intros Hd. unfold Sub.
  destruct (t - u <? minDuration) eqn:Hlo.
  - apply Z.ltb_lt in Hlo. lia.
  - apply Z.ltb_ge in Hlo. destruct (maxDuration <? t - u) eqn:Hhi.
    + apply Z.ltb_lt in Hhi. lia.
    + reflexivity.
Qed.

Section Splitter.

Context {B : Type} {BO : BackOff B} {UF : Unmarshaler TradierError}.
Variable env : Env.

Lemma bisect_set (start end_ : Time) (w : World B) :
  end_ <> zero ->
  bisect env start end_ w = (Done (start + Z.quot (Sub end_ start) 2), w).
Proof.
  intros Hset. unfold bisect, IsZero.
  apply Z.eqb_neq in Hset. unfold zero in Hset. rewrite Hset. reflexivity.
Qed.

Lemma bisect_unset (start : Time) (w : World B) :
  bisect env start zero w
  = (Done (start + Z.quot (Sub (Now env (ticks w)) start) 2), ticked w).
Proof.
  reflexivity.
Qed.

(** C8. For every pair of instants [start < end_] with [end_] set (not
    the zero instant) and no further apart than a Duration spans,
    [bisect] returns [start + (end_ - start) / 2] without reading the
    clock; the midpoint lies in [start <= middle < end_], and strictly after
    [start] as soon as the two are at least two nanoseconds apart.  When
    they are further apart than a Duration spans, the midpoint is [start]
    plus half the largest Duration, strictly between the two.  When [end_]
    is unset, the midpoint is computed with one reading of the clock as
    the effective end. *)
Theorem bisect_spec (start end_ : Time) (w : World B) :
  (end_ <> zero -> start < end_ -> end_ - start <= maxDuration ->
   bisect env start end_ w = (Done (start + (end_ - start) / 2), w)
   /\ start <= start + (end_ - start) / 2 < end_
   /\ (2 <= end_ - start -> start < start + (end_ - start) / 2))
  /\ (end_ <> zero -> maxDuration < end_ - start ->
      bisect env start end_ w = (Done (start + maxDuration / 2), w)
      /\ start < start + maxDuration / 2 < end_)
  /\ bisect env start zero w
     = (Done (start + Z.quot (Sub (Now env (ticks w)) start) 2), ticked w).
Proof.
  split; [|split; [|apply bisect_unset]].
  - intros Hset Hlt Hfit. rewrite bisect_set by exact Hset.
    rewrite Sub_exact by (unfold minDuration, maxDuration, Int64.min, Int64.max in *; lia).
    rewrite Z.quot_div_nonneg by lia.
    pose proof (Z.div_mod (end_ - start) 2 ltac:(lia)) as Hdm.
    pose proof (Z.mod_pos_bound (end_ - start) 2 ltac:(lia)) as Hm.
    repeat split; lia.
  - intros Hset Hfar. rewrite bisect_set by exact Hset.
    unfold Sub. unfold maxDuration, minDuration, Int64.max, Int64.min in *.
    replace (end_ - start <? - 2 ^ 63) with false by (symmetry; apply Z.ltb_ge; lia).
    replace (2 ^ 63 - 1 <? end_ - start) with true by (symmetry; apply Z.ltb_lt; lia).
    change (Z.quot (2 ^ 63 - 1) 2) with ((2 ^ 63 - 1) / 2).
    change ((2 ^ 63 - 1) / 2) with 4611686018427387903.
    repeat split; lia.
Qed.

End Splitter.

Section Recursion.

Context {B : Type} {BO : BackOff B} {UF : Unmarshaler TradierError}.
Variable env : Env.

(** *** The recursion of GetTimeSales *)

Variable ivs : Intervals.
Variable TimeSale : Type.
Variable zeroTimeSale : TimeSale.
Context {UT : Unmarshaler TimeSale} {UTs : Unmarshaler (list TimeSale)}.
Variable Member : list string -> string -> error + option string.
Variable tc : Client.
Variables symbol interval : string.

Local Notation "'fetch'" := (fun fuel => GetTimeSales env ivs zeroTimeSale Member fuel tc symbol interval).
Local Notation "'returns'" := (GetTimeSales_returns env ivs zeroTimeSale Member tc symbol interval).

Lemma halves_mono (f g : Time -> Time -> World B -> option (fetched (B:=B) TimeSale))
      (start middle end_ : Time) (w : World B) (r : fetched TimeSale) :
  (forall a b w0 r0, f a b w0 = Some r0 -> g a b w0 = Some r0) ->
  halves f start middle end_ w = Some r -> halves g start middle end_ w = Some r.
Proof.
  intros Hfg. unfold halves.
  destruct (f start middle w) as [[[[firstHalf [err1|]]|e1] w3]|] eqn:H1;
    try discriminate; rewrite (Hfg _ _ _ _ H1); try (intros H; exact H).
  destruct (f middle end_ w3) as [[[[secondHalf [err2|]]|e2] w4]|] eqn:H2;
    try discriminate; rewrite (Hfg _ _ _ _ H2); intros H; exact H.
Qed.

Lemma GetTimeSales_step (fuel : nat) : forall (start end_ : Time) (w : World B) (r : fetched TimeSale),
  fetch fuel start end_ w = Some r -> fetch (S fuel) start end_ w = Some r.
Proof.
  induction fuel as [|fuel IH]; intros start end_ w r H; [discriminate H|].
  remember (S fuel) as n eqn:Hn. cbn [GetTimeSales].
  rewrite Hn in H. cbn [GetTimeSales] in H.
  destruct (getTimeSalesUrl env ivs tc symbol interval start end_) as [url|e]; [|exact H].
  destruct (do env tc "GET" url None (retryLimit tc) w) as [[[[resp|] [err|]]|e] w1];
    try exact H.
  all: destruct err as [msg|msg|msg|msg|te]; try exact H.
  all: destruct (String.eqb (ErrorCode (Detail (Fault te))) ErrBodyBufferOverflow); [|exact H].
  all: destruct (bisect env start end_ w1) as [[middle|e] w2]; [|exact H].
  all: destruct (Sub end_ middle <? 1 * Minute); [exact H|].
  all: eapply halves_mono; [|exact H].
  all: intros a b w0 r0 H0; apply IH; exact H0.
Qed.

Lemma GetTimeSales_mono (fuel fuel' : nat) (start end_ : Time) (w : World B)
      (r : fetched TimeSale) :
  (fuel <= fuel')%nat ->
  fetch fuel start end_ w = Some r -> fetch fuel' start end_ w = Some r.
Proof.
  induction 1 as [|m Hle IH]; intros H; [exact H|].
  apply GetTimeSales_step. apply IH. exact H.
Qed.

(** A call has at most one result. *)
Lemma GetTimeSales_returns_functional (start end_ : Time) (w : World B)
      (r r' : fetched TimeSale) :
  returns start end_ w r -> returns start end_ w r' -> r = r'.
Proof.
  intros [n Hn] [m Hm].
  apply (GetTimeSales_mono n (Nat.max n m)) in Hn; [|apply Nat.le_max_l].
  apply (GetTimeSales_mono m (Nat.max n m)) in Hm; [|apply Nat.le_max_r].
  congruence.
Qed.


(** One unfolding of [GetTimeSales] at a terminal fault of the executor
    that carries the oversized-body code. *)
Lemma GetTimeSales_too_big (fuel : nat) (start end_ middle : Time) (w w1 w2 : World B)
      (url : string) (resp : option Response) (te : TradierError) :
  getTimeSalesUrl env ivs tc symbol interval start end_ = Done url ->
  do env tc "GET" url None (retryLimit tc) w = (Done (resp, Some (ETradier te)), w1) ->
  ErrorCode (Detail (Fault te)) = ErrBodyBufferOverflow ->
  bisect env start end_ w1 = (Done middle, w2) ->
  fetch (S fuel) start end_ w
  = if Sub end_ middle <? 1 * Minute
    then Some (Done ([], Some (ETradier te)), w2)
    else halves (fetch fuel) start middle end_ w2.
Proof.
  intros Hurl Hdo Hcode Hmid. cbn [GetTimeSales].
  rewrite Hurl, Hdo. rewrite Hcode, String.eqb_refl, Hmid.
  destruct resp; reflexivity.
Qed.

Lemma halves_success (f : Time -> Time -> World B -> option (fetched (B:=B) TimeSale))
      (start middle end_ : Time) (w2 w3 w4 : World B) (firstHalf secondHalf : list TimeSale) :
  f start middle w2 = Some (Done (firstHalf, None), w3) ->
  f middle end_ w3 = Some (Done (secondHalf, None), w4) ->
  halves f start middle end_ w2 = Some (Done ((firstHalf ++ secondHalf)%list, None), w4).
Proof.
  intros H1 H2. unfold halves. rewrite H1, H2. reflexivity.
Qed.

(** C4. When the executor's error is a [TradierError] whose fault code is
    exactly the oversized-body code and the floor is not reached,
    [GetTimeSales] fetches [start, middle] and then [middle, end_] from the
    world the first fetch leaves, and if both return bars and no error it
    returns the bars of the first half followed by those of the second.
    Every error of the executor that is not a [TradierError] with that
    code is returned as it is, with no bars, from the world the executor
    leaves: no clock reading, no further request. *)
Theorem GetTimeSales_splits_and_concatenates
        (start end_ : Time) (w w1 : World B) (url : string)
        (resp : option Response) (err : error) :
  getTimeSalesUrl env ivs tc symbol interval start end_ = Done url ->
  do env tc "GET" url None (retryLimit tc) w = (Done (resp, Some err), w1) ->
  (forall (te : TradierError) (middle : Time) (w2 w3 w4 : World B)
          (firstHalf secondHalf : list TimeSale),
      err = ETradier te ->
      ErrorCode (Detail (Fault te)) = ErrBodyBufferOverflow ->
      bisect env start end_ w1 = (Done middle, w2) ->
      1 * Minute <= Sub end_ middle ->
      returns start middle w2 (Done (firstHalf, None), w3) ->
      returns middle end_ w3 (Done (secondHalf, None), w4) ->
      returns start end_ w (Done ((firstHalf ++ secondHalf)%list, None), w4))
  /\ ((forall te : TradierError,
          err = ETradier te -> ErrorCode (Detail (Fault te)) <> ErrBodyBufferOverflow) ->
      forall fuel : nat, fetch (S fuel) start end_ w = Some (Done ([], Some err), w1)).
Proof.
  intros Hurl Hdo. split.
  - intros te middle w2 w3 w4 firstHalf secondHalf -> Hcode Hmid Hfloor [n Hn] [m Hm].
    exists (S (Nat.max n m)).
    rewrite (GetTimeSales_too_big _ _ _ _ _ _ _ _ _ _ Hurl Hdo Hcode Hmid).
    replace (Sub end_ middle <? 1 * Minute) with false by (symmetry; apply Z.ltb_ge; lia).
    apply halves_success with (w3 := w3).
    + apply (GetTimeSales_mono n); [apply Nat.le_max_l | exact Hn].
    + apply (GetTimeSales_mono m); [apply Nat.le_max_r | exact Hm].
  - intros Hother fuel. cbn [GetTimeSales]. rewrite Hurl, Hdo.
    destruct err as [msg|msg|msg|msg|te]; try (destruct resp; reflexivity).
    specialize (Hother te eq_refl). apply String.eqb_neq in Hother. rewrite Hother.
    destruct resp; reflexivity.
Qed.

(** C3. When the executor's error carries the oversized-body code,
    [GetTimeSales] gives up and returns that error exactly when the
    difference between the [end_] it was called with and the midpoint is
    smaller than one minute; otherwise it goes on to the two halves.  With
    [end_] set this is the second half of the range.  With [end_] unset
    the difference is taken from the zero instant rather than from the
    clock's reading the midpoint was computed with: for every start and
    clock not before the zero instant the call gives up, however long the
    effective second half. *)
Theorem GetTimeSales_floor
        (start end_ middle : Time) (w w1 w2 : World B) (url : string)
        (resp : option Response) (te : TradierError) :
  getTimeSalesUrl env ivs tc symbol interval start end_ = Done url ->
  do env tc "GET" url None (retryLimit tc) w = (Done (resp, Some (ETradier te)), w1) ->
  ErrorCode (Detail (Fault te)) = ErrBodyBufferOverflow ->
  bisect env start end_ w1 = (Done middle, w2) ->
  (end_ - middle < Minute ->
   forall fuel : nat, fetch (S fuel) start end_ w = Some (Done ([], Some (ETradier te)), w2))
  /\ (Minute <= end_ - middle ->
      forall fuel : nat,
        fetch (S fuel) start end_ w = halves (fetch fuel) start middle end_ w2)
  /\ (end_ = zero -> 0 <= start -> 0 <= Now env (ticks w1) ->
      middle = start + Z.quot (Sub (Now env (ticks w1)) start) 2
      /\ forall fuel : nat,
          fetch (S fuel) start end_ w = Some (Done ([], Some (ETradier te)), w2)).
Proof.
  intros Hurl Hdo Hcode Hmid.
  assert (Hbound : minDuration < 1 * Minute <= maxDuration) by (vm_compute; split; [reflexivity | discriminate]).
  assert (Hgive : end_ - middle < Minute ->
                  forall fuel : nat,
                    fetch (S fuel) start end_ w = Some (Done ([], Some (ETradier te)), w2)).
  { intros Hlt fuel.
    rewrite (GetTimeSales_too_big _ _ _ _ _ _ _ _ _ _ Hurl Hdo Hcode Hmid).
    replace (Sub end_ middle <? 1 * Minute) with true; [reflexivity|].
    symmetry. apply Z.ltb_lt. apply Sub_lt; [exact Hbound | exact Hlt]. }
  split; [exact Hgive|]. split.
  - intros Hge fuel.
    rewrite (GetTimeSales_too_big _ _ _ _ _ _ _ _ _ _ Hurl Hdo Hcode Hmid).
    replace (Sub end_ middle <? 1 * Minute) with false; [reflexivity|].
    symmetry. apply Z.ltb_ge.
    destruct (Z.lt_ge_cases (Sub end_ middle) (1 * Minute)) as [Hlt|Hge']; [|exact Hge'].
    apply Sub_lt in Hlt; [|exact Hbound]. change (1 * Minute) with Minute in Hlt. lia.
  - intros -> Hstart Hnow. rewrite bisect_unset in Hmid. injection Hmid as Hm Hw.
    split; [symmetry; exact Hm|]. apply Hgive. subst middle.
    assert (Hsub : - start <= Sub (Now env (ticks w1)) start).
    { unfold Sub, minDuration, maxDuration, Int64.min, Int64.max.
      destruct (Now env (ticks w1) - start <? - 2 ^ 63) eqn:Hlo;
        [apply Z.ltb_lt in Hlo; lia|].
      destruct (2 ^ 63 - 1 <? Now env (ticks w1) - start); lia. }
    assert (Hquot : - start <= Z.quot (Sub (Now env (ticks w1)) start) 2).
    { destruct (Z.le_gt_cases 0 (Sub (Now env (ticks w1)) start)) as [Hpos|Hneg].
      - pose proof (Z.quot_pos _ 2 Hpos ltac:(lia)). lia.
      - rewrite <- (Z.opp_involutive (Sub (Now env (ticks w1)) start)).
        rewrite Z.quot_opp_l by lia.
        pose proof (Z.quot_le_upper_bound (- Sub (Now env (ticks w1)) start) 2 start
                      ltac:(lia) ltac:(lia)).
        lia. }
    unfold zero, Minute, Second. lia.
Qed.

End Recursion.

Import Mock.

(** Two hours from 2006-01-02T15:04:05Z: the midpoint is an hour in. *)
Lemma bisect_spec_witness :
  bisect (Mock.env Mock.refused Mock.frozen) t2006 (t2006 + 120 * Minute) world0
  = (Done (t2006 + 60 * Minute), world0).
Proof.
  destruct (bisect_spec (Mock.env Mock.refused Mock.frozen)
                        t2006 (t2006 + 120 * Minute) world0) as (Hset & _ & _).
  destruct Hset as (Heq & _ & _).
  - vm_compute. discriminate.
  - vm_compute. reflexivity.
  - vm_compute. discriminate.
  - rewrite Heq. vm_compute. reflexivity.
Defined.

(** The midpoint of two instants one nanosecond apart is the first of
    them, so it does not lie strictly between them. *)
Lemma bisect_not_strictly_between :
  t2006 < t2006 + 1
  /\ bisect (Mock.env Mock.refused Mock.frozen) t2006 (t2006 + 1) world0
     = (Done t2006, world0)
  /\ ~ (t2006 < t2006 < t2006 + 1).
Proof.
  split; [lia|]. split; [vm_compute; reflexivity | lia].
Qed.

(** A two-hour range refused as too big and served in two halves: the
    bars of the first hour come before those of the second. *)
Lemma GetTimeSales_splits_and_concatenates_witness :
  GetTimeSales_returns (Mock.env tooBigThenData frozen) intervals 0 member
                       client "SPY" "1min" t2006 (t2006 + 120 * Minute) world0
                       (Done ([1; 2; 3], None), mkWorld 3 0 0%nat [] []).
Proof.
  refine (proj1 (GetTimeSales_splits_and_concatenates
                   (Mock.env tooBigThenData frozen) intervals Z 0 member
                   client "SPY" "1min" t2006 (t2006 + 120 * Minute) world0
                   (mkWorld 1 0 0%nat [] []) _ _ _ _ _)
                _ (t2006 + 60 * Minute) (mkWorld 1 0 0%nat [] []) (mkWorld 2 0 0%nat [] [])
                (mkWorld 3 0 0%nat [] []) [1; 2] [3] _ _ _ _ _ _).
  - reflexivity.
  - reflexivity.
  - reflexivity.
  - reflexivity.
  - reflexivity.
  - vm_compute. discriminate.
  - exists 1%nat. reflexivity.
  - exists 1%nat. reflexivity.
Defined.

(** An open-ended request from 2006-01-02T15:04:05Z made two hours later
    and refused as too big: the second half of the effective range spans
    an hour, and the fault is returned after a single request. *)
Lemma GetTimeSales_floor_witness :
  Minute <= Mock.later 0%nat - (t2006 + 60 * Minute)
  /\ GetTimeSales (Mock.env (answering 400 "fault protocol.http.TooBigBody") later)
                  intervals 0 member 5 client "SPY" "1min" t2006 zero world0
     = Some (Done ([], Some (ETradier (mkTradierError
                                         (mkFault "fault" (mkFaultDetail "protocol.http.TooBigBody"))
                                         400))),
             mkWorld 1 1 0%nat [] []).
Proof.
  split; [vm_compute; discriminate|].
  refine (proj2 (proj2 (proj2 (GetTimeSales_floor
                   (Mock.env (answering 400 "fault protocol.http.TooBigBody") later)
                   intervals Z 0 member client "SPY" "1min"
                   t2006 zero (t2006 + 60 * Minute) world0
                   (mkWorld 1 0 0%nat [] []) (mkWorld 1 1 0%nat [] []) _ _ _ _ _ _ _))
                   _ _ _) 4%nat).
  - reflexivity.
  - reflexivity.
  - reflexivity.
  - reflexivity.
  - reflexivity.
  - vm_compute. discriminate.
  - vm_compute. discriminate.
Defined.

End SplitterSpec.

(** ** The one-or-many normalisers *)

Module NormalizerSpec.
Import GoString Time Http Json World Tradier.

Section General.

Variable T : Type.
Context {UP : Unmarshaler (option T)} {UPs : Unmarshaler (list (option T))}.

(** C5. [oneToInfinity] first decodes the payload as a single value and,
    when that succeeds, returns the one-element slice of it; otherwise it
    decodes the payload as a slice and returns that slice as it is, empty
    or not; and when both decodings fail it panics with the error of the
    second: no error is returned to the caller. *)
Theorem oneToInfinity_spec (b : string) :
  (forall result : option T,
      Unmarshal b (@None T) = (result, None) -> oneToInfinity b = Done [result])
  /\ (forall (result : option T) (err : error) (results : list (option T)),
         Unmarshal b (@None T) = (result, Some err) ->
         Unmarshal b (@nil (option T)) = (results, None) ->
         oneToInfinity b = Done results)
  /\ (forall (result : option T) (err : error) (results : list (option T)) (err' : error),
         Unmarshal b (@None T) = (result, Some err) ->
         Unmarshal b (@nil (option T)) = (results, Some err') ->
         oneToInfinity b = Panicked err').
Proof.
  unfold oneToInfinity. repeat split.
  - intros result H. rewrite H. reflexivity.
  - intros result err results H1 H2. rewrite H1, H2. reflexivity.
  - intros result err results err' H1 H2. rewrite H1, H2. reflexivity.
Qed.

End General.

Section TimeSales.

Variable ivs : Intervals.
Variable TimeSale : Type.
Variable zeroTimeSale : TimeSale.
Context {UT : Unmarshaler TimeSale} {UTs : Unmarshaler (list TimeSale)}.
Variable Member : list string -> string -> error + option string.

(** C10. [timeSaleList.UnmarshalJSON] first decodes the payload as a slice
    of [TimeSale] and, when that succeeds, sets the receiver to that slice
    as it is; only when that fails does it decode the payload as a single
    [TimeSale] and set the receiver to the one-element slice of it; when
    both fail it leaves the receiver as it was and returns the error of the
    single-object decoding.  It always returns (there is no panic in it),
    and [decodeTimeSales] hands its result on: the bars on success, no bars
    and the error on failure.  The general normaliser takes the opposite
    order: a payload that decodes as a single value is returned as a
    one-element slice whatever the slice decoder would make of it. *)
Theorem timeSaleList_UnmarshalJSON_spec (tsl : list TimeSale) (data : string) :
  (forall tss : list TimeSale,
      Unmarshal data (@nil TimeSale) = (tss, None) ->
      timeSaleList_UnmarshalJSON zeroTimeSale tsl data = (tss, None))
  /\ (forall (tss : list TimeSale) (err : error) (ts : TimeSale),
         Unmarshal data (@nil TimeSale) = (tss, Some err) ->
         Unmarshal data zeroTimeSale = (ts, None) ->
         timeSaleList_UnmarshalJSON zeroTimeSale tsl data = ([ts], None))
  /\ (forall (tss : list TimeSale) (err : error) (ts : TimeSale) (err' : error),
         Unmarshal data (@nil TimeSale) = (tss, Some err) ->
         Unmarshal data zeroTimeSale = (ts, Some err') ->
         timeSaleList_UnmarshalJSON zeroTimeSale tsl data = (tsl, Some err'))
  /\ (forall (body interval : string),
         Member (timeSalesPath ivs interval) body = inr (Some data) ->
         decodeTimeSales ivs zeroTimeSale Member body interval
         = match timeSaleList_UnmarshalJSON zeroTimeSale [] data with
           | (tss, None) => (tss, None)
           | (_, Some err) => ([], Some err)
           end)
  /\ (forall (T : Type) (UP : Unmarshaler (option T)) (UPs : Unmarshaler (list (option T)))
             (result : option T),
         Unmarshal data (@None T) = (result, None) -> oneToInfinity data = Done [result]).
Proof.
  unfold timeSaleList_UnmarshalJSON. repeat split.
  - intros tss H. rewrite H. reflexivity.
  - intros tss err ts H1 H2. rewrite H1, H2. reflexivity.
  - intros tss err ts err' H1 H2. rewrite H1, H2. reflexivity.
  - intros body interval H. unfold decodeTimeSales. rewrite H. reflexivity.
  - intros T UP UPs result H. unfold oneToInfinity. rewrite H. reflexivity.
Qed.

End TimeSales.

Import Mock.

(** A number, a list with a nil pointer in it, and a text neither decoder
    accepts. *)
Lemma oneToInfinity_spec_witness :
  oneToInfinity (T:=Z) "12" = Done [Some 12]
  /\ oneToInfinity (T:=Z) "list 1 null 2" = Done [Some 1; None; Some 2]
  /\ oneToInfinity (T:=Z) "oops" = Panicked syntaxError.
Proof.
  split; [|split].
  - apply (proj1 (oneToInfinity_spec Z "12")). reflexivity.
  - apply (proj1 (proj2 (oneToInfinity_spec Z "list 1 null 2")) None syntaxError).
    + reflexivity.
    + reflexivity.
  - apply (proj2 (proj2 (oneToInfinity_spec Z "oops")) None syntaxError [] syntaxError).
    + reflexivity.
    + reflexivity.
Defined.

(** On a payload that is neither a value nor a list of values the call
    does not return: it panics. *)
Lemma oneToInfinity_panics :
  Unmarshal "oops" (@None Z) = (None, Some syntaxError)
  /\ Unmarshal "oops" (@nil (option Z)) = ([], Some syntaxError)
  /\ oneToInfinity (T:=Z) "oops" = Panicked syntaxError
  /\ forall results : list (option Z), oneToInfinity (T:=Z) "oops" <> Done results.
Proof.
  repeat split; try reflexivity. intros results. vm_compute. discriminate.
Qed.

(** A list, a single value, a text neither decoder accepts, and [null],
    which both accept: the slice decoder goes first. *)
Lemma timeSaleList_UnmarshalJSON_spec_witness :
  timeSaleList_UnmarshalJSON 0 [7] "list 1 2" = ([1; 2], None)
  /\ timeSaleList_UnmarshalJSON 0 [7] "12" = ([12], None)
  /\ timeSaleList_UnmarshalJSON 0 [7] "oops" = ([7], Some syntaxError)
  /\ timeSaleList_UnmarshalJSON 0 [7] "null" = ([], None)
  /\ oneToInfinity (T:=Z) "null" = Done [None].
Proof.
  split; [|split; [|split; [|split]]].
  - apply (proj1 (timeSaleList_UnmarshalJSON_spec intervals Z 0 member [7] "list 1 2")).
    reflexivity.
  - apply (proj1 (proj2 (timeSaleList_UnmarshalJSON_spec intervals Z 0 member [7] "12"))
             [] syntaxError 12); reflexivity.
  - apply (proj1 (proj2 (proj2 (timeSaleList_UnmarshalJSON_spec intervals Z 0 member [7] "oops")))
             [] syntaxError 0 syntaxError); reflexivity.
  - apply (proj1 (timeSaleList_UnmarshalJSON_spec intervals Z 0 member [7] "null")).
    reflexivity.
  - apply (proj2 (proj2 (proj2 (proj2
             (timeSaleList_UnmarshalJSON_spec intervals Z 0 member [7] "null"))))
             Z pointerDecoder pointersDecoder None).
    reflexivity.
Defined.

End NormalizerSpec.

(** ** The timestamp parser *)

Module DateTimeSpec.
Import GoString Strconv Time RateLimit DateTime RateLimitSpec.











End DateTimeSpec.

(** ** More on the executor, the splitter and the quota parser *)

Module RetrySpec.
Import GoString Int64 Time Http Backoff Json World RateLimit Tradier ExecutorSpec.

Section Retry.

Context {B : Type} {BO : BackOff B} {UF : Unmarshaler TradierError}.
Variable env : Env.
Variable tc : Client.
Variables (method url : string) (body : option Values).

(** A request that cannot be built ends [do] at once with the error of
    its construction: nothing is sent and the world is as it was. *)
Theorem do_request_error (maxRetries : Z) (w : World B) (e : error) :
  0 <= maxRetries ->
  makeSignedRequest env tc method url body = inl e ->
  do env tc method url body maxRetries w = (Done (None, Some e), w).
Proof.
  intros Hbudget Hreq. unfold do.
  replace (Z.to_nat (maxRetries + 1)) with (S (Z.to_nat maxRetries)) by lia.
  cbn [do_loop]. unfold bind, attempt. rewrite Hreq. reflexivity.
Qed.

(** A response with status 200 ends [do] with that response and no
    error: one request has been sent, and nothing else has happened. *)
Theorem do_success (n : nat) (maxRetries i : Z) (v : vars) (w : World B)
        (req : Request) (r : Response) :
  makeSignedRequest env tc method url body = inr req ->
  Do env (calls w) req = Answered r ->
  StatusCode r = StatusOK ->
  do_loop env (S n) tc method url body maxRetries i v w = (Done (Some r, None), sent w)
  /\ (0 <= maxRetries ->
      do env tc method url body maxRetries w = (Done (Some r, None), sent w)).
Proof.
  intros Hreq Hdo Hstatus.
  assert (Hloop : forall m j u,
             do_loop env (S m) tc method url body maxRetries j u w
             = (Done (Some r, None), sent w)).
  { intros m j u. cbn [do_loop]. unfold bind at 1, attempt.
    rewrite Hreq. unfold bind at 1, send. rewrite Hdo.
    apply Z.eqb_eq in Hstatus. rewrite Hstatus. reflexivity. }
  split; [apply Hloop|].
  intros Hbudget. unfold do.
  replace (Z.to_nat (maxRetries + 1)) with (S (Z.to_nat maxRetries)) by lia.
  apply Hloop.
Qed.



End Retry.

Import Mock.

(** A client whose requests cannot be built: the call ends where it
    began. *)
Lemma do_request_error_witness :
  do Mock.unbuildable Mock.client "GET" "https://api.tradier.com/v1/markets/clock" None 3
     Mock.world0
  = (Done (None, Some (RequestError "invalid method")), Mock.world0).
Proof.
  apply do_request_error; [lia | reflexivity].
Defined.

(** A transport that answers 200 at once. *)
Lemma do_success_witness :
  do (Mock.env (Mock.answering 200 "ok") Mock.frozen)
     Mock.client "GET" "https://api.tradier.com/v1/markets/clock" None 3 Mock.world0
  = (Done (Some (mkResponse 200 "ok"), None), mkWorld 1 0 0%nat [] []).
Proof.
  refine (proj2 (do_success (Mock.env (Mock.answering 200 "ok") Mock.frozen)
                            Mock.client "GET" "https://api.tradier.com/v1/markets/clock" None
                            0 3 0 (mkVars None None 0) Mock.world0 _ _ _ _ _) _).
  - reflexivity.
  - reflexivity.
  - reflexivity.
  - lia.
Defined.


End RetrySpec.

Module TerminationSpec.
Import GoString Int64 Time Http Backoff Json World RateLimit Tradier SplitterSpec.

Section Termination.

Context {B : Type} {BO : BackOff B} {UF : Unmarshaler TradierError}.
Variable env : Env.
Variable ivs : Intervals.
Variable TimeSale : Type.
Variable zeroTimeSale : TimeSale.
Context {UT : Unmarshaler TimeSale} {UTs : Unmarshaler (list TimeSale)}.
Variable Member : list string -> string -> error + option string.
Variable tc : Client.
Variables symbol interval : string.

Local Notation "'fetch'" := (fun fuel => GetTimeSales env ivs zeroTimeSale Member fuel tc symbol interval).

Lemma halves_returns (f : Time -> Time -> World B -> option (fetched (B:=B) TimeSale))
      (start middle end_ : Time) (w : World B) :
  (forall w0, exists r, f start middle w0 = Some r) ->
  (forall w0, exists r, f middle end_ w0 = Some r) ->
  exists r, halves f start middle end_ w = Some r.
Proof.
  intros H1 H2. unfold halves.
  destruct (H1 w) as [[[[firstHalf [err1|]]|e1] w3] ->]; try (eexists; reflexivity).
  destruct (H2 w3) as [[[[secondHalf [err2|]]|e2] w4] ->]; eexists; reflexivity.
Qed.

(** Past the floor the range is at least two minutes short of a
    nanosecond, and its midpoint is exact. *)
Lemma past_the_floor (start end_ : Time) :
  end_ - start <= maxDuration ->
  1 * Minute <= Sub end_ (start + Z.quot (Sub end_ start) 2) ->
  2 * Minute - 1 <= end_ - start
  /\ Z.quot (Sub end_ start) 2 = (end_ - start) / 2.
Proof.
  intros Hfit Hfloor.
  assert (Hbound : minDuration < 1 * Minute <= maxDuration)
    by (vm_compute; split; [reflexivity | discriminate]).
  assert (Hge : 1 * Minute <= end_ - (start + Z.quot (Sub end_ start) 2)).
  { destruct (Z.lt_ge_cases (end_ - (start + Z.quot (Sub end_ start) 2)) (1 * Minute))
      as [Hlt|Hge]; [|exact Hge].
    apply Sub_lt in Hlt; [lia | exact Hbound]. }
  unfold Sub in Hge |- *. unfold minDuration, maxDuration, Int64.min, Int64.max, Minute, Second in *.
  destruct (end_ - start <? - 2 ^ 63) eqn:Hlo.
  - apply Z.ltb_lt in Hlo. exfalso.
    change (Z.quot (- 2 ^ 63) 2) with (- 4611686018427387904) in Hge. lia.
  - apply Z.ltb_ge in Hlo.
    replace (2 ^ 63 - 1 <? end_ - start) with false in Hge |- *
      by (symmetry; apply Z.ltb_ge; lia).
    destruct (Z.le_gt_cases 0 (end_ - start)) as [Hpos|Hneg].
    + rewrite Z.quot_div_nonneg in Hge |- * by lia.
      pose proof (Z.div_mod (end_ - start) 2 ltac:(lia)) as Hdm.
      pose proof (Z.mod_pos_bound (end_ - start) 2 ltac:(lia)) as Hm.
      split; [lia | reflexivity].
    + exfalso.
      assert (Hq : end_ - start <= Z.quot (end_ - start) 2).
      { rewrite <- (Z.opp_involutive (end_ - start)) at 2.
        rewrite Z.quot_opp_l by lia.
        pose proof (Z.quot_le_upper_bound (- (end_ - start)) 2 (- (end_ - start))
                      ltac:(lia) ltac:(lia)).
        lia. }
      lia.
Qed.

(** X1. A call of [GetTimeSales] on a range between two instants after the
    zero instant, no longer than a Duration spans and no longer than
    [2 ^ n] minutes, returns with [n + 1] units of fuel: the recursion is
    at most [n + 1] calls deep, whatever the transport, the clock and the
    decoders answer. *)
Theorem GetTimeSales_terminates (n : nat) : forall (start end_ : Time) (w : World B),
  0 < start -> 0 < end_ ->
  end_ - start <= maxDuration ->
  end_ - start <= Minute * 2 ^ Z.of_nat n ->
  exists r : fetched TimeSale, fetch (S n) start end_ w = Some r.
Proof.
  induction n as [|n IH]; intros start end_ w Hstart Hend Hfit Hlen.
  all: cbn [GetTimeSales].
  all: destruct (getTimeSalesUrl env ivs tc symbol interval start end_) as [url|e];
    [|eexists; reflexivity].
  all: destruct (do env tc "GET" url None (retryLimit tc) w) as [[[[resp|] [err|]]|e] w1];
    try (eexists; reflexivity).
  all: destruct err as [msg|msg|msg|msg|te]; try (eexists; reflexivity).
  all: destruct (String.eqb (ErrorCode (Detail (Fault te))) ErrBodyBufferOverflow);
    [|eexists; reflexivity].
  all: rewrite bisect_set by (unfold zero; lia).
  all: destruct (Sub end_ (start + Z.quot (Sub end_ start) 2) <? 1 * Minute) eqn:Hfloor;
    [eexists; reflexivity|].
  all: apply Z.ltb_ge in Hfloor.
  all: destruct (past_the_floor start end_ Hfit Hfloor) as [Hlong Hmid].
  1,2: exfalso; change (2 ^ Z.of_nat 0) with 1 in Hlen; unfold Minute, Second in *; lia.
  all: rewrite Hmid.
  all: pose proof (Z.div_mod (end_ - start) 2 ltac:(lia)) as Hdm.
  all: pose proof (Z.mod_pos_bound (end_ - start) 2 ltac:(lia)) as Hm.
  all: assert (Hpow : 2 ^ Z.of_nat (S n) = 2 * 2 ^ Z.of_nat n)
    by (rewrite Nat2Z.inj_succ, Z.pow_succ_r by lia; reflexivity).
  all: assert (Hmin : 0 < Minute) by reflexivity.
  all: apply halves_returns; intros w0; apply IH; nia.
Qed.

End Termination.

Import Mock.

(** Two hours are at most [2 ^ 7] minutes: eight units of fuel. *)
Lemma GetTimeSales_terminates_witness :
  exists r : fetched Z,
    GetTimeSales (Mock.env tooBigThenData frozen) intervals 0 member 8
                 client "SPY" "1min" t2006 (t2006 + 120 * Minute) world0
    = Some r.
Proof.
  apply GetTimeSales_terminates; vm_compute; first [reflexivity | discriminate].
Defined.

End TerminationSpec.

Module TotalitySpec.
Import GoString Strings Strconv Time RateLimit RateLimitSpec.

(** X2. [parseQuotaViolationExpiration] never panics: a text with the
    prefix has at least one field, so the index of the last one is in
    range. *)
Theorem parseQuotaViolationExpiration_never_panics (body : string) (why : error) :
  parseQuotaViolationExpiration body <> Panicked why.
Proof.
  destruct (parseQuotaViolationExpiration_total body) as [t Ht].
  rewrite Ht. discriminate.
Qed.

End TotalitySpec.

(** ** The effort of the executor *)

Module LoopSpec.
Import GoString Int64 Time Http Backoff Json World RateLimit Tradier RateLimitSpec ExecutorSpec.

Section Loop.

Context {B : Type} {BO : BackOff B} {UF : Unmarshaler TradierError}.
Variable env : Env.
Variable tc : Client.
Variables (method url : string) (body : option Values).

(** Every way an iteration of the loop of [do] can end. *)
Lemma attempt_cases (maxRetries i : Z) (v : vars) (w : World B) :
  exists (c : ctl) (w' : World B),
    attempt env tc method url body maxRetries i v w = (Done c, w')
    /\ ((exists e, makeSignedRequest env tc method url body = inl e
                   /\ c = Return (None, Some e) /\ w' = w)
        \/ (exists req, makeSignedRequest env tc method url body = inr req
            /\ calls w' = S (calls w)
            /\ ((exists r, c = Break (mkVars (Some r) None (sleep v))
                           /\ StatusCode r = StatusOK /\ slept w' = slept w
                           /\ Do env (calls w) req = Answered r)
                \/ (exists r te, c = Return (Some r, Some (ETradier te))
                                 /\ slept w' = slept w)
                \/ (exists v', c = Continue v' /\ err v' <> None
                               /\ slept w' = if retrying maxRetries i (sleep v')
                                             then (slept w ++ [sleep v'])%list
                                             else slept w)))).
Proof.
  unfold attempt.
  destruct (makeSignedRequest env tc method url body) as [e|req] eqn:Hreq.
  { do 2 eexists. split; [reflexivity|]. left. exists e. repeat split. }
  unfold bind at 1, send.
  destruct (Do env (calls w) req) as [r|e|r e] eqn:Hdo.
  - destruct (StatusCode r =? StatusOK) eqn:Hstatus.
    + do 2 eexists. split; [reflexivity|]. right. exists req. split; [reflexivity|]. split; [reflexivity|].
      left. exists r. apply Z.eqb_eq in Hstatus.
      split; [reflexivity|]. split; [exact Hstatus|]. split; [reflexivity | exact Hdo].
    + destruct (Unmarshal (Body r) (blankFault r)) as [te [e|]] eqn:Hu.
      * apply Z.eqb_neq in Hstatus.
        destruct (attempt_unstructured_fault env tc method url body maxRetries i v w
                                             req r te e Hreq Hdo Hstatus Hu)
          as (expiry & v' & w' & _ & Hrun & _ & Herr & _ & _ & Hs1 & Hs2 & Hc).
        unfold attempt in Hrun. rewrite Hreq in Hrun. unfold bind at 1, send in Hrun.
        rewrite Hdo in Hrun. apply Z.eqb_neq in Hstatus. rewrite Hstatus, Hu in Hrun.
        exists (Continue v'), w'. split; [exact Hrun|]. right. exists req. split; [reflexivity|].
        split; [exact Hc|]. right. right. exists v'. split; [reflexivity|].
        split; [rewrite Herr; discriminate|].
        destruct (retrying maxRetries i (sleep v')) eqn:Hgo.
        -- apply retrying_true in Hgo as [Hi Hstop]. apply Hs1; assumption.
        -- apply retrying_false in Hgo. apply Hs2; assumption.
      * do 2 eexists. split; [reflexivity|]. right. exists req. split; [reflexivity|]. split; [reflexivity|].
        right. left. exists r, te. split; reflexivity.
  - destruct (attempt_transport_error env tc method url body maxRetries i v w req e Hreq Hdo)
      as (w' & Hrun & Hc & _ & _ & Hs).
    unfold attempt in Hrun. rewrite Hreq in Hrun. unfold bind at 1, send in Hrun.
    rewrite Hdo in Hrun.
    do 2 eexists. split; [exact Hrun|]. right. exists req. split; [reflexivity|]. split; [exact Hc|].
    right. right. eexists. split; [reflexivity|]. split; [discriminate|]. exact Hs.
  - unfold bind at 1, log. unfold bind at 1, nextBackOff, sent.
    cbn [calls ticks backoff slept logged].
    destruct (NextBackOff (backoff w)) as [d b]. rewrite pause_spec. cbn [sleep].
    do 2 eexists. split; [reflexivity|]. right. exists req. split; [reflexivity|].
    split; [destruct (retrying maxRetries i d); reflexivity|].
    right. right. eexists. split; [reflexivity|]. split; [discriminate|].
    cbn [sleep]. destruct (retrying maxRetries i d); reflexivity.
Qed.


(** What the loop of [do] keeps, with [n] iterations left from counter
    [i]: it returns; it sends at most [n] requests; it only adds sleeps,
    none of them [Stop], and fewer than the requests it sends; and it
    returns no error only with a response of status 200. *)
Lemma do_loop_invariant (maxRetries : Z) : forall (n : nat) (i : Z) (v : vars) (w : World B),
  Z.of_nat n = maxRetries + 1 - i ->
  exists (r : option Response) (e : option error) (w' : World B) (new : list Duration),
    do_loop env n tc method url body maxRetries i v w = (Done (r, e), w')
    /\ (calls w <= calls w' <= calls w + n)%nat
    /\ slept w' = (slept w ++ new)%list
    /\ Forall (fun d => d <> Stop) new
    /\ (n = O -> w' = w /\ r = resp v /\ e = err v)
    /\ (n <> O ->
        (List.length new + 1 <= calls w' - calls w)%nat
        \/ (new = [] /\ w' = w /\ r = None
            /\ exists e0, makeSignedRequest env tc method url body = inl e0 /\ e = Some e0))
    /\ (n <> O -> e = None ->
        exists r0 req, r = Some r0 /\ StatusCode r0 = StatusOK
                       /\ makeSignedRequest env tc method url body = inr req
                       /\ Do env (Nat.pred (calls w')) req = Answered r0).
Proof.
  induction n as [|n IH]; intros i v w Hn.
  - exists (resp v), (err v), w, []. cbn [do_loop]. unfold ret.
    rewrite app_nil_r.
    split; [reflexivity|]. split; [lia|]. split; [reflexivity|]. split; [constructor|].
    split; [intros _; repeat split|]. split; intros H; congruence.
  - cbn [do_loop]. unfold bind at 1.
    destruct (attempt_cases maxRetries i v w) as (c & w1 & Hrun & Hcases). rewrite Hrun.
    destruct Hcases as [(e0 & Hreq & -> & ->) | (req & Hreq & Hc & Hcases)].
    { exists None, (Some e0), w, []. unfold ret. rewrite app_nil_r.
      split; [reflexivity|]. split; [lia|]. split; [reflexivity|]. split; [constructor|].
      split; [discriminate|]. split.
      - intros _. right. repeat split. exists e0. split; [exact Hreq | reflexivity].
      - intros _. discriminate. }
    destruct Hcases as [(r & -> & Hstatus & Hs & Hans) | [(r & te & -> & Hs) | (v' & -> & Herr & Hs)]].
    + exists (Some r), None, w1, []. unfold ret. cbn [resp err]. rewrite app_nil_r.
      split; [reflexivity|]. split; [lia|]. split; [exact Hs|]. split; [constructor|].
      split; [discriminate|]. split.
      * intros _. left. cbn [List.length]. lia.
      * intros _ _. exists r, req. split; [reflexivity|]. split; [exact Hstatus|].
        split; [exact Hreq|]. rewrite Hc. exact Hans.
    + exists (Some r), (Some (ETradier te)), w1, []. unfold ret. rewrite app_nil_r.
      split; [reflexivity|]. split; [lia|]. split; [exact Hs|]. split; [constructor|].
      split; [discriminate|]. split.
      * intros _. left. cbn [List.length]. lia.
      * intros _. discriminate.
    + destruct (IH (i + 1) v' w1 ltac:(lia)) as (r & e & w' & new & Hl & Hcalls & Hslept & Hall & H0 & Hpos & Hok).
      rewrite Hl.
      exists r, e, w', ((if retrying maxRetries i (sleep v') then [sleep v'] else []) ++ new)%list.
      split; [reflexivity|]. split; [lia|].
      assert (Hs' : slept w1 = (slept w ++ (if retrying maxRetries i (sleep v')
                                           then [sleep v'] else []))%list).
      { rewrite Hs. destruct (retrying maxRetries i (sleep v')); [reflexivity|].
        rewrite app_nil_r. reflexivity. }
      split; [rewrite Hslept, Hs', app_assoc; reflexivity|].
      split.
      { apply Forall_app. split; [|exact Hall].
        destruct (retrying maxRetries i (sleep v')) eqn:Hgo; [|constructor].
        apply retrying_true in Hgo as [_ Hstop]. constructor; [exact Hstop | constructor]. }
      split; [discriminate|]. split.
      * intros _. left. destruct n as [|n].
        -- destruct (H0 eq_refl) as (-> & _ & _).
           replace (retrying maxRetries i (sleep v')) with false
             by (symmetry; apply retrying_false; left; lia).
           destruct (Hall); cbn [List.length app]; [lia|].
           apply (f_equal (@List.length _)) in Hslept. rewrite length_app in Hslept.
           cbn [List.length] in Hslept. lia.
        -- destruct (Hpos ltac:(discriminate)) as [Hlen | (_ & _ & _ & e0 & Hbad & _)];
             [|rewrite Hreq in Hbad; discriminate].
           rewrite length_app.
           destruct (retrying maxRetries i (sleep v')); cbn [List.length]; lia.
      * intros _ He. destruct n as [|n].
        -- destruct (H0 eq_refl) as (_ & _ & He'). congruence.
        -- apply Hok; [discriminate | exact He].
Qed.


(** What a call of [do] keeps, for every environment. *)
Lemma do_summary (maxRetries : Z) (w : World B) :
  exists (r : option Response) (e : option error) (w' : World B) (new : list Duration),
    do env tc method url body maxRetries w = (Done (r, e), w')
    /\ (calls w <= calls w' <= calls w + Z.to_nat (maxRetries + 1))%nat
    /\ slept w' = (slept w ++ new)%list
    /\ Forall (fun d => d <> Stop) new
    /\ ((List.length new < calls w' - calls w)%nat \/ (new = [] /\ w' = w))
    /\ (e = None ->
        (0 <= maxRetries /\ (calls w < calls w')%nat
         /\ exists r0 req, r = Some r0 /\ StatusCode r0 = StatusOK
                           /\ makeSignedRequest env tc method url body = inr req
                           /\ Do env (Nat.pred (calls w')) req = Answered r0)
        \/ (maxRetries < 0 /\ r = None /\ w' = w)).
Proof.
  unfold do.
  destruct (Z_lt_le_dec maxRetries 0) as [Hneg|Hpos].
  - replace (Z.to_nat (maxRetries + 1)) with O by lia. cbn [do_loop]. unfold ret.
    exists None, None, w, []. rewrite app_nil_r.
    split; [reflexivity|]. split; [lia|]. split; [reflexivity|]. split; [constructor|].
    split; [right; split; reflexivity|]. intros _. right. repeat split. exact Hneg.
  - destruct (do_loop_invariant maxRetries (Z.to_nat (maxRetries + 1)) 0
                                (mkVars None None 0) w ltac:(lia))
      as (r & e & w' & new & Hl & Hcalls & Hslept & Hall & _ & Hpos' & Hok).
    exists r, e, w', new.
    split; [exact Hl|]. split; [exact Hcalls|]. split; [exact Hslept|]. split; [exact Hall|].
    destruct (Hpos' ltac:(lia)) as [Hlen | (-> & -> & _ & e0 & _ & ->)].
    + split; [left; lia|]. intros He. left. split; [exact Hpos|]. split; [lia|].
      apply Hok; [lia | exact He].
    + split; [right; split; reflexivity|]. discriminate.
Qed.


(** X5. With a budget that is not negative, [do] returns no error only
    together with a response of status 200, which is the answer of the
    transport to the last request sent, a request signed by
    [makeSignedRequest]; with a negative budget it sends nothing and
    returns neither a response nor an error. *)
Theorem do_nil_error (maxRetries : Z) (w : World B) :
  (0 <= maxRetries ->
   forall (r : option Response) (w' : World B),
     do env tc method url body maxRetries w = (Done (r, None), w') ->
     (exists (r0 : Response) (req : Request),
         r = Some r0 /\ StatusCode r0 = StatusOK
         /\ makeSignedRequest env tc method url body = inr req
         /\ Do env (Nat.pred (calls w')) req = Answered r0)
     /\ (calls w < calls w')%nat)
  /\ (maxRetries < 0 -> do env tc method url body maxRetries w = (Done (None, None), w)).
Proof.
  destruct (do_summary maxRetries w) as (r1 & e1 & w1 & new & Hl & _ & _ & _ & _ & Hok).
  split.
  - intros Hpos r w' Hrun. rewrite Hl in Hrun. injection Hrun as -> -> ->.
    destruct (Hok eq_refl) as [(_ & Hc & Hr) | (Hneg & _)]; [split; assumption | lia].
  - intros Hneg. unfold do. replace (Z.to_nat (maxRetries + 1)) with O by lia. reflexivity.
Qed.

(** An iteration leaves the backoff policy as it was or advances it by
    one call of [NextBackOff]. *)
Lemma attempt_backoff (maxRetries i : Z) (v : vars) (w w' : World B) (c : ctl) :
  attempt env tc method url body maxRetries i v w = (Done c, w') ->
  backoff w' = backoff w \/ backoff w' = snd (NextBackOff (backoff w)).
Proof.
  unfold attempt.
  destruct (makeSignedRequest env tc method url body) as [e|req] eqn:Hreq.
  { unfold ret. intros H. injection H as _ <-. left. reflexivity. }
  unfold bind at 1, send.
  destruct (Do env (calls w) req) as [r|e|r e] eqn:Hdo.
  - destruct (StatusCode r =? StatusOK) eqn:Hstatus.
    { unfold ret. intros H. injection H as _ <-. left. reflexivity. }
    destruct (Unmarshal (Body r) (blankFault r)) as [te [e|]] eqn:Hu.
    + apply Z.eqb_neq in Hstatus.
      destruct (attempt_unstructured_fault env tc method url body maxRetries i v w
                                           req r te e Hreq Hdo Hstatus Hu)
        as (expiry & v' & w1 & _ & Hrun & _ & _ & Hquota & Hnext & _ & _ & _).
      unfold attempt in Hrun. rewrite Hreq in Hrun. unfold bind at 1, send in Hrun.
      rewrite Hdo in Hrun. apply Z.eqb_neq in Hstatus. rewrite Hstatus, Hu in Hrun.
      rewrite Hrun. intros H. injection H as _ <-.
      destruct (Z.lt_ge_cases (Now env (ticks w) + sleep v) expiry) as [Hlt|Hge].
      * left. apply (Hquota Hlt).
      * right. apply (Hnext Hge).
    + unfold ret. intros H. injection H as _ <-. left. reflexivity.
  - destruct (attempt_transport_error env tc method url body maxRetries i v w req e Hreq Hdo)
      as (w1 & Hrun & _ & _ & Hb & _).
    unfold attempt in Hrun. rewrite Hreq in Hrun. unfold bind at 1, send in Hrun.
    rewrite Hdo in Hrun. rewrite Hrun. intros H. injection H as _ <-. right. exact Hb.
  - unfold bind at 1, log. unfold bind at 1, nextBackOff, sent.
    cbn [calls ticks backoff slept logged].
    destruct (NextBackOff (backoff w)) as [d b]. rewrite pause_spec. cbn [sleep snd].
    intros H. injection H as _ <-. right.
    destruct (retrying maxRetries i d); reflexivity.
Qed.

Lemma do_loop_backoff (maxRetries : Z) : forall (n : nat) (i : Z) (v : vars) (w : World B),
  exists (r : option Response * option error) (w' : World B) (k : nat),
    do_loop env n tc method url body maxRetries i v w = (Done r, w')
    /\ (calls w + k <= calls w')%nat
    /\ backoff w' = Nat.iter k (fun b => snd (NextBackOff b)) (backoff w).
Proof.
  induction n as [|n IH]; intros i v w.
  - exists (resp v, err v), w, O. cbn [do_loop]. unfold ret.
    split; [reflexivity|]. split; [lia | reflexivity].
  - cbn [do_loop]. unfold bind at 1.
    destruct (attempt_cases maxRetries i v w) as (c & w1 & Hrun & Hcases).
    pose proof (attempt_backoff maxRetries i v w w1 c Hrun) as Hb. rewrite Hrun.
    assert (Hcalls : w1 = w \/ calls w1 = S (calls w)).
    { destruct Hcases as [(e0 & _ & _ & ->) | (req & _ & Hc & _)]; [left | right]; auto. }
    assert (Hone : exists k : nat,
               (calls w + k <= calls w1)%nat
               /\ backoff w1 = Nat.iter k (fun b => snd (NextBackOff b)) (backoff w)).
    { destruct Hcalls as [->|Hc]; [exists O; split; [lia | reflexivity]|].
      destruct Hb as [Hb|Hb]; [exists O | exists 1%nat]; (split; [lia | exact Hb]). }
    destruct Hone as (k1 & Hk1 & Hb1).
    destruct c as [v'|v'|r].
    + destruct (IH (i + 1) v' w1) as (r & w' & k & Hl & Hk & Hbk). rewrite Hl.
      exists r, w', (k + k1)%nat. split; [reflexivity|]. split; [lia|].
      rewrite Hbk, Hb1. symmetry. apply Nat.iter_add.
    + exists (resp v', err v'), w1, k1. unfold ret. split; [reflexivity|]. split; assumption.
    + exists r, w1, k1. unfold ret. split; [reflexivity|]. split; assumption.
Qed.

(** X6. [do] never resets the backoff policy: the policy it leaves is the one
    it found, advanced by [NextBackOff] a number of times that is at most
    the number of requests sent. *)
Theorem do_never_resets_backoff (maxRetries : Z) (w : World B) :
  exists (r : option Response * option error) (w' : World B) (k : nat),
    do env tc method url body maxRetries w = (Done r, w')
    /\ (calls w + k <= calls w')%nat
    /\ backoff w' = Nat.iter k (fun b => snd (NextBackOff b)) (backoff w).
Proof.
  unfold do. apply do_loop_backoff.
Qed.

End Loop.

Import Mock.

(** A first answer of 200, and a budget of -1. *)
Lemma do_nil_error_witness :
  ((exists (r0 : Response) (req : Request),
       Some (mkResponse 200 "ok") = Some r0 /\ StatusCode r0 = StatusOK
       /\ makeSignedRequest (Mock.env (answering 200 "ok") frozen) client
                            "GET" "/v1/markets/clock" None = inr req
       /\ Do (Mock.env (answering 200 "ok") frozen) 0 req = Answered r0)
   /\ (calls world0 < 1)%nat)
  /\ do (Mock.env (answering 200 "ok") frozen) client "GET" "/v1/markets/clock" None (-1) world0
     = (Done (None, None), world0).
Proof.
  split.
  - refine (proj1 (do_nil_error (Mock.env (answering 200 "ok") frozen) client
                                "GET" "/v1/markets/clock" None 3 world0)
                  _ (Some (mkResponse 200 "ok")) (mkWorld 1 0 0%nat [] []) _).
    + lia.
    + reflexivity.
  - apply (proj2 (do_nil_error (Mock.env (answering 200 "ok") frozen) client
                               "GET" "/v1/markets/clock" None (-1) world0)).
    lia.
Defined.

End LoopSpec.

(** ** The outcomes of GetTimeSales *)

Module OutcomeSpec.
Import GoString Int64 Time Http Backoff Json World RateLimit Tradier LoopSpec.

Section Outcome.

Context {B : Type} {BO : BackOff B} {UF : Unmarshaler TradierError}.
Variable env : Env.
Variable ivs : Intervals.
Variable TimeSale : Type.
Variable zeroTimeSale : TimeSale.
Context {UT : Unmarshaler TimeSale} {UTs : Unmarshaler (list TimeSale)}.
Variable Member : list string -> string -> error + option string.
Variable tc : Client.
Variables symbol interval : string.

Local Notation "'fetch'" := (fun fuel => GetTimeSales env ivs zeroTimeSale Member fuel tc symbol interval).

Lemma decodeTimeSales_error (body : string) (bars : list TimeSale) (e : error) :
  decodeTimeSales ivs zeroTimeSale Member body interval = (bars, Some e) -> bars = [].
Proof.
  unfold decodeTimeSales.
  destruct (Member (timeSalesPath ivs interval) body) as [err|[data|]].
  - intros H. injection H as <- _. reflexivity.
  - destruct (timeSaleList_UnmarshalJSON zeroTimeSale [] data) as [tsl [err|]];
      intros H; [injection H as <- _; reflexivity | discriminate H].
  - discriminate.
Qed.

Lemma halves_error (f : Time -> Time -> World B -> option (fetched (B:=B) TimeSale))
      (start middle end_ : Time) (w w' : World B) (bars : list TimeSale) (e : error) :
  halves f start middle end_ w = Some (Done (bars, Some e), w') -> bars = [].
Proof.
  unfold halves.
  destruct (f start middle w) as [[[[firstHalf [err1|]]|e1] w3]|]; try discriminate.
  - intros H. injection H as <- _ _. reflexivity.
  - destruct (f middle end_ w3) as [[[[secondHalf [err2|]]|e2] w4]|]; try discriminate.
    intros H. injection H as <- _ _. reflexivity.
Qed.

Lemma halves_panic (f : Time -> Time -> World B -> option (fetched (B:=B) TimeSale))
      (start middle end_ : Time) (w w' : World B) (e : error) (P : error -> Prop) :
  (forall a b w0 w1, f a b w0 = Some (Panicked e, w1) -> P e) ->
  halves f start middle end_ w = Some (Panicked e, w') -> P e.
Proof.
  intros Hf. unfold halves.
  destruct (f start middle w) as [[[[firstHalf [err1|]]|e1] w3]|] eqn:H1; try discriminate.
  - destruct (f middle end_ w3) as [[[[secondHalf [err2|]]|e2] w4]|] eqn:H2; try discriminate.
    intros H. injection H as <- _. exact (Hf _ _ _ _ H2).
  - intros H. injection H as <- _. exact (Hf _ _ _ _ H1).
Qed.

(** X9. Whenever [GetTimeSales] returns an error, it returns no bars with it:
    the bars of a first half are dropped when the second half fails, and
    nothing a decoder left behind is handed out. *)
Theorem GetTimeSales_error_has_no_bars (fuel : nat) :
  forall (start end_ : Time) (w w' : World B) (bars : list TimeSale) (e : error),
    fetch fuel start end_ w = Some (Done (bars, Some e), w') -> bars = [].
Proof.
  induction fuel as [|fuel IH]; intros start end_ w w' bars e H; [discriminate H|].
  cbn [GetTimeSales] in H.
  destruct (getTimeSalesUrl env ivs tc symbol interval start end_) as [url|e0]; [|discriminate H].
  destruct (do env tc "GET" url None (retryLimit tc) w) as [[[[resp|] [err|]]|e0] w1];
    try discriminate H.
  2: { injection H as H _. exact (decodeTimeSales_error _ _ _ H). }
  all: destruct err as [msg|msg|msg|msg|te]; try (injection H as <- _ _; reflexivity).
  all: destruct (String.eqb (ErrorCode (Detail (Fault te))) ErrBodyBufferOverflow);
    [|injection H as <- _ _; reflexivity].
  all: destruct (bisect env start end_ w1) as [[middle|e0] w2]; [|discriminate H].
  all: destruct (Sub end_ middle <? 1 * Minute); [injection H as <- _ _; reflexivity|].
  all: exact (halves_error _ _ _ _ _ _ _ _ H).
Qed.

Lemma bisect_returns (start end_ : Time) (w : World B) :
  exists (middle : Time) (w' : World B), bisect env start end_ w = (Done middle, w').
Proof.
  unfold bisect, bind, tick, ret. destruct (IsZero end_); eexists; eexists; reflexivity.
Qed.

(** X10. [GetTimeSales] panics in two cases only: the interval is not served by
    the history endpoint and the time zone database has no America/New_York
    (the panic of [getTimeSalesUrl], with the error of the lookup), or the
    client's retry limit is negative, so that [do] returns neither a
    response nor an error and the body of a nil response is read. *)
Theorem GetTimeSales_panics_only (fuel : nat) :
  forall (start end_ : Time) (w w' : World B) (why : error),
    fetch fuel start end_ w = Some (Panicked why, w') ->
    (isHistory ivs interval = false /\ LoadLocation env "America/New_York" = inl why)
    \/ (retryLimit tc < 0 /\ why = RuntimeError "nil pointer dereference").
Proof.
  induction fuel as [|fuel IH]; intros start end_ w w' why H; [discriminate H|].
  cbn [GetTimeSales] in H.
  destruct (getTimeSalesUrl env ivs tc symbol interval start end_) as [url|e0] eqn:Hurl.
  - destruct (do_summary env tc "GET" url None (retryLimit tc) w)
      as (r & e & w1 & new & Hdo & _ & _ & _ & _ & Hnil).
    rewrite Hdo in H. destruct e as [err|].
    + assert (H' : match err with
                   | ETradier te =>
                     if String.eqb (ErrorCode (Detail (Fault te))) ErrBodyBufferOverflow
                     then match bisect env start end_ w1 with
                          | (Panicked e, w2) => Some (Panicked e, w2)
                          | (Done middle, w2) =>
                            if Sub end_ middle <? 1 * Minute
                            then Some (Done ([], Some err), w2)
                            else halves (fetch fuel) start middle end_ w2
                          end
                     else Some (Done ([], Some err), w1)
                   | _ => Some (Done (@nil TimeSale, Some err), w1)
                   end = Some (Panicked why, w')) by (destruct r; exact H).
      clear H. destruct err as [msg|msg|msg|msg|te]; try discriminate H'.
      destruct (String.eqb (ErrorCode (Detail (Fault te))) ErrBodyBufferOverflow);
        [|discriminate H'].
      destruct (bisect_returns start end_ w1) as (middle & w2 & Hmid). rewrite Hmid in H'.
      destruct (Sub end_ middle <? 1 * Minute); [discriminate H'|].
      refine (halves_panic _ _ _ _ _ _ _
                (fun why => (isHistory ivs interval = false
                             /\ LoadLocation env "America/New_York" = inl why)
                            \/ (retryLimit tc < 0
                                /\ why = RuntimeError "nil pointer dereference")) _ H').
      intros a b w0 w3 H0. exact (IH _ _ _ _ _ H0).
    + destruct (Hnil eq_refl) as [(_ & _ & r0 & req & -> & _) | (Hneg & -> & _)].
      * discriminate H.
      * injection H as <- _. right. split; [exact Hneg | reflexivity].
  - injection H as <- _. left. unfold getTimeSalesUrl in Hurl.
    destruct (isHistory ivs interval); [discriminate Hurl|].
    destruct (LoadLocation env "America/New_York") as [err|tz]; [|discriminate Hurl].
    injection Hurl as ->. split; reflexivity.
Qed.

End Outcome.

Import Mock.

(** No connection: the error of the transport comes back with no bars. *)
Lemma GetTimeSales_error_has_no_bars_witness :
  @nil Z = [].
Proof.
  refine (GetTimeSales_error_has_no_bars (Mock.env refused frozen) intervals Z 0 member client
            "SPY" "daily" 1 t2006 (t2006 + 120 * Minute) world0 _ [] _ _).
  vm_compute. reflexivity.
Defined.

(** A client with a retry limit of -1. *)
Lemma GetTimeSales_panics_only_witness :
  (isHistory intervals "daily" = false
   /\ LoadLocation (Mock.env refused frozen) "America/New_York"
      = inl (RuntimeError "nil pointer dereference"))
  \/ (-1 < 0 /\ RuntimeError "nil pointer dereference" = RuntimeError "nil pointer dereference").
Proof.
  refine (GetTimeSales_panics_only (Mock.env refused frozen) intervals Z 0 member
            (mkClient "https://api.tradier.com" "Bearer token" (-1) EmptyString)
            "SPY" "daily" 1 t2006 (t2006 + 120 * Minute) world0 world0 _ _).
  vm_compute. reflexivity.
Defined.

End OutcomeSpec.

(** ** The signed request *)

Module SigningSpec.
Import GoString Http World Tradier Lib.



Section Signing.

Variable env : Env.
Variable tc : Client.


End Signing.

Import Mock.


End SigningSpec.

(** ** The getters *)

Module GetterSpec.
Import GoString Int64 Strconv Time Http Backoff Json World RateLimit Tradier Lib Api LoopSpec.

Section Getters.

Context {B : Type} {BO : BackOff B} {UF : Unmarshaler TradierError}.
Variable env : Env.
Variable Response_Status : Response -> string.
Variable DecodeRaw : list string -> string -> option string -> option string * option error.
Variable tc : Client.

(** The three ways a call of [getJSON] ends. *)
Lemma getJSON_cases {A : Type} (url : string) (decode : string -> A -> A * option error)
      (result : A) (w : World B) :
  (retryLimit tc < 0
   /\ getJSON env Response_Status tc url decode result w = (Panicked nilDereference, w))
  \/ (0 <= retryLimit tc
      /\ exists (resp : option Response) (e : option error) (w' : World B),
          do env tc "GET" url None (retryLimit tc) w = (Done (resp, e), w')
          /\ match e with
             | Some err =>
               getJSON env Response_Status tc url decode result w
               = (Done (result, Some (Passed err)), w')
             | None =>
               exists r0 : Response,
                 resp = Some r0 /\ StatusCode r0 = Http.StatusOK
                 /\ getJSON env Response_Status tc url decode result w
                    = (Done (fst (decode (Body r0) result),
                             option_map Passed (snd (decode (Body r0) result))), w')
             end).
Proof.
  destruct (do_summary env tc "GET" url None (retryLimit tc) w)
    as (r & e & w' & new & Hdo & _ & _ & _ & _ & Hnil).
  unfold getJSON, bind. rewrite Hdo.
  destruct e as [err|].
  - destruct (Z_lt_le_dec (retryLimit tc) 0) as [Hneg|Hpos].
    + exfalso. unfold do in Hdo. replace (Z.to_nat (retryLimit tc + 1)) with O in Hdo by lia.
      cbn [do_loop] in Hdo. unfold ret in Hdo. cbn [Tradier.resp Tradier.err] in Hdo. discriminate Hdo.
    + right. split; [exact Hpos|]. exists r, (Some err), w'. split; [reflexivity|].
      unfold ret. destruct r; reflexivity.
  - destruct (Hnil eq_refl) as [(Hpos & _ & r0 & req & -> & Hstatus & _) | (Hneg & -> & ->)].
    + right. split; [exact Hpos|]. exists (Some r0), None, w'. split; [reflexivity|].
      exists r0. split; [reflexivity|]. split; [exact Hstatus|].
      rewrite Hstatus. cbn [Z.eqb negb Http.StatusOK Pos.eqb].
      destruct (decode (Body r0) result) as [res er]. reflexivity.
    + left. split; [exact Hneg | reflexivity].
Qed.

(** X11. [getJSON] panics exactly when the client's retry limit is negative, on
    the nil response [do] then returns, without sending anything.
    Otherwise it returns: the error of [do], with the result untouched; or
    what the decoder makes of the body of a response of status 200.  It
    never returns the error made of a status line, since [do] returns no
    error only with status 200. *)
Theorem getJSON_outcomes {A : Type} (url : string) (decode : string -> A -> A * option error)
        (result : A) (w : World B) :
  (retryLimit tc < 0 ->
   getJSON env Response_Status tc url decode result w = (Panicked nilDereference, w))
  /\ (0 <= retryLimit tc ->
      exists (resp : option Response) (e : option error) (w' : World B),
        do env tc "GET" url None (retryLimit tc) w = (Done (resp, e), w')
        /\ match e with
           | Some err =>
             getJSON env Response_Status tc url decode result w
             = (Done (result, Some (Passed err)), w')
           | None =>
             exists r0 : Response,
               resp = Some r0 /\ StatusCode r0 = Http.StatusOK
               /\ getJSON env Response_Status tc url decode result w
                  = (Done (fst (decode (Body r0) result),
                           option_map Passed (snd (decode (Body r0) result))), w')
           end)
  /\ forall (res : A) (msg : string) (w' : World B),
      getJSON env Response_Status tc url decode result w <> (Done (res, Some (Made msg)), w').
Proof.
  destruct (getJSON_cases url decode result w)
    as [(Hneg & Hrun) | (Hpos & resp & e & w1 & Hdo & Hrun)].
  - split; [intros _; exact Hrun|]. split; [intros Hpos; lia|].
    intros res msg w'. rewrite Hrun. discriminate.
  - split; [intros Hneg; lia|]. split; [intros _; exists resp, e, w1; split; assumption|].
    intros res msg w'. destruct e as [err|].
    + rewrite Hrun. discriminate.
    + destruct Hrun as (r0 & _ & _ & ->).
      destruct (snd (decode (Body r0) result)); discriminate.
Qed.

Variables AccountBalances Position Event ClosedPosition Security Quote MarketCalendar : Type.
Context {UAB : Unmarshaler (option AccountBalances)}
        {UABs : Unmarshaler (list (option AccountBalances))}.
Context {UPo : Unmarshaler (option Position)} {UPos : Unmarshaler (list (option Position))}.
Context {UEv : Unmarshaler (option Event)} {UEvs : Unmarshaler (list (option Event))}.
Context {UCP : Unmarshaler (option ClosedPosition)}
        {UCPs : Unmarshaler (list (option ClosedPosition))}.
Context {UOr : Unmarshaler (option Order)} {UOrs : Unmarshaler (list (option Order))}.
Context {USe : Unmarshaler (option Security)} {USes : Unmarshaler (list (option Security))}.
Context {UQu : Unmarshaler (option Quote)} {UQus : Unmarshaler (list (option Quote))}.
Context {UMC : Unmarshaler (option MarketCalendar)}
        {UMCs : Unmarshaler (list (option MarketCalendar))}.

(** The steps after [getJSON] that the getters share, run on every
    outcome of it. *)
Ltac after_getJSON :=
  unfold bind, lift, ret;
  match goal with
  | |- context [getJSON ?e ?s ?c ?u ?d ?r ?w] =>
    destruct (getJSON e s c u d r w) as [[[[raw|] er]|why] w1]
  end;
  cbn [RawMessage_MarshalJSON];
  unfold oneToInfinity_interface;
  try match goal with
      | |- context [oneToInfinity ?b] => destruct (oneToInfinity b) as [results|why]
      end;
  cbn [assertPointer assertSlice assertSliceOfPointers].

(** [getJSON] leaves the result as it was when [do] fails. *)
Lemma getJSON_do_error {A : Type} (url : string) (decode : string -> A -> A * option error)
      (result : A) (w w1 : World B) (resp : option Response) (err : error) :
  do env tc "GET" url None (retryLimit tc) w = (Done (resp, Some err), w1) ->
  getJSON env Response_Status tc url decode result w = (Done (result, Some (Passed err)), w1).
Proof.
  intros Hdo. unfold getJSON, bind. rewrite Hdo. destruct resp; reflexivity.
Qed.

(** X12. [GetAccountBalances] and [GetOrderStatus] never return a value.  With
    no account selected they return [ErrNoAccountSelected] and send
    nothing.  With an account they panic on every run: the result of
    [oneToInfinity] is a slice of pointers, which the assertion to a
    pointer refuses, when nothing before it has panicked. *)
Theorem pointer_getters_never_return (orderId : Z) (w : World B) :
  (account tc = EmptyString ->
   GetAccountBalances env Response_Status DecodeRaw (AccountBalances:=AccountBalances) tc w
   = (Done (None, Some ErrNoAccountSelected), w)
   /\ GetOrderStatus env Response_Status DecodeRaw tc orderId w
      = (Done (None, Some ErrNoAccountSelected), w))
  /\ (account tc <> EmptyString ->
      (exists (why : error) (w' : World B),
          GetAccountBalances env Response_Status DecodeRaw (AccountBalances:=AccountBalances) tc w
          = (Panicked why, w'))
      /\ (exists (why : error) (w' : World B),
             GetOrderStatus env Response_Status DecodeRaw tc orderId w = (Panicked why, w'))).
Proof.
  unfold GetAccountBalances, GetOrderStatus. split.
  - intros ->. split; reflexivity.
  - intros Hacc. apply String.eqb_neq in Hacc. rewrite Hacc.
    split; after_getJSON; eexists; eexists; reflexivity.
Qed.

(** X13. [LookupSecurities], [GetEasyToBorrow] and [GetMarketCalendar] never
    return: every run ends in a panic, since the slice of pointers
    [oneToInfinity] returns is asserted to be a slice of values. *)
Theorem slice_getters_never_return (types exchanges : list string) (query : string)
        (year month : Z) (w : World B) :
  (exists (why : error) (w' : World B),
      LookupSecurities env Response_Status DecodeRaw (Security:=Security)
                       tc types exchanges query w = (Panicked why, w'))
  /\ (exists (why : error) (w' : World B),
         GetEasyToBorrow env Response_Status DecodeRaw (Security:=Security) tc w
         = (Panicked why, w'))
  /\ (exists (why : error) (w' : World B),
         GetMarketCalendar env Response_Status DecodeRaw (MarketCalendar:=MarketCalendar)
                           tc year month w = (Panicked why, w')).
Proof.
  unfold LookupSecurities, GetEasyToBorrow, GetMarketCalendar.
  split; [|split]; after_getJSON; eexists; eexists; reflexivity.
Qed.

(** X14. [GetQuotes] never returns an error.  When [do] fails, for whatever
    reason, the nil message left in the result is dereferenced and the
    call panics.  The quotes it returns are the ones [oneToInfinity] reads
    from the member the envelope decoder stored, of a response of status
    200; an error of the envelope decoder is dropped. *)
Theorem GetQuotes_outcomes (symbols : list string) (w : World B) :
  (forall (quotes : list (option Quote)) (e : failure) (w' : World B),
      GetQuotes env Response_Status DecodeRaw tc symbols w <> (Done (quotes, Some e), w'))
  /\ (forall (resp : option Response) (err : error) (w1 : World B),
         do env tc "GET" (endpoint tc ++ "/v1/markets/quotes?symbols=" ++ Join symbols ",")
            None (retryLimit tc) w = (Done (resp, Some err), w1) ->
         GetQuotes env Response_Status DecodeRaw (Quote:=Quote) tc symbols w
         = (Panicked nilDereference, w1))
  /\ (forall (quotes : list (option Quote)) (w' : World B),
         GetQuotes env Response_Status DecodeRaw tc symbols w = (Done (quotes, None), w') ->
         exists (r0 : Response) (raw : string),
           do env tc "GET" (endpoint tc ++ "/v1/markets/quotes?symbols=" ++ Join symbols ",")
              None (retryLimit tc) w = (Done (Some r0, None), w')
           /\ StatusCode r0 = Http.StatusOK
           /\ fst (DecodeRaw ["Quotes"; "Quote"] (Body r0) None) = Some raw
           /\ oneToInfinity (if String.eqb raw EmptyString then "null" else raw) = Done quotes).
Proof.
  split; [|split].
  - intros quotes e w'. unfold GetQuotes. after_getJSON; discriminate.
  - intros resp err w1 Hdo. unfold GetQuotes, bind.
    rewrite (getJSON_do_error _ _ _ _ _ _ _ Hdo). reflexivity.
  - intros quotes w'. unfold GetQuotes, bind.
    destruct (getJSON_cases (endpoint tc ++ "/v1/markets/quotes?symbols=" ++ Join symbols ",")
                            (DecodeRaw ["Quotes"; "Quote"]) None w)
      as [(_ & Hrun) | (_ & resp & e & w1 & Hdo & Hrun)].
    + rewrite Hrun. discriminate.
    + destruct e as [err|]; [rewrite Hrun; discriminate|].
      destruct Hrun as (r0 & -> & Hstatus & Hrun). rewrite Hrun.
      destruct (DecodeRaw ["Quotes"; "Quote"] (Body r0) None) as [[raw|] er] eqn:Hdec;
        cbn [fst snd lift RawMessage_MarshalJSON]; [|discriminate].
      unfold oneToInfinity_interface, lift, ret.
      destruct (oneToInfinity (if String.eqb raw EmptyString then "null" else raw))
        as [results|why] eqn:Hone; [|discriminate].
      cbn [assertSliceOfPointers]. intros H. injection H as <- <-.
      exists r0, raw. split; [exact Hdo|]. split; [exact Hstatus|].
      split; [rewrite Hdec; reflexivity | exact Hone].
Qed.

(** X15. [GetAccountPositions], [GetAccountHistory] and [GetAccountCostBasis]
    return one error only, [ErrNoAccountSelected], exactly when no account
    is selected, and then send nothing; with an account, a failure of [do]
    makes them panic on the nil message left in the result. *)
Theorem account_getters_outcomes (limit : Z) (w : World B) :
  (account tc = EmptyString ->
   GetAccountPositions env Response_Status DecodeRaw (Position:=Position) tc w
   = (Done ([], Some ErrNoAccountSelected), w)
   /\ GetAccountHistory env Response_Status DecodeRaw (Event:=Event) tc limit w
      = (Done ([], Some ErrNoAccountSelected), w)
   /\ GetAccountCostBasis env Response_Status DecodeRaw (ClosedPosition:=ClosedPosition) tc w
      = (Done ([], Some ErrNoAccountSelected), w))
  /\ (forall (x : list (option Position)) (e : failure) (w' : World B),
      GetAccountPositions env Response_Status DecodeRaw tc w = (Done (x, Some e), w') ->
      account tc = EmptyString /\ e = ErrNoAccountSelected /\ w' = w)
  /\ (forall (x : list (option Event)) (e : failure) (w' : World B),
         GetAccountHistory env Response_Status DecodeRaw tc limit w = (Done (x, Some e), w') ->
         account tc = EmptyString /\ e = ErrNoAccountSelected /\ w' = w)
  /\ (forall (x : list (option ClosedPosition)) (e : failure) (w' : World B),
         GetAccountCostBasis env Response_Status DecodeRaw tc w = (Done (x, Some e), w') ->
         account tc = EmptyString /\ e = ErrNoAccountSelected /\ w' = w)
  /\ (account tc <> EmptyString ->
      forall (url : string) (resp : option Response) (err : error) (w1 : World B),
        do env tc "GET" url None (retryLimit tc) w = (Done (resp, Some err), w1) ->
        (url = endpoint tc ++ "/v1/accounts/" ++ account tc ++ "/positions" ->
         GetAccountPositions env Response_Status DecodeRaw (Position:=Position) tc w
         = (Panicked nilDereference, w1))
        /\ (url = (if 0 <? limit
                   then (endpoint tc ++ "/v1/accounts/" ++ account tc ++ "/history")
                          ++ "?limit=" ++ FormatInt limit
                   else endpoint tc ++ "/v1/accounts/" ++ account tc ++ "/history") ->
            GetAccountHistory env Response_Status DecodeRaw (Event:=Event) tc limit w
            = (Panicked nilDereference, w1))
        /\ (url = endpoint tc ++ "/v1/accounts/" ++ account tc ++ "/gainloss" ->
            GetAccountCostBasis env Response_Status DecodeRaw
                                (ClosedPosition:=ClosedPosition) tc w
            = (Panicked nilDereference, w1))).
Proof.
  unfold GetAccountPositions, GetAccountHistory, GetAccountCostBasis.
  destruct (String.eqb (account tc) EmptyString) eqn:Hacc.
  - apply String.eqb_eq in Hacc. unfold ret.
    split; [intros _; repeat split; reflexivity|].
    repeat (split; [intros x e w' H; injection H as _ <- <-; repeat split; exact Hacc|]).
    intros Hne. contradiction.
  - split; [intros Hempty; apply String.eqb_neq in Hacc; contradiction|].
    repeat (split; [intros x e w'; after_getJSON; discriminate|]).
    intros _ url resp err w1 Hdo. unfold bind.
    repeat split; intros ->; rewrite (getJSON_do_error _ _ _ _ _ _ _ Hdo); reflexivity.
Qed.

End Getters.

Import Mock MockApi.

(** A list of two quotes (here numbers) is read from a response of status
    200. *)
Example GetQuotes_reads_a_list :
  GetQuotes (Mock.env (answering 200 "list 1 2") frozen) statusLine wholeBody
            client ["SPY"; "QQQ"] world0
  = (Done ([Some 1; Some 2], None), mkWorld 1 0 0%nat [] []).
Proof. vm_compute. reflexivity. Qed.

(** The same response makes [GetEasyToBorrow] panic at the type
    assertion. *)
Example GetEasyToBorrow_panics_on_a_list :
  GetEasyToBorrow (Mock.env (answering 200 "list 1 2") frozen) statusLine wholeBody
                  (Security:=Z) client world0
  = (Panicked interfaceConversion, mkWorld 1 0 0%nat [] []).
Proof. vm_compute. reflexivity. Qed.

(** A structured fault makes [GetQuotes] panic on the nil message. *)
Example GetQuotes_panics_on_a_fault :
  GetQuotes (Mock.env (answering 400 "fault protocol.http.TooBigBody") frozen)
            statusLine wholeBody (Quote:=Z) client ["SPY"] world0
  = (Panicked nilDereference, mkWorld 1 0 0%nat [] []).
Proof. vm_compute. reflexivity. Qed.

End GetterSpec.

(** ** The orders *)

Module OrderSpec.
Import GoString Int64 Strconv Time Http Backoff Json World RateLimit Tradier Lib Api.
Import RateLimitSpec LoopSpec.

(** The keys of a form after [Values.Add]. *)
Lemma Values_Add_keys (v : Values) (key value k : string) :
  In k (map fst (Values_Add v key value)) -> k = key \/ In k (map fst v).
Proof.
  induction v as [|[k' vs] t IH]; cbn [Values_Add map fst In].
  - intros [H|[]]. left. symmetry. exact H.
  - destruct (String.eqb k' key); cbn [map fst In].
    + intros [H|H]; right; [left | right]; exact H.
    + intros [H|H]; [right; left; exact H|].
      destruct (IH H) as [Hk|Hk]; [left | right; right]; exact Hk.
Qed.

Lemma Values_Add_key (v : Values) (key value : string) :
  In key (map fst (Values_Add v key value)).
Proof.
  induction v as [|[k' vs] t IH]; cbn [Values_Add map fst In]; [left; reflexivity|].
  destruct (String.eqb k' key) eqn:Hk; cbn [map fst In].
  - left. apply String.eqb_eq. exact Hk.
  - right. exact IH.
Qed.

Lemma Values_Add_keeps (v : Values) (key value k : string) :
  In k (map fst v) -> In k (map fst (Values_Add v key value)).
Proof.
  induction v as [|[k' vs] t IH]; cbn [Values_Add map fst In]; [intros []|].
  destruct (String.eqb k' key); cbn [map fst In]; intros [H|H]; auto.
Qed.

(** A value added under a new key is the one read back. *)
Lemma Values_Get_Add_new (v : Values) (key value : string) :
  ~ In key (map fst v) -> Values_Get (Values_Add v key value) key = value.
Proof.
  induction v as [|[k' vs] t IH]; cbn [Values_Add Values_Get map fst In]; intros Hnew.
  - rewrite String.eqb_refl. reflexivity.
  - destruct (String.eqb k' key) eqn:Hk.
    + exfalso. apply Hnew. left. apply String.eqb_eq. exact Hk.
    + cbn [Values_Get]. rewrite Hk. apply IH. intros H. apply Hnew. right. exact H.
Qed.

(** Adding a value leaves what is read under the other keys. *)
Lemma Values_Get_Add_other (v : Values) (key value k : string) :
  k <> key -> Values_Get (Values_Add v key value) k = Values_Get v k.
Proof.
  intros Hne. induction v as [|[k' vs] t IH]; cbn [Values_Add Values_Get].
  - replace (String.eqb key k) with false
      by (symmetry; apply String.eqb_neq; congruence). reflexivity.
  - destruct (String.eqb k' key) eqn:Hk; cbn [Values_Get].
    + apply String.eqb_eq in Hk. subst k'.
      replace (String.eqb key k) with false
        by (symmetry; apply String.eqb_neq; congruence). reflexivity.
    + destruct (String.eqb k' k); [reflexivity | exact IH].
Qed.

(** A decimal numeral followed by a bracket is not one followed by [d]
    and a bracket. *)
Lemma digits_bracket (x : string) : forall y : string,
  all_digits x = true -> all_digits y = true -> (x ++ "]" <> y ++ "d]")%string.
Proof.
  induction x as [|c x IH]; intros [|c' y] Hx Hy; cbn [append].
  - discriminate.
  - intros H. injection H as <- _. cbn [all_digits] in Hy. discriminate Hy.
  - intros H. injection H as -> _. cbn [all_digits] in Hx. discriminate Hx.
  - intros H. injection H as _ H. cbn [all_digits] in Hx, Hy.
    apply andb_true_iff in Hx as [_ Hx]. apply andb_true_iff in Hy as [_ Hy].
    exact (IH y Hx Hy H).
Qed.

(** The numeral of a number that is not negative is made of digits. *)
Lemma all_digits_FormatInt (n : Z) : 0 <= n -> all_digits (FormatInt n) = true.
Proof.
  intros Hn. unfold FormatInt. replace (n <? 0) with false by (symmetry; apply Z.ltb_ge; lia).
  unfold FormatUint. apply all_digits_digits_fuel; [exact Hn | reflexivity].
Qed.

Section Orders.

Context {B : Type} {BO : BackOff B} {UF : Unmarshaler TradierError}.
Variable env : Env.
Variable Response_Status : Response -> string.
Variable FormatFloat : spec_float -> ascii -> Z -> string.
Variable kw : Words.
Context {DA : Decoder Ack}.
Variable tc : Client.

(** X16. [PlaceOrder] never retries and never panics: it sends at most one
    request and does not sleep, whatever the transport answers; it sends
    nothing without an account or for an order [orderToParams] refuses.
    It returns no error only when the transport answered the one signed
    POST request with status 200 and a body that decodes to an
    acknowledgement of status ok, whose id it returns. *)
Theorem PlaceOrder_never_retries (order : Order) (w : World B) :
  exists (id : Z) (e : option failure) (w' : World B),
    PlaceOrder env Response_Status FormatFloat kw tc order w = (Done (id, e), w')
    /\ (calls w <= calls w' <= calls w + 1)%nat
    /\ slept w' = slept w
    /\ (calls w' <> calls w ->
        account tc <> EmptyString /\ snd (orderToParams FormatFloat kw order) = None)
    /\ (e = None ->
        exists (req : Request) (r0 : Response) (ack : Ack),
          makeSignedRequest env tc "POST"
                            (endpoint tc ++ "/v1/accounts/" ++ account tc ++ "/orders")
                            (Some (fst (orderToParams FormatFloat kw order))) = inr req
          /\ Do env (calls w) req = Answered r0
          /\ StatusCode r0 = Http.StatusOK
          /\ Decode (Body r0) (mkAck 0 EmptyString) = (ack, None)
          /\ Status ack = StatusOK kw
          /\ id = Id ack).
Proof.
  unfold PlaceOrder.
  destruct (String.eqb (account tc) EmptyString) eqn:Hacc.
  { exists 0, (Some ErrNoAccountSelected), w. unfold ret.
    split; [reflexivity|]. split; [lia|]. split; [reflexivity|].
    split; [intros H; contradiction|]. discriminate. }
  apply String.eqb_neq in Hacc.
  destruct (orderToParams FormatFloat kw order) as [form [bad|]] eqn:Hform.
  { exists 0, (Some bad), w. unfold ret.
    split; [reflexivity|]. split; [lia|]. split; [reflexivity|].
    split; [intros H; contradiction|]. discriminate. }
  cbn [fst snd]. unfold bind.
  destruct (do_summary env tc "POST" (endpoint tc ++ "/v1/accounts/" ++ account tc ++ "/orders")
                       (Some form) 0 w)
    as (r & e & w' & new & Hdo & Hcalls & Hslept & Hall & Hlen & Hnil).
  rewrite Hdo. change (Z.to_nat (0 + 1)) with 1%nat in Hcalls.
  assert (Hquiet : slept w' = slept w).
  { destruct Hlen as [Hlen | (_ & ->)]; [|reflexivity].
    destruct new as [|d new]; [rewrite Hslept; apply app_nil_r|].
    cbn [List.length] in Hlen. lia. }
  destruct e as [err|].
  { exists 0, (Some (Passed err)), w'. unfold ret.
    split; [destruct r; reflexivity|]. split; [exact Hcalls|]. split; [exact Hquiet|].
    split; [intros _; split; [exact Hacc | reflexivity]|]. discriminate. }
  destruct (Hnil eq_refl) as [(_ & Hsent & r0 & req & -> & Hstatus & Hreq & Hans) | (Hneg & _)];
    [|lia].
  rewrite Hstatus. cbn [Z.eqb Http.StatusOK Pos.eqb negb].
  replace (Nat.pred (calls w')) with (calls w) in Hans by lia.
  destruct (Decode (Body r0) (mkAck 0 EmptyString)) as [ack [bad|]] eqn:Hdec.
  { exists (Id ack), (Some (Passed bad)), w'. unfold ret.
    split; [reflexivity|]. split; [exact Hcalls|]. split; [exact Hquiet|].
    split; [intros _; split; [exact Hacc | reflexivity]|]. discriminate. }
  destruct (String.eqb (Status ack) (StatusOK kw)) eqn:Hok; cbn [negb]; unfold ret.
  - exists (Id ack), None, w'.
    split; [reflexivity|]. split; [exact Hcalls|]. split; [exact Hquiet|].
    split; [intros _; split; [exact Hacc | reflexivity]|].
    intros _. exists req, r0, ack. apply String.eqb_eq in Hok.
    repeat (split; [assumption || reflexivity|]). reflexivity.
  - eexists (Id ack), _, w'.
    split; [reflexivity|]. split; [exact Hcalls|]. split; [exact Hquiet|].
    split; [intros _; split; [exact Hacc | reflexivity]|]. discriminate.
Qed.

(** What [acknowledged] accepts. *)
Lemma acknowledged_None (orderId : Z) (mismatch : Z -> Z -> string) (r0 : Response) :
  acknowledged kw orderId mismatch r0 = None ->
  exists ack : Ack,
    Decode (Body r0) (mkAck 0 EmptyString) = (ack, None)
    /\ Status ack = StatusOK kw /\ Id ack = orderId.
Proof.
  unfold acknowledged.
  destruct (Decode (Body r0) (mkAck 0 EmptyString)) as [ack [bad|]]; [discriminate|].
  destruct (String.eqb (Status ack) (StatusOK kw)) eqn:Hok; cbn [negb]; [|discriminate].
  destruct (Id ack =? orderId) eqn:Hid; cbn [negb]; [|discriminate].
  intros _. exists ack. apply String.eqb_eq in Hok. apply Z.eqb_eq in Hid.
  split; [reflexivity|]. split; assumption.
Qed.

(** What [updateOrderParams] accepts: one of the four order types, one of
    the two durations, a limit price that is not at most zero for a limit
    or stop-limit order and a stop price that is not at most zero for a
    stop or stop-limit order (a price that is not a number passes). *)
Lemma updateOrderParams_None (order : Order) :
  snd (updateOrderParams FormatFloat kw order) = None <->
  (Type_ order = MarketOrder kw \/ Type_ order = LimitOrder kw
   \/ Type_ order = StopOrder kw \/ Type_ order = StopLimitOrder kw)
  /\ (Duration order = GTC kw \/ Duration order = Day kw)
  /\ (Type_ order = LimitOrder kw \/ Type_ order = StopLimitOrder kw ->
      SFleb (Price order) (S754_zero false) = false)
  /\ (Type_ order = StopOrder kw \/ Type_ order = StopLimitOrder kw ->
      SFleb (StopPrice order) (S754_zero false) = false).
Proof.
  unfold updateOrderParams.
  destruct (String.eqb (Type_ order) (MarketOrder kw)) eqn:Hm;
    destruct (String.eqb (Type_ order) (LimitOrder kw)) eqn:Hl;
    destruct (String.eqb (Type_ order) (StopOrder kw)) eqn:Hs;
    destruct (String.eqb (Type_ order) (StopLimitOrder kw)) eqn:Hsl;
    destruct (String.eqb (Duration order) (GTC kw)) eqn:Hg;
    destruct (String.eqb (Duration order) (Day kw)) eqn:Hd;
    destruct (SFleb (Price order) (S754_zero false)) eqn:Hp;
    destruct (SFleb (StopPrice order) (S754_zero false)) eqn:Hsp;
    cbn [negb andb orb snd];
    repeat match goal with
           | H : String.eqb _ _ = true |- _ => apply String.eqb_eq in H
           | H : String.eqb _ _ = false |- _ => apply String.eqb_neq in H
           end;
    (split;
     [ intros H; try discriminate H;
       repeat split; try (intros [?|?]); auto; try contradiction
     | intros (Ht & Hdur & Hlim & Hstop); try reflexivity; exfalso;
       try (destruct Ht as [?|[?|[?|?]]]; contradiction);
       try (destruct Hdur as [?|?]; contradiction);
       try (assert (Hx : true = false) by (apply Hlim; auto); discriminate Hx);
       try (assert (Hx : true = false) by (apply Hstop; auto); discriminate Hx) ]).
Qed.

(** X18. [updateOrderParams] returns no error exactly for an order of one of
    the four types and one of the two durations whose limit price, for a
    limit or stop-limit order, and stop price, for a stop or stop-limit
    order, are not at most zero (a price that is not a number passes).
    The form it then returns holds the type and the duration, the limit
    price under [price] for a limit or stop-limit order only, and the stop
    price under [stop] for a stop or stop-limit order only. *)
Theorem updateOrderParams_spec (order : Order) :
  (snd (updateOrderParams FormatFloat kw order) = None <->
   (Type_ order = MarketOrder kw \/ Type_ order = LimitOrder kw
    \/ Type_ order = StopOrder kw \/ Type_ order = StopLimitOrder kw)
   /\ (Duration order = GTC kw \/ Duration order = Day kw)
   /\ (Type_ order = LimitOrder kw \/ Type_ order = StopLimitOrder kw ->
       SFleb (Price order) (S754_zero false) = false)
   /\ (Type_ order = StopOrder kw \/ Type_ order = StopLimitOrder kw ->
       SFleb (StopPrice order) (S754_zero false) = false))
  /\ (snd (updateOrderParams FormatFloat kw order) = None ->
      Values_Get (fst (updateOrderParams FormatFloat kw order)) "type" = Type_ order
      /\ Values_Get (fst (updateOrderParams FormatFloat kw order)) "duration" = Duration order
      /\ Values_Get (fst (updateOrderParams FormatFloat kw order)) "price"
         = (if String.eqb (Type_ order) (LimitOrder kw)
               || String.eqb (Type_ order) (StopLimitOrder kw)
            then FormatFloat (Price order) "f" 2 else EmptyString)
      /\ Values_Get (fst (updateOrderParams FormatFloat kw order)) "stop"
         = (if String.eqb (Type_ order) (StopOrder kw)
               || String.eqb (Type_ order) (StopLimitOrder kw)
            then FormatFloat (StopPrice order) "f" 2 else EmptyString)).
Proof.
  split; [apply updateOrderParams_None|].
  unfold updateOrderParams.
  destruct (negb (String.eqb (Type_ order) (MarketOrder kw))
            && negb (String.eqb (Type_ order) (LimitOrder kw))
            && negb (String.eqb (Type_ order) (StopOrder kw))
            && negb (String.eqb (Type_ order) (StopLimitOrder kw))); [discriminate|].
  destruct (negb (String.eqb (Duration order) (GTC kw))
            && negb (String.eqb (Duration order) (Day kw))); [discriminate|].
  destruct (String.eqb (Type_ order) (LimitOrder kw)
            || String.eqb (Type_ order) (StopLimitOrder kw));
    [destruct (SFleb (Price order) (S754_zero false)); [discriminate|]|];
    (destruct (String.eqb (Type_ order) (StopOrder kw)
               || String.eqb (Type_ order) (StopLimitOrder kw));
     [destruct (SFleb (StopPrice order) (S754_zero false)); [discriminate|]|]);
    intros _; repeat split.
Qed.

(** X19. [ChangeOrder] sends nothing without an account or for an order that
    [updateOrderParams] refuses, and at most the retry limit plus one
    requests otherwise.  It returns no error only when the transport
    answered the last signed PUT request with status 200 and a body that
    decodes to an acknowledgement of status ok for that very order.  It
    panics only with a negative retry limit. *)
Theorem ChangeOrder_outcomes (orderId : Z) (order : Order) (w : World B) :
  exists (r : run (option failure)) (w' : World B),
    ChangeOrder env Response_Status FormatFloat kw tc orderId order w = (r, w')
    /\ (calls w <= calls w' <= calls w + Z.to_nat (retryLimit tc + 1))%nat
    /\ (calls w' <> calls w ->
        account tc <> EmptyString
        /\ (Type_ order = MarketOrder kw \/ Type_ order = LimitOrder kw
            \/ Type_ order = StopOrder kw \/ Type_ order = StopLimitOrder kw)
        /\ (Duration order = GTC kw \/ Duration order = Day kw)
        /\ (Type_ order = LimitOrder kw \/ Type_ order = StopLimitOrder kw ->
            SFleb (Price order) (S754_zero false) = false)
        /\ (Type_ order = StopOrder kw \/ Type_ order = StopLimitOrder kw ->
            SFleb (StopPrice order) (S754_zero false) = false))
    /\ (r = Done None ->
        exists (req : Request) (r0 : Response) (ack : Ack),
          makeSignedRequest env tc "PUT"
                            (endpoint tc ++ "/v1/accounts/" ++ account tc ++ "/orders/"
                                      ++ FormatInt orderId)
                            (Some (fst (updateOrderParams FormatFloat kw order))) = inr req
          /\ Do env (Nat.pred (calls w')) req = Answered r0
          /\ StatusCode r0 = Http.StatusOK
          /\ Decode (Body r0) (mkAck 0 EmptyString) = (ack, None)
          /\ Status ack = StatusOK kw /\ Id ack = orderId)
    /\ (forall why : error, r = Panicked why -> retryLimit tc < 0).
Proof.
  unfold ChangeOrder.
  destruct (String.eqb (account tc) EmptyString) eqn:Hacc.
  { eexists; eexists. unfold ret. split; [reflexivity|]. split; [lia|].
    split; [intros H; contradiction|]. split; discriminate. }
  apply String.eqb_neq in Hacc.
  pose proof (updateOrderParams_None order) as Hvalid.
  destruct (updateOrderParams FormatFloat kw order) as [form [bad|]].
  { eexists; eexists. unfold ret. split; [reflexivity|]. split; [lia|].
    split; [intros H; contradiction|]. split; discriminate. }
  cbn [fst snd] in *. apply proj1 in Hvalid. specialize (Hvalid eq_refl). unfold bind.
  destruct (do_summary env tc "PUT"
              (endpoint tc ++ "/v1/accounts/" ++ account tc ++ "/orders/" ++ FormatInt orderId)
              (Some form) (retryLimit tc) w)
    as (r & e & w' & new & Hdo & Hcalls & _ & _ & _ & Hnil).
  rewrite Hdo. destruct e as [err|].
  { exists (Done (Some (Passed err))), w'. unfold ret.
    split; [destruct r; reflexivity|]. split; [exact Hcalls|].
    split; [intros _; split; [exact Hacc | exact Hvalid]|]. split; discriminate. }
  destruct (Hnil eq_refl)
    as [(_ & _ & r0 & req & -> & Hstatus & Hreq & Hans) | (Hneg & -> & ->)].
  - rewrite Hstatus. cbn [Z.eqb Http.StatusOK Pos.eqb negb]. unfold ret.
    eexists; eexists. split; [reflexivity|]. split; [exact Hcalls|].
    split; [intros _; split; [exact Hacc | exact Hvalid]|]. split; [|discriminate].
    intros H. injection H as H. apply acknowledged_None in H as (ack & Hdec & Hok & Hid).
    exists req, r0, ack. repeat (split; [assumption|]). assumption.
  - unfold lift. eexists; eexists. split; [reflexivity|]. split; [lia|].
    split; [intros H; contradiction|]. split; [discriminate|]. intros why _. exact Hneg.
Qed.

(** X20. [CancelOrder] sends nothing without an account.  It returns no error
    only when the transport answered the last request, a signed DELETE
    without a body for that order, with status 200 and a body that decodes
    to an acknowledgement of status ok for that very order.  It panics
    only with a negative retry limit. *)
Theorem CancelOrder_outcomes (orderId : Z) (w : World B) :
  exists (r : run (option failure)) (w' : World B),
    CancelOrder env Response_Status kw tc orderId w = (r, w')
    /\ (calls w <= calls w' <= calls w + Z.to_nat (retryLimit tc + 1))%nat
    /\ (calls w' <> calls w -> account tc <> EmptyString)
    /\ (r = Done None ->
        exists (req : Request) (r0 : Response) (ack : Ack),
          makeSignedRequest env tc "DELETE"
                            (endpoint tc ++ "/v1/accounts/" ++ account tc ++ "/orders/"
                                      ++ FormatInt orderId) None = inr req
          /\ Do env (Nat.pred (calls w')) req = Answered r0
          /\ StatusCode r0 = Http.StatusOK
          /\ Decode (Body r0) (mkAck 0 EmptyString) = (ack, None)
          /\ Status ack = StatusOK kw /\ Id ack = orderId)
    /\ (forall why : error, r = Panicked why -> retryLimit tc < 0).
Proof.
  unfold CancelOrder.
  destruct (String.eqb (account tc) EmptyString) eqn:Hacc.
  { eexists; eexists. unfold ret. split; [reflexivity|]. split; [lia|].
    split; [intros H; contradiction|]. split; discriminate. }
  apply String.eqb_neq in Hacc. unfold bind.
  destruct (do_summary env tc "DELETE"
              (endpoint tc ++ "/v1/accounts/" ++ account tc ++ "/orders/" ++ FormatInt orderId)
              None (retryLimit tc) w)
    as (r & e & w' & new & Hdo & Hcalls & _ & _ & _ & Hnil).
  rewrite Hdo. destruct e as [err|].
  { exists (Done (Some (Passed err))), w'. unfold ret.
    split; [destruct r; reflexivity|]. split; [exact Hcalls|].
    split; [intros _; exact Hacc|]. split; discriminate. }
  destruct (Hnil eq_refl)
    as [(_ & _ & r0 & req & -> & Hstatus & Hreq & Hans) | (Hneg & -> & ->)].
  - rewrite Hstatus. cbn [Z.eqb Http.StatusOK Pos.eqb negb]. unfold ret.
    eexists; eexists. split; [reflexivity|]. split; [exact Hcalls|].
    split; [intros _; exact Hacc|]. split; [|discriminate].
    intros H. injection H as H. apply acknowledged_None in H as (ack & Hdec & Hok & Hid).
    exists req, r0, ack. repeat (split; [assumption|]). assumption.
  - unfold lift. eexists; eexists. split; [reflexivity|]. split; [lia|].
    split; [intros H; contradiction|]. split; [discriminate|]. intros why _. exact Hneg.
Qed.

(** The keys the loop over the legs of a multileg order adds. *)
Lemma orderToParams_legs_keys (k : string) (legs : list Order) :
  forall (form : Values) (i : Z),
    0 <= i ->
    In k (map fst (orderToParams_legs FormatFloat form i legs)) ->
    In k (map fst form)
    \/ exists j : Z,
        0 <= j
        /\ (k = "option_symbol[" ++ FormatInt j ++ "]" \/ k = "side[" ++ FormatInt j ++ "]"
            \/ k = "quantity[" ++ FormatInt j ++ "d]").
Proof.
  induction legs as [|leg rest IH]; intros form i Hi; cbn [orderToParams_legs];
    [intros H; left; exact H|].
  intros H. apply IH in H; [|lia]. destruct H as [H|H]; [|right; exact H].
  apply Values_Add_keys in H as [H|H]; [right; exists i; auto|].
  apply Values_Add_keys in H as [H|H]; [right; exists i; auto|].
  apply Values_Add_keys in H as [H|H]; [right; exists i; auto|].
  left. exact H.
Qed.

Lemma orderToParams_legs_keeps (k : string) (legs : list Order) :
  forall (form : Values) (i : Z),
    In k (map fst form) -> In k (map fst (orderToParams_legs FormatFloat form i legs)).
Proof.
  induction legs as [|leg rest IH]; intros form i H; cbn [orderToParams_legs]; [exact H|].
  apply IH. do 3 apply Values_Add_keeps. exact H.
Qed.

(** X21. The form [orderToParams] returns for a multileg or combo order, with
    no error, has no entry under [quantity[i]] for any index [i]: the
    quantities of the legs are filed under other keys, that of the first
    leg under [quantity[0d]]. *)
Theorem orderToParams_multileg_quantity (order : Order) (i : Z) :
  Class order = Multileg kw \/ Class order = Combo kw ->
  0 <= i ->
  snd (orderToParams FormatFloat kw order) = None
  /\ ~ In ("quantity[" ++ FormatInt i ++ "]")
          (map fst (fst (orderToParams FormatFloat kw order)))
  /\ (Class order <> Equity kw -> Class order <> Option kw -> Legs order <> [] ->
      In "quantity[0d]" (map fst (fst (orderToParams FormatFloat kw order)))).
Proof.
  intros Hclass Hi.
  enough (Hmain : snd (orderToParams FormatFloat kw order) = None
                  /\ ~ In ("quantity[" ++ FormatInt i ++ "]")
                          (map fst (fst (orderToParams FormatFloat kw order)))).
  { destruct Hmain as [Hnone Hno]. split; [exact Hnone|]. split; [exact Hno|].
    intros He Ho Hlegs. unfold orderToParams.
    apply String.eqb_neq in He, Ho. rewrite He, Ho. cbn [orb].
    replace (String.eqb (Class order) (Multileg kw) || String.eqb (Class order) (Combo kw))
      with true
      by (symmetry; apply orb_true_iff;
          destruct Hclass as [->| ->]; [left | right]; apply String.eqb_refl).
    cbn [fst]. destruct (Legs order) as [|leg rest]; [contradiction|].
    cbn [orderToParams_legs]. apply orderToParams_legs_keeps.
    change ("quantity[" ++ FormatInt 0 ++ "d]") with "quantity[0d]".
    apply Values_Add_key. }
  assert (Hmulti : String.eqb (Class order) (Multileg kw)
                   || String.eqb (Class order) (Combo kw) = true).
  { apply orb_true_iff. destruct Hclass as [->| ->]; [left | right]; apply String.eqb_refl. }
  unfold orderToParams.
  destruct (String.eqb (Class order) (Equity kw) || String.eqb (Class order) (Option kw)).
  - split; [reflexivity|].
    destruct (String.eqb (Type_ order) (LimitOrder kw)
              || String.eqb (Type_ order) (StopLimitOrder kw));
      destruct (String.eqb (Type_ order) (StopOrder kw)
                || String.eqb (Type_ order) (StopLimitOrder kw));
      cbn; intros H; repeat (destruct H as [H|H]; [discriminate H|]); exact H.
  - rewrite Hmulti. split; [reflexivity|]. cbn [fst].
    intros H. apply orderToParams_legs_keys in H; [|lia].
    destruct H as [H | (j & Hj & [H|[H|H]])]; try discriminate H.
    + revert H.
      destruct (String.eqb (Type_ order) (LimitOrder kw)
                || String.eqb (Type_ order) (StopLimitOrder kw));
        destruct (String.eqb (Type_ order) (StopOrder kw)
                  || String.eqb (Type_ order) (StopLimitOrder kw));
        cbn; intros H; repeat (destruct H as [H|H]; [discriminate H|]); exact H.
    + cbn [append] in H. repeat (injection H as H).
      exact (digits_bracket _ _ (all_digits_FormatInt i Hi) (all_digits_FormatInt j Hj) H).
Qed.

Lemma Values_Add_fresh (v : Values) (key value k : string) :
  k <> key -> ~ In k (map fst v) -> ~ In k (map fst (Values_Add v key value)).
Proof.
  intros Hne Hv H. apply Values_Add_keys in H as [H|H]; [exact (Hne H) | exact (Hv H)].
Qed.

Lemma orderToParams_orders_preview (legs : list Order) :
  forall (form : Values) (i : Z),
    ~ In "preview" (map fst form) ->
    ~ In "preview" (map fst (orderToParams_orders FormatFloat kw form i legs)).
Proof.
  induction legs as [|leg rest IH]; intros form i Hform; cbn [orderToParams_orders];
    [exact Hform|].
  apply IH.
  repeat first [ apply Values_Add_fresh; [discriminate|]
               | match goal with
                 | |- context [if ?c then _ else _] => destruct c
                 end ].
  all: exact Hform.
Qed.

(** No key of the form of an order is [preview]. *)
Lemma orderToParams_preview (order : Order) :
  ~ In "preview" (map fst (fst (orderToParams FormatFloat kw order))).
Proof.
  unfold orderToParams.
  destruct (String.eqb (Class order) (Equity kw) || String.eqb (Class order) (Option kw)).
  - destruct (String.eqb (Type_ order) (LimitOrder kw)
              || String.eqb (Type_ order) (StopLimitOrder kw));
      destruct (String.eqb (Type_ order) (StopOrder kw)
                || String.eqb (Type_ order) (StopLimitOrder kw));
      cbn; intros H; repeat (destruct H as [H|H]; [discriminate H|]); exact H.
  - destruct (String.eqb (Class order) (Multileg kw) || String.eqb (Class order) (Combo kw)).
    + cbn [fst]. intros H. apply orderToParams_legs_keys in H; [|lia].
      destruct H as [H | (j & _ & [H|[H|H]])]; try discriminate H.
      revert H.
      destruct (String.eqb (Type_ order) (LimitOrder kw)
                || String.eqb (Type_ order) (StopLimitOrder kw));
        destruct (String.eqb (Type_ order) (StopOrder kw)
                  || String.eqb (Type_ order) (StopLimitOrder kw));
        cbn; intros H; repeat (destruct H as [H|H]; [discriminate H|]); exact H.
    + destruct (String.eqb (Class order) (OneTriggersOther kw)
                || String.eqb (Class order) (OneCancelsOther kw)
                || String.eqb (Class order) (OneTriggersOneCancelsOther kw)); cbn [fst].
      * apply orderToParams_orders_preview.
        cbn. intros H; repeat (destruct H as [H|H]; [discriminate H|]); exact H.
      * cbn. intros H; repeat (destruct H as [H|H]; [discriminate H|]); exact H.
Qed.

Variable OrderPreview : Type.
Variable OrderPreview_Status : OrderPreview -> string.
Context {DP : Decoder (option OrderPreview)}.

(** X17. With an account selected and an order [orderToParams] accepts, all
    [PreviewOrder] does to the world it does through one call of [do],
    with the retry limit of the client, on a form that reads [true] under
    [preview] and is the form of the order under every other key: no
    request is signed from a form without the mark.  It returns no error
    only together with a preview of status ok. *)
Theorem PreviewOrder_is_marked (order : Order) (w : World B) :
  account tc <> EmptyString ->
  snd (orderToParams FormatFloat kw order) = None ->
  exists (form : Values) (r : run (option OrderPreview * option failure)) (w' : World B),
    Values_Get form "preview" = "true"
    /\ (forall k : string,
           k <> "preview" ->
           Values_Get form k = Values_Get (fst (orderToParams FormatFloat kw order)) k)
    /\ PreviewOrder env Response_Status FormatFloat kw OrderPreview_Status tc order w = (r, w')
    /\ snd (do env tc "POST" (endpoint tc ++ "/v1/accounts/" ++ account tc ++ "/orders")
               (Some form) (retryLimit tc) w) = w'
    /\ (forall p : option OrderPreview,
           r = Done (p, None) ->
           exists preview : OrderPreview,
             p = Some preview /\ OrderPreview_Status preview = StatusOK kw).
Proof.
  intros Hacc Hok. unfold PreviewOrder.
  apply String.eqb_neq in Hacc. rewrite Hacc.
  pose proof (orderToParams_preview order) as Hnew.
  destruct (orderToParams FormatFloat kw order) as [form [bad|]]; [discriminate Hok|].
  cbn [fst snd] in *.
  exists (Values_Add form "preview" "true").
  unfold bind.
  destruct (do env tc "POST" (endpoint tc ++ "/v1/accounts/" ++ account tc ++ "/orders")
               (Some (Values_Add form "preview" "true")) (retryLimit tc) w)
    as [[[[resp|] [err|]]|why] w'].
  5: { eexists; eexists. split; [apply Values_Get_Add_new; exact Hnew|].
       split; [intros k Hk; apply Values_Get_Add_other; exact Hk|].
       split; [reflexivity|]. split; [reflexivity|]. discriminate. }
  1, 3: eexists; eexists; (split; [apply Values_Get_Add_new; exact Hnew|]);
    (split; [intros k Hk; apply Values_Get_Add_other; exact Hk|]);
    (split; [reflexivity|]); (split; [reflexivity|]); discriminate.
  - destruct (negb (StatusCode resp =? Http.StatusOK)).
    { eexists; eexists. split; [apply Values_Get_Add_new; exact Hnew|].
      split; [intros k Hk; apply Values_Get_Add_other; exact Hk|].
      split; [reflexivity|]. split; [reflexivity|]. discriminate. }
    destruct (Decode (Body resp) None) as [[preview|] [bad|]];
      try (eexists; eexists; (split; [apply Values_Get_Add_new; exact Hnew|]);
           (split; [intros k Hk; apply Values_Get_Add_other; exact Hk|]);
           (split; [reflexivity|]); (split; [reflexivity|]); discriminate).
    destruct (String.eqb (OrderPreview_Status preview) (StatusOK kw)) eqn:Hst; cbn [negb].
    + eexists; eexists. split; [apply Values_Get_Add_new; exact Hnew|].
      split; [intros k Hk; apply Values_Get_Add_other; exact Hk|].
      split; [reflexivity|]. split; [reflexivity|].
      intros p H. injection H as <-. exists preview. split; [reflexivity|].
      apply String.eqb_eq. exact Hst.
    + eexists; eexists. split; [apply Values_Get_Add_new; exact Hnew|].
      split; [intros k Hk; apply Values_Get_Add_other; exact Hk|].
      split; [reflexivity|]. split; [reflexivity|]. discriminate.
  - eexists; eexists. split; [apply Values_Get_Add_new; exact Hnew|].
    split; [intros k Hk; apply Values_Get_Add_other; exact Hk|].
    split; [reflexivity|]. split; [reflexivity|]. discriminate.
Qed.

End Orders.

Import Mock MockApi.

(** A spread of two legs: no entry under [quantity[0]]. *)
Lemma orderToParams_multileg_quantity_witness :
  snd (orderToParams formatFloat words spread) = None
  /\ ~ In ("quantity[" ++ FormatInt 0 ++ "]")
          (map fst (fst (orderToParams formatFloat words spread)))
  /\ (Class spread <> Equity words -> Class spread <> Option words -> Legs spread <> [] ->
      In "quantity[0d]" (map fst (fst (orderToParams formatFloat words spread)))).
Proof.
  apply (orderToParams_multileg_quantity formatFloat words spread 0).
  - left. reflexivity.
  - lia.
Defined.

(** An acknowledgement of status ok: the id is returned. *)
Example PlaceOrder_returns_the_id :
  PlaceOrder (Mock.env (answering 200 "42 ok") frozen) statusLine formatFloat words
             trader spread world0
  = (Done (42, None), mkWorld 1 0 0%nat [] []).
Proof. vm_compute. reflexivity. Qed.

(** An order without a limit price is refused before anything is sent. *)
Example ChangeOrder_refuses_a_free_limit :
  ChangeOrder (Mock.env (answering 200 "42 ok") frozen) statusLine formatFloat words
              trader 42
              (mkOrder "equity" "day" "SPY" EmptyString "buy" oneAndAHalf "limit"
                       (S754_zero false) (S754_zero false) []) world0
  = (Done (Some (Made "cannot place limit order without limit price")), world0).
Proof. vm_compute. reflexivity. Qed.

(** The acknowledgement of another order is an error. *)
Example CancelOrder_checks_the_id :
  CancelOrder (Mock.env (answering 200 "42 ok") frozen) statusLine words trader 7 world0
  = (Done (Some (Made "asked to cancel order 7 but received 42 in response")),
     mkWorld 1 0 0%nat [] []).
Proof. vm_compute. reflexivity. Qed.

(** A preview of the spread, answered with status ok. *)
Lemma PreviewOrder_is_marked_witness :
  exists (form : Values) (r : run (option string * option failure)) (w' : World nat),
    Values_Get form "preview" = "true"
    /\ (forall k : string,
           k <> "preview" ->
           Values_Get form k = Values_Get (fst (orderToParams formatFloat words spread)) k)
    /\ PreviewOrder (Mock.env (answering 200 "ok") frozen) statusLine formatFloat words
                    (fun preview : string => preview) trader spread world0 = (r, w')
    /\ snd (do (Mock.env (answering 200 "ok") frozen) trader "POST"
               (endpoint trader ++ "/v1/accounts/" ++ account trader ++ "/orders")
               (Some form) (retryLimit trader) world0) = w'
    /\ (forall p : option string,
           r = Done (p, None) ->
           exists preview : string, p = Some preview /\ preview = StatusOK words).
Proof.
  apply (PreviewOrder_is_marked (Mock.env (answering 200 "ok") frozen) statusLine formatFloat
           words trader string (fun preview : string => preview) spread world0).
  - discriminate.
  - reflexivity.
Defined.

End OrderSpec.

(** ** The quota sleep *)

Module QuotaSpec.
Import GoString Int64 Strings Strconv Time Http Backoff Json World RateLimit Tradier.
Import RateLimitSpec ExecutorSpec.

Section Quota.

Context {B : Type} {BO : BackOff B} {UF : Unmarshaler TradierError}.
Variable env : Env.
Variable tc : Client.
Variables (method url : string) (body : option Values).

(** X7. The parser and the executor together: when the body of a fault that
    does not decode is a quota message announcing the expiry [ms]
    milliseconds after the Unix epoch, later than the clock's reading plus
    the sleep planned so far, the sleep the iteration computes ends after
    that instant and at most one second after it, counted from the second
    reading of the clock; this is the sleep the thread makes when another
    attempt follows and the sleep is not [Stop].  The second added to the expiry makes up for the
    milliseconds the parser drops. *)
Theorem quota_sleep_outlasts_expiry
        (maxRetries i : Z) (v : vars) (w : World B)
        (req : Request) (r : Response) (te : TradierError) (e : error) (ms : Z) :
  makeSignedRequest env tc method url body = inr req ->
  Do env (calls w) req = Answered r ->
  StatusCode r <> StatusOK ->
  Unmarshal (Body r) (blankFault r) = (te, Some e) ->
  HasPrefix (Body r) "Quota Violation" = true ->
  ParseInt (List.last (Fields (Body r)) EmptyString) = inr ms ->
  0 <= ms ->
  Now env (ticks w) + sleep v < Unix (ms / 1000) 0 ->
  minDuration <= Unix (ms / 1000) 0 - Now env (S (ticks w)) <= maxDuration - Second ->
  exists (v' : vars) (w' : World B),
    attempt env tc method url body maxRetries i v w = (Done (Continue v'), w')
    /\ Unix 0 (ms * Millisecond) < Now env (S (ticks w)) + sleep v'
       <= Unix 0 (ms * Millisecond) + Second
    /\ (i + 1 <= maxRetries -> sleep v' <> Stop ->
        slept w' = (slept w ++ [sleep v'])%list).
Proof.
  intros Hreq Hdo Hstatus Hdecode Hprefix Hparse Hms Hlater Hfits.
  destruct (attempt_unstructured_fault env tc method url body maxRetries i v w req r te e
                                       Hreq Hdo Hstatus Hdecode)
    as (expiry & v' & w' & Hexp & Hrun & _ & _ & Hquota & _ & Hsleeps & _ & _).
  assert (Hexpiry : expiry = Unix (ms / 1000) 0).
  { unfold parseQuotaViolationExpiration in Hexp. rewrite Hprefix in Hexp. cbn [negb] in Hexp.
    rewrite (nth_error_last _ _ EmptyString (Fields_nonempty (Body r) Hprefix)) in Hexp.
    rewrite Hparse in Hexp. injection Hexp as <-.
    rewrite Z.quot_div_nonneg by lia. reflexivity. }
  subst expiry. destruct (Hquota Hlater) as (_ & Hsleep & _).
  specialize (Hsleep ltac:(lia)).
  exists v', w'. split; [exact Hrun|].
  assert (Hwake : Now env (S (ticks w)) + sleep v' = Unix (ms / 1000 + 1) 0)
    by (rewrite Hsleep; unfold Unix, Second; lia).
  pose proof (Z.div_mod ms 1000 ltac:(lia)) as Hdiv.
  pose proof (Z.mod_pos_bound ms 1000 ltac:(lia)) as Hmod.
  split.
  - rewrite Hwake. unfold Unix, Second, Millisecond. lia.
  - exact Hsleeps.
Qed.

End Quota.

Import Mock.

(** The clock stands at 2006-01-02T15:04:05Z and the quota is announced to
    expire a second and a half later: the sleep is two seconds. *)
Lemma quota_sleep_outlasts_expiry_witness :
  exists (v' : vars) (w' : World nat),
    attempt (Mock.env (answering 429 "Quota Violation expires in 1136214246500") frozen)
            client "GET" "/v1/markets/clock" None 3 0 (mkVars None None 0) world0
    = (Done (Continue v'), w')
    /\ Unix 0 (1136214246500 * Millisecond) < frozen 1%nat + sleep v'
       <= Unix 0 (1136214246500 * Millisecond) + Second
    /\ (0 + 1 <= 3 -> sleep v' <> Stop -> slept w' = (slept world0 ++ [sleep v'])%list).
Proof.
  refine (quota_sleep_outlasts_expiry
            (Mock.env (answering 429 "Quota Violation expires in 1136214246500") frozen)
            client "GET" "/v1/markets/clock" None 3 0 (mkVars None None 0) world0
            (mkRequest "GET" "/v1/markets/clock"
                       [("Accept", "application/json"); ("Authorization", "Bearer token");
                        ("Content-Type", "application/x-www-form-urlencoded")] None)
            (mkResponse 429 "Quota Violation expires in 1136214246500")
            (mkTradierError (mkFault EmptyString (mkFaultDetail EmptyString)) 429)
            syntaxError 1136214246500 _ _ _ _ _ _ _ _ _).
  - reflexivity.
  - reflexivity.
  - discriminate.
  - vm_compute. reflexivity.
  - vm_compute. reflexivity.
  - vm_compute. reflexivity.
  - lia.
  - vm_compute. reflexivity.
  - vm_compute. split; discriminate.
Defined.

End QuotaSpec.

(** ** The stream of market events *)

Module StreamSpec.
Import GoString Int64 Strconv Time Http Backoff Json World RateLimit Tradier Lib Api LoopSpec.

Section Stream.

Context {B : Type} {BO : BackOff B} {UF : Unmarshaler TradierError}.
Variable env : Env.
Variable Response_Status : Response -> string.
Context {DS : Decoder Session}.
Variable tc : Client.

(** X22. [StreamMarketEvents] sends nothing for an empty list of symbols.
    Otherwise it sends at most the retry limit plus one requests for the
    session and at most one for the stream.  A stream it returns is the
    body of the answer of status 200 to the last request sent, a signed
    POST to the URL of the session that a response of status 200 decoded
    to, with a form carrying the session's id and the symbols joined by
    commas.  It never returns a nil stream without an error, nor the error
    of a nil response; it panics only with a negative retry limit. *)
Theorem StreamMarketEvents_outcomes (symbols filter : list string) (w : World B) :
  exists (r : run (option string * option failure)) (w' : World B),
    StreamMarketEvents env Response_Status tc symbols filter w = (r, w')
    /\ (calls w <= calls w' <= calls w + Z.to_nat (retryLimit tc + 1) + 1)%nat
    /\ (symbols = [] ->
        r = Done (None, Some (Made "list of symbols is required")) /\ w' = w)
    /\ (forall stream : option string,
           r = Done (stream, None) ->
           exists (r1 : Response) (session : Session) (form : Values)
                  (req : Request) (r2 : Response),
             StatusCode r1 = Http.StatusOK
             /\ Decode (Body r1) (mkSession EmptyString EmptyString) = (session, None)
             /\ Values_Get form "sessionid" = SessionId session
             /\ Values_Get form "symbols" = Join symbols ","
             /\ makeSignedRequest env tc "POST" (Url session) (Some form) = inr req
             /\ Do env (Nat.pred (calls w')) req = Answered r2
             /\ StatusCode r2 = Http.StatusOK
             /\ stream = Some (Body r2))
    /\ r <> Done (None, Some (Made "nil response with no error"))
    /\ (forall why : error, r = Panicked why -> retryLimit tc < 0).
Proof.
  unfold StreamMarketEvents.
  destruct symbols as [|symbol symbols].
  { cbn [List.length Nat.eqb]. unfold ret. eexists; eexists.
    split; [reflexivity|]. split; [lia|]. split; [intros _; split; reflexivity|].
    split; [discriminate|]. split; discriminate. }
  cbn [List.length Nat.eqb]. unfold bind at 1.
  destruct (do_summary env tc "POST" (endpoint tc ++ "/v1/markets/events/session")
                       None (retryLimit tc) w)
    as (r & e & w1 & new & Hdo & Hcalls & _ & _ & _ & Hnil).
  rewrite Hdo. destruct e as [err|].
  { exists (Done (None, Some (Passed err))), w1. unfold ret.
    split; [destruct r; reflexivity|]. split; [lia|]. split; [discriminate|].
    split; [discriminate|]. split; discriminate. }
  destruct (Hnil eq_refl)
    as [(_ & _ & r1 & req1 & -> & Hstatus1 & _ & _) | (Hneg & -> & ->)].
  2: { unfold lift. eexists; eexists. split; [reflexivity|]. split; [lia|].
       split; [discriminate|]. split; [discriminate|]. split; [discriminate|].
       intros why _. exact Hneg. }
  rewrite Hstatus1. cbn [Z.eqb Http.StatusOK Pos.eqb negb].
  destruct (Decode (Body r1) (mkSession EmptyString EmptyString)) as [session [bad|]] eqn:Hdec.
  { unfold ret. eexists; eexists. split; [reflexivity|]. split; [lia|].
    split; [discriminate|]. split; [discriminate|]. split; discriminate. }
  set (form := Values_Add
                 (if (0 <? List.length filter)%nat
                  then Values_Add
                         (Values_Add (Values_Add (Values_Add [] "linebreak" "true")
                                                 "sessionid" (SessionId session))
                                     "symbols" (Join (symbol :: symbols) ","))
                         "filter" (Join filter ",")
                  else Values_Add (Values_Add (Values_Add [] "linebreak" "true")
                                              "sessionid" (SessionId session))
                                  "symbols" (Join (symbol :: symbols) ","))
                 "advancedDetails" "true").
  assert (Hform : Values_Get form "sessionid" = SessionId session
                  /\ Values_Get form "symbols" = Join (symbol :: symbols) ",")
    by (unfold form; destruct (0 <? List.length filter)%nat; split; reflexivity).
  unfold bind.
  destruct (do_summary env tc "POST" (Url session) (Some form) 0 w1)
    as (r & e & w2 & new2 & Hdo2 & Hcalls2 & _ & _ & _ & Hnil2).
  rewrite Hdo2. change (Z.to_nat (0 + 1)) with 1%nat in Hcalls2.
  destruct e as [err|].
  { exists (Done (None, Some (Passed err))), w2. unfold ret.
    split; [destruct r; reflexivity|]. split; [lia|]. split; [discriminate|].
    split; [discriminate|]. split; discriminate. }
  destruct (Hnil2 eq_refl)
    as [(_ & _ & r2 & req & -> & Hstatus2 & Hreq & Hans) | (Hneg & _)]; [|lia].
  rewrite Hstatus2. cbn [Z.eqb Http.StatusOK Pos.eqb negb]. unfold ret.
  eexists; eexists. split; [reflexivity|]. split; [lia|]. split; [discriminate|].
  split; [|split; discriminate].
  intros stream H. injection H as <-.
  exists r1, session, form, req, r2. destruct Hform as [Hid Hsym].
  repeat (split; [assumption|]). reflexivity.
Qed.

End Stream.

Import Mock MockApi.

(** A session, then the stream of its events. *)
Example StreamMarketEvents_opens_the_stream :
  StreamMarketEvents (Mock.env sessionThenEvents frozen) statusLine client ["SPY"] [] world0
  = (Done (Some "quote SPY 281.18", None), mkWorld 2 0 0%nat [] []).
Proof. vm_compute. reflexivity. Qed.

End StreamSpec.
